(** * SimBatch: the per-row simulation pipeline of [simbatch.py]

    A shallow embedding of the batch driver: the Python string operations
    the script relies on, the external processes it spawns (as a
    deterministic environment answering each command from the history of
    the commands run so far), and the row loop with its three ways of
    ending a row: normally, by [sys.exit], or by an uncaught exception. *)

From Stdlib Require Import String Ascii List ZArith Bool Lia Arith.
From Stdlib Require Import DecimalString.
From Stdlib Require DecimalZ DecimalPos.
Import ListNotations.

Local Open Scope nat_scope.
Local Open Scope list_scope.
Local Open Scope string_scope.

(* ================================================================== *)
(** ** Python [str] operations                                          *)
(* ================================================================== *)

(** Characters are modelled by [ascii], one per code point below U+0100. *)
Module Py.

(** [str.isspace] on the code points below U+0100: the whitespace that
    [str.strip()] without argument removes. *)
Definition isspace (c : ascii) : bool :=
  let n := nat_of_ascii c in
  (((9 <=? n) && (n <=? 13)) || ((28 <=? n) && (n <=? 32))
   || (n =? 133) || (n =? 160))%nat.

Definition len (s : string) : nat := String.length s.

(** [s.lstrip] / [s.rstrip] / [s.strip] over a character class. *)
Fixpoint lstrip_by (f : ascii -> bool) (s : string) : string :=
  match s with
  | EmptyString => EmptyString
  | String c r => if f c then lstrip_by f r else s
  end.

Fixpoint rstrip_by (f : ascii -> bool) (s : string) : string :=
  match s with
  | EmptyString => EmptyString
  | String c r =>
      match rstrip_by f r with
      | EmptyString => if f c then EmptyString else String c EmptyString
      | r' => String c r'
      end
  end.

Definition strip_by (f : ascii -> bool) (s : string) : string :=
  rstrip_by f (lstrip_by f s).

(** [s.strip()] *)
Definition strip (s : string) : string := strip_by isspace s.

(** [s.strip(chars)] with a one-character [chars]. *)
Definition strip_char (ch : ascii) (s : string) : string :=
  strip_by (Ascii.eqb ch) s.

(** [s.split(sep)] with a one-character separator: empty fields are kept
    and the result of splitting the empty string is [['']]. *)
Fixpoint split (sep : ascii) (s : string) : list string :=
  match s with
  | EmptyString => [EmptyString]
  | String c r =>
      if Ascii.eqb c sep then EmptyString :: split sep r
      else match split sep r with
           | h :: t => String c h :: t
           | [] => [String c EmptyString]
           end
  end.

(** [sep.join(parts)] *)
Fixpoint join (sep : string) (parts : list string) : string :=
  match parts with
  | [] => EmptyString
  | [p] => p
  | p :: rest => p ++ sep ++ join sep rest
  end.

(** [s.startswith(p)] *)
Fixpoint startswith (p s : string) : bool :=
  match p, s with
  | EmptyString, _ => true
  | String a p', String b s' => Ascii.eqb a b && startswith p' s'
  | String _ _, EmptyString => false
  end.

(** The scan of [s.replace(old, new)] for a non-empty [old]: occurrences
    are taken leftmost first and do not overlap.  [skip] counts the
    characters of the occurrence just matched that are still to be
    dropped. *)
Fixpoint replace_scan (old new : string) (skip : nat) (s : string) : string :=
  match s with
  | EmptyString => EmptyString
  | String c r =>
      match skip with
      | S k => replace_scan old new k r
      | O =>
          if startswith old s
          then new ++ replace_scan old new (len old - 1) r
          else String c (replace_scan old new 0 r)
      end
  end.

(** With an empty [old], Python puts [new] before every character and at
    the end. *)
Fixpoint intersperse (new : string) (s : string) : string :=
  match s with
  | EmptyString => new
  | String c r => new ++ String c (intersperse new r)
  end.

(** [s.replace(old, new)] *)
Definition replace (old new : string) (s : string) : string :=
  match old with
  | EmptyString => intersperse new s
  | String _ _ => replace_scan old new 0 s
  end.

(** The line terminator. *)
Definition nl : string := String (ascii_of_nat 10) EmptyString.

(** [str(n)] for an [int]. *)
Definition str (n : Z) : string := NilZero.string_of_int (Z.to_int n).

(** [parts[-1]] and [parts[:-1]] together; [None] stands for the
    [IndexError] that [parts[-1]] raises on an empty list. *)
Fixpoint pop_last (parts : list string) : option (list string * string) :=
  match parts with
  | [] => None
  | [p] => Some ([], p)
  | p :: rest =>
      match pop_last rest with
      | Some (init, l) => Some (p :: init, l)
      | None => None
      end
  end.

End Py.

(* ================================================================== *)
(** ** Data model                                                       *)
(* ================================================================== *)

(** A Python [dict] from text to text, as its items in insertion order.
    [inputs] maps a position (as text) to an input name; [outputs] maps an
    output name to its capture identifier. *)
Definition Dict : Type := list (string * string).

Fixpoint dict_get (d : Dict) (k : string) : option string :=
  match d with
  | [] => None
  | (k', v) :: r => if String.eqb k' k then Some v else dict_get r k
  end.

Definition dict_keys (d : Dict) : list string := map fst d.

(** The module-level settings once the command line is parsed. *)
Record RunConfig : Type := mkConfig {
  working_dir : string;
  simulation_steps : string;
  isml : bool;
  benchCore : bool;
  user_stop : Z;               (* -v / --stop-on-valid-of, -1 when absent *)
  linear_data_range : string;
  data_type : string;
  header : bool;
  omit_prefix : bool
}.

(** What [numpy] contributes: the conversion of a token to [float32]
    ([None] is the [ValueError] of [astype]) and the comparison [<=]. *)
Record Float32 : Type := mkFloat32 {
  f32 : Type;
  f32_of_string : string -> option f32;
  f32_le : f32 -> f32 -> bool
}.

(** [npy_isnan]: a NaN is the one value that is not [<=] itself. *)
Definition f32_isnan (fm : Float32) (v : f32 fm) : bool :=
  negb (f32_le fm v v).

(** [np.argmax] on a one-dimensional array: the running maximum [mp] is
    replaced by an element [v] when [v <= mp] does not hold, and the scan
    stops at the first NaN, which counts as the maximum. *)
Fixpoint argmax_scan (fm : Float32) (mp : f32 fm) (best i : nat)
    (l : list (f32 fm)) : nat :=
  match l with
  | [] => best
  | v :: r =>
      if negb (f32_le fm v mp) then
        if f32_isnan fm v then i else argmax_scan fm v i (S i) r
      else argmax_scan fm mp best (S i) r
  end.

(** [None] is the [ValueError] raised on an empty array. *)
Definition argmax (fm : Float32) (l : list (f32 fm)) : option nat :=
  match l with
  | [] => None
  | v :: r => if f32_isnan fm v then Some 0 else Some (argmax_scan fm v 0 1 r)
  end.

(** [np.asarray(tokens).astype(np.float32)] *)
Fixpoint astype (fm : Float32) (tokens : list string) : option (list (f32 fm)) :=
  match tokens with
  | [] => Some []
  | t :: r =>
      match f32_of_string fm t, astype fm r with
      | Some v, Some vs => Some (v :: vs)
      | _, _ => None
      end
  end.

(* ================================================================== *)
(** ** Processes, console, output file                                  *)
(* ================================================================== *)

(** A finished child process.  Its two streams are held as the text that
    [.decode()] makes of them: the script decodes what it reads (lines 95,
    109, 122, 211 and 214), and a child whose output is not UTF-8, on which
    [.decode()] raises [UnicodeDecodeError], is outside this model. *)
Record Completed : Type := mkCompleted {
  returncode : Z;
  p_stdout : string;
  p_stderr : string
}.

(** The world outside the script: what a command answers, given the
    commands run before it. *)
Definition Env : Type := list string -> string -> Completed.

Inductive Exn : Type :=
| KeyError (k : string)
| ValueError
| IndexError.

Record State : Type := mkState {
  calls : list string;         (* the commands run so far, oldest first *)
  console : list string;       (* one entry per [print] *)
  outfile : string;            (* what was written to the output file *)
  stopOnValidOf : Z            (* the global of that name *)
}.

(** A run ends a step normally, by [sys.exit(code)], or by an uncaught
    exception. *)
Inductive Outcome (A : Type) : Type :=
| Done (a : A) (st : State)
| Exit (code : Z) (st : State)
| Raise (e : Exn) (st : State).

Arguments Done {A} a st.
Arguments Exit {A} code st.
Arguments Raise {A} e st.

Definition M (A : Type) : Type := State -> Outcome A.

Definition ret {A} (a : A) : M A := fun st => Done a st.

Definition bind {A B} (m : M A) (k : A -> M B) : M B :=
  fun st =>
    match m st with
    | Done a st' => k a st'
    | Exit c st' => Exit c st'
    | Raise e st' => Raise e st'
    end.

Notation "x <- m ;; k" := (bind m (fun x => k))
  (at level 61, m at next level, right associativity).
Notation "m ;; k" := (bind m (fun _ => k))
  (at level 61, right associativity).

Definition sys_exit {A} (code : Z) : M A := fun st => Exit code st.
Definition raise {A} (e : Exn) : M A := fun st => Raise e st.

Definition print (s : string) : M unit :=
  fun st => Done tt (mkState (calls st) (console st ++ [s])%list
                             (outfile st) (stopOnValidOf st)).

Definition write (s : string) : M unit :=
  fun st => Done tt (mkState (calls st) (console st)
                             (outfile st ++ s) (stopOnValidOf st)).

Definition set_stop (v : Z) : M unit :=
  fun st => Done tt (mkState (calls st) (console st) (outfile st) v).

Definition get_stop : M Z := fun st => Done (stopOnValidOf st) st.

(** [subprocess.Popen(command, shell=True, ...)] followed by [p.wait()]. *)
Definition popen (env : Env) (command : string) : M Completed :=
  fun st => Done (env (calls st) command)
                 (mkState (calls st ++ [command])%list (console st)
                          (outfile st) (stopOnValidOf st)).

Definition state_of {A} (o : Outcome A) : State :=
  match o with
  | Done _ st | Exit _ st | Raise _ st => st
  end.

(* ================================================================== *)
(** ** The script, from the header to the end of the row loop           *)
(* ================================================================== *)

(** The double quote that the simbox directives are wrapped in. *)
Definition dq : string := String (ascii_of_nat 34) EmptyString.

Section Script.

Variable env : Env.
Variable fm : Float32.
Variable cfg : RunConfig.
Variable inputs outputs : Dict.
Variable prefix : string.      (* the display prefix, as resolved *)

Definition simbox : string :=
  "simbox -simbox-file " ++ working_dir cfg ++ "/simboxtemp.json".

(** Line 155: the simbox file of the previous row is removed. *)
Definition rm_command : string :=
  "rm -f " ++ working_dir cfg ++ "/simboxtemp.json".

(** The ten general directives, in the order they are appended. *)
Definition config_commands : list string :=
  [ simbox ++ " -add " ++ dq ++ "config:show_io_pre" ++ dq;
    simbox ++ " -suspend 0";
    simbox ++ " -add " ++ dq ++ "config:show_io_post" ++ dq;
    simbox ++ " -suspend 1";
    simbox ++ " -add " ++ dq ++ "config:show_ticks" ++ dq;
    simbox ++ " -suspend 2";
    simbox ++ " -add " ++ dq ++ "config:show_pc" ++ dq;
    simbox ++ " -suspend 3";
    simbox ++ " -add " ++ dq ++ "config:show_disasm" ++ dq;
    simbox ++ " -suspend 4" ].

(** [for command in commands: ...] *)
Fixpoint run_config (commands : list string) : M unit :=
  match commands with
  | [] => ret tt
  | command :: rest =>
      p <- popen env command ;;
      if (returncode p =? 0)%Z then run_config rest
      else print ("Error preparing simbox command: " ++ command) ;;
           sys_exit 2%Z
  end.

Definition bind_command (input_name input_value : string) : string :=
  simbox ++ " -add " ++ dq ++ "absolute:0:set:" ++ input_name ++ ":"
         ++ input_value ++ dq.

(** [for i in range(len(inputs_values)): ...], from index [i] on. *)
Fixpoint bind_inputs (i : nat) (inputs_values : list string) : M unit :=
  match inputs_values with
  | [] => ret tt
  | input_value :: rest =>
      match dict_get inputs (Py.str (Z.of_nat i)) with
      | None => raise (KeyError (Py.str (Z.of_nat i)))
      | Some input_name =>
          p <- popen env (bind_command input_name input_value) ;;
          if (returncode p =? 0)%Z then bind_inputs (S i) rest
          else print ("Error setting input " ++ input_name ++ " to "
                      ++ input_value) ;;
               sys_exit 2%Z
      end
  end.

(** ["o"+str(len(outputs)-1)] *)
Definition last_output_id : string :=
  "o" ++ Py.str (Z.of_nat (length outputs) - 1).

(** The encoding a capture identifier is shown in. *)
Definition encoding (id : string) : string :=
  if benchCore cfg && String.eqb id last_output_id
  then "unsigned" else data_type cfg.

Definition capture_command (id : string) : string :=
  simbox ++ " -add " ++ dq ++ "onexit:show:" ++ id ++ ":" ++ encoding id
         ++ dq.

(** [for output_name in outputs: ...] over the keys still to visit. *)
Fixpoint capture_outputs (names : list string) : M unit :=
  match names with
  | [] => ret tt
  | output_name :: rest =>
      match dict_get outputs output_name with
      | None => raise (KeyError output_name)
      | Some id =>
          p <- popen env (capture_command id) ;;
          if (returncode p =? 0)%Z then capture_outputs rest
          else print ("Error getting output " ++ output_name) ;;
               sys_exit 2%Z
      end
  end.

Definition engine_command (stop : Z) : string :=
  "bondmachine -bondmachine-file " ++ working_dir cfg
    ++ "/bondmachine.json -simbox-file " ++ working_dir cfg
    ++ "/simboxtemp.json -sim-stop-on-valid-of " ++ Py.str stop
    ++ " -sim -sim-interactions " ++ simulation_steps cfg ++ " "
    ++ linear_data_range cfg.

(** Lines 203-214: the stop target, the engine, its readout. *)
Definition simulate : M string :=
  set_stop (Z.of_nat (length outputs) - 1) ;;
  stop <- get_stop ;;
  p <- popen env (engine_command stop) ;;
  if (returncode p =? 0)%Z then ret (Py.strip (p_stdout p))
  else print "Error running simulation" ;;
       print (p_stderr p) ;;
       sys_exit 2%Z.

(** Lines 215-216. *)
Definition strip_prefix (outline : string) : string :=
  if omit_prefix cfg then Py.replace prefix "" outline else outline.

(** Lines 219-222: the line without its last token, and that token. *)
Definition split_latency (outline : string) : Exn + (string * string) :=
  match Py.pop_last (Py.split " " outline) with
  | None => inl IndexError
  | Some (init, latency_cycles) => inr (Py.join " " init, latency_cycles)
  end.

(** Lines 226-228: the class index of a line of probabilities. *)
Definition classify (outline : string) : Exn + nat :=
  match astype fm (Py.split " " outline) with
  | None => inl ValueError
  | Some vals =>
      match argmax fm vals with
      | None => inl ValueError
      | Some index => inr index
      end
  end.

(** Lines 224-233: the fields of the record, comma separated. *)
Definition format_fields (outline : string) : Exn + string :=
  if isml cfg then
    match classify outline with
    | inl e => inl e
    | inr index =>
        inr (Py.replace " " "," outline ++ "," ++ Py.str (Z.of_nat index))
    end
  else inr (Py.replace " " "," (Py.strip_char "," outline)).

(** Lines 215-239 on the stripped readout: everything written to the
    output file for one row. *)
Definition decode (readout : string) : Exn + string :=
  let outline := strip_prefix readout in
  if benchCore cfg then
    match split_latency outline with
    | inl e => inl e
    | inr (outline', latency_cycles) =>
        match format_fields outline' with
        | inl e => inl e
        | inr fields => inr (fields ++ "," ++ latency_cycles ++ Py.nl)
        end
    end
  else
    match format_fields outline with
    | inl e => inl e
    | inr fields => inr (fields ++ Py.nl)
    end.

Definition column_error : string :=
  "Error: The input file has an invalid number of columns".

(** Lines 173-214: the sandbox directives, the input bindings, the
    capture requests and the simulation. *)
Definition prepare_and_simulate (inputs_values : list string) : M string :=
  run_config config_commands ;;
  bind_inputs 0 inputs_values ;;
  capture_outputs (dict_keys outputs) ;;
  simulate.

(** Lines 215-239: the readout is decoded and the record written. *)
Definition write_record (readout : string) : M unit :=
  match decode readout with
  | inl e => raise e
  | inr row => write row
  end.

Definition running (line : string) : string :=
  "Running simulation with inputs: " ++ line.

(** The body of the accepted branch, lines 152-239. *)
Definition run_row (line : string) (inputs_values : list string) : M unit :=
  print (running line) ;;
  _ <- popen env rm_command ;;
  readout <- prepare_and_simulate inputs_values ;;
  write_record readout.

(** One turn of [for line in input_file_handle]. *)
Definition process_line (raw : string) : M unit :=
  let line := Py.strip raw in
  let inputs_values := Py.split "," line in
  if (length inputs_values =? 0)%nat then ret tt
  else if (length inputs_values =? length inputs)%nat
       then run_row line inputs_values
       else print column_error.

Fixpoint row_loop (lines : list string) : M unit :=
  match lines with
  | [] => ret tt
  | raw :: rest => process_line raw ;; row_loop rest
  end.

(** ["probability_0,probability_1,..."], lines 138-139. *)
Fixpoint probability_columns (i n : nat) : string :=
  match n with
  | O => ""
  | S n' => "probability_" ++ Py.str (Z.of_nat i) ++ ","
              ++ probability_columns (S i) n'
  end.

(** Lines 136-143: the text of the header row. *)
Definition header_text : string :=
  if header cfg then
    (if isml cfg
     then probability_columns 0 (length outputs) ++ "classification"
     else "")
    ++ (if benchCore cfg then ",latency_cycles" else "")
    ++ Py.nl
  else "".

(** Lines 136-245. *)
Definition batch (lines : list string) : M unit :=
  write header_text ;; row_loop lines.

End Script.

(** The state the script starts the header in. *)
Definition initial_state (cfg : RunConfig) (history : list string) : State :=
  mkState history [] "" (user_stop cfg).

(* ================================================================== *)
(** ** The vocabulary of the specification                              *)
(* ================================================================== *)

(** The last boundary of [s] for a class [f] of separating characters:
    the text before it (when there is a boundary) and the token after
    it. *)
Fixpoint cut_last (f : ascii -> bool) (s : string) : option string * string :=
  match s with
  | EmptyString => (None, EmptyString)
  | String c r =>
      match cut_last f r with
      | (Some pre, tok) => (Some (String c pre), tok)
      | (None, tok) =>
          if f c then (Some EmptyString, tok) else (None, String c tok)
      end
  end.

Definition is_blank (c : ascii) : bool := Ascii.eqb c " ".

(** The token after the last space, and the line before that space. *)
Definition last_token (s : string) : string := snd (cut_last is_blank s).

Definition before_last_token (s : string) : string :=
  match fst (cut_last is_blank s) with
  | Some pre => pre
  | None => EmptyString
  end.

(** The token after the last whitespace character of any kind. *)
Definition token_after_last_whitespace (s : string) : string :=
  snd (cut_last Py.isspace s).

(** [s.find(p)], with [None] for -1. *)
Fixpoint find (p s : string) : option nat :=
  if Py.startswith p s then Some 0
  else match s with
       | EmptyString => None
       | String _ r => option_map S (find p r)
       end.

(** A readout field that carries the prefix at its end and nowhere
    before. *)
Definition prefixed_once (p field : string) : Prop :=
  find p (field ++ p) = Some (String.length field).

(** The rows that pass the column-count test of line 151. *)
Definition accepted (inputs : Dict) (raw : string) : bool :=
  (length (Py.split "," (Py.strip raw)) =? length inputs)%nat.

(** The completion statuses of the commands [ext], run one after the
    other from the history [h]. *)
Fixpoint statuses (env : Env) (h : list string) (ext : list string) : list Z :=
  match ext with
  | [] => []
  | c :: r => returncode (env h c) :: statuses env (h ++ [c])%list r
  end.

(* ================================================================== *)
(** ** Orders and maxima                                                *)
(* ================================================================== *)

(** [k] is the position of the first greatest element of [vals]. *)
Definition is_first_argmax (fm : Float32) (vals : list (f32 fm)) (k : nat) : Prop :=
  exists m,
    nth_error vals k = Some m /\
    (forall j v, nth_error vals j = Some v -> f32_le fm v m = true) /\
    (forall j v, j < k -> nth_error vals j = Some v -> f32_le fm m v = false).

(** [<=] is transitive on floating-point numbers. *)
Definition le_transitive (fm : Float32) : Prop :=
  forall a b c : f32 fm,
    f32_le fm a b = true -> f32_le fm b c = true -> f32_le fm a c = true.

(** The elements are numbers: any two of them compare one way or the
    other (a NaN compares with nothing, itself included). *)
Definition comparable (fm : Float32) (vals : list (f32 fm)) : Prop :=
  forall a b, In a vals -> In b vals ->
    f32_le fm a b = true \/ f32_le fm b a = true.

(* ================================================================== *)
(** ** A stand-in for [float32] on plain decimal numerals               *)
(* ================================================================== *)

(** Numerals such as [0.25] or [42] are read exactly, as a mantissa and a
    number of decimals, and compared as numbers.  This is not the rounding
    of [float32]; it obeys the same order laws and lets the script be run
    on concrete readouts. *)
Module ExactDecimal.

Definition t : Type := (Z * nat)%type.

Definition digit (c : ascii) : option Z :=
  let n := nat_of_ascii c in
  if ((48 <=? n) && (n <=? 57))%nat then Some (Z.of_nat (n - 48)) else None.

Fixpoint scan (m : Z) (dot any : bool) (scale : nat) (s : string) : option t :=
  match s with
  | EmptyString => if any then Some (m, scale) else None
  | String c r =>
      if Ascii.eqb c "." then
        if dot then None else scan m true any scale r
      else
        match digit c with
        | Some d =>
            scan (10 * m + d)%Z dot true (if dot then S scale else scale) r
        | None => None
        end
  end.

Definition of_string (s : string) : option t := scan 0%Z false false 0 s.

Definition le (a b : t) : bool :=
  (fst a * 10 ^ Z.of_nat (snd b) <=? fst b * 10 ^ Z.of_nat (snd a))%Z.

Definition model : Float32 := mkFloat32 t of_string le.

End ExactDecimal.

(** The same stand-in with a NaN: the token [nan] converts to it, as it
    does for [float32], and it compares with nothing, itself included. *)
Module DecimalOrNaN.

Definition t : Type := option ExactDecimal.t.

Definition of_string (s : string) : option t :=
  if String.eqb s "nan" then Some None
  else option_map Some (ExactDecimal.of_string s).

Definition le (a b : t) : bool :=
  match a, b with
  | Some x, Some y => ExactDecimal.le x y
  | _, _ => false
  end.

Definition model : Float32 := mkFloat32 t of_string le.

End DecimalOrNaN.

(** A configuration to run examples with: the defaults of the script. *)
Definition default_config : RunConfig :=
  mkConfig "working_dir" "200" false false (-1)%Z "" "float32" false true.

Definition with_modes (ml bench hdr : bool) (c : RunConfig) : RunConfig :=
  mkConfig (working_dir c) (simulation_steps c) ml bench (user_stop c)
           (linear_data_range c) (data_type c) hdr (omit_prefix c).

(** The same settings with another [-v] value. *)
Definition with_user_stop (v : Z) (c : RunConfig) : RunConfig :=
  mkConfig (working_dir c) (simulation_steps c) (isml c) (benchCore c) v
           (linear_data_range c) (data_type c) (header c) (omit_prefix c).

(** The value of [outline] when line 224 is reached: the readout without
    its prefixes and, in benchmark mode, without its last token. *)
Definition probability_line (cfg : RunConfig) (prefix readout : string) : string :=
  let outline := strip_prefix cfg prefix readout in
  if benchCore cfg then
    match split_latency outline with
    | inr (outline', _) => outline'
    | inl _ => outline
    end
  else outline.

(** What lines 237-238 write behind the fields. *)
Definition latency_field (cfg : RunConfig) (prefix readout : string) : string :=
  if benchCore cfg then
    match split_latency (strip_prefix cfg prefix readout) with
    | inr (_, latency_cycles) => "," ++ latency_cycles
    | inl _ => ""
    end
  else "".

(** The characters of a text, and texts without a line break. *)
Definition chars (s : string) : list ascii := list_ascii_of_string s.

Definition newline : ascii := ascii_of_nat 10.

Definition single_line (s : string) : Prop := ~ In newline (chars s).

(** No space occurs in [s]. *)
Definition space_free (s : string) : Prop :=
  forall c, In c (chars s) -> is_blank c = false.

(** The only whitespace of [s] is the space character. *)
Definition space_delimited (s : string) : Prop :=
  forall c, In c (chars s) -> Py.isspace c = true -> c = " "%char.

(** States that differ from [st] in one component. *)
Definition add_calls (st : State) (ext : list string) : State :=
  mkState (calls st ++ ext)%list (console st) (outfile st) (stopOnValidOf st).

Definition add_console (st : State) (msgs : list string) : State :=
  mkState (calls st) (console st ++ msgs)%list (outfile st) (stopOnValidOf st).

Definition with_stop (st : State) (v : Z) : State :=
  mkState (calls st) (console st) (outfile st) v.

(** Every command of [ext], run from the history [h], completed with
    status 0. *)
Definition all_zero (env : Env) (h ext : list string) : Prop :=
  Forall (fun z => z = 0%Z) (statuses env h ext).

Section Plan.

Variable env : Env.
Variable fm : Float32.
Variable cfg : RunConfig.
Variable inputs outputs : Dict.
Variable prefix : string.

(** The bind commands of a row, from position [i] on; [None] when a
    position has no input name. *)
Fixpoint bind_commands (i : nat) (inputs_values : list string)
    : option (list string) :=
  match inputs_values with
  | [] => Some []
  | input_value :: rest =>
      match dict_get inputs (Py.str (Z.of_nat i)), bind_commands (S i) rest with
      | Some input_name, Some cs =>
          Some (bind_command cfg input_name input_value :: cs)
      | _, _ => None
      end
  end.

(** The capture requests for the output names [names]. *)
Fixpoint capture_commands (names : list string) : option (list string) :=
  match names with
  | [] => Some []
  | output_name :: rest =>
      match dict_get outputs output_name, capture_commands rest with
      | Some id, Some cs => Some (capture_command cfg outputs id :: cs)
      | _, _ => None
      end
  end.

(** Everything a row runs before the engine. *)
Definition row_commands (inputs_values : list string) : option (list string) :=
  match bind_commands 0 inputs_values, capture_commands (dict_keys outputs) with
  | Some binds, Some captures =>
      Some (rm_command cfg :: config_commands cfg ++ binds ++ captures)%list
  | _, _ => None
  end.

Definition the_engine_command : string :=
  engine_command cfg (Z.of_nat (length outputs) - 1).

(** The record of the accepted row [raw] when it starts after the
    commands [hist]: its values are bound, the engine runs, its readout is
    decoded. *)
Definition record_of (hist : list string) (raw : string) : option string :=
  match row_commands (Py.split "," (Py.strip raw)) with
  | Some cmds =>
      match decode fm cfg prefix
              (Py.strip (p_stdout (env (hist ++ cmds)%list the_engine_command)))
      with
      | inr row => Some row
      | inl _ => None
      end
  | None => None
  end.

(** The history after that row. *)
Definition history_after (hist : list string) (raw : string) : list string :=
  match row_commands (Py.split "," (Py.strip raw)) with
  | Some cmds => (hist ++ cmds ++ [the_engine_command])%list
  | None => hist
  end.

(** The records of the accepted rows [rows], one after the other. *)
Fixpoint expected_records (hist : list string) (rows : list string) : list string :=
  match rows with
  | [] => []
  | raw :: rest =>
      match record_of hist raw with
      | Some row => row :: expected_records (history_after hist raw) rest
      | None => []
      end
  end.

(** A call of the simulation engine carries the last output as its stop
    target. *)
Definition stops_on_last_output (command : string) : Prop :=
  Py.startswith "bondmachine" command = true -> command = the_engine_command.

(** What holds of a step that runs checked commands only, started in
    [st]: the history grows by commands [ext], nothing is written to the
    output file, a step that ends normally or by an exception saw status 0
    from each of them and printed nothing, and an exit has code 2 and a
    diagnostic before it. *)
Definition checked {A : Type} (st : State) (o : Outcome A) : Prop :=
  exists ext,
    calls (state_of o) = (calls st ++ ext)%list /\
    Forall stops_on_last_output ext /\
    outfile (state_of o) = outfile st /\
    match o with
    | Done _ st' | Raise _ st' =>
        all_zero env (calls st) ext /\ console st' = console st
    | Exit code st' =>
        code = 2%Z /\
        exists diag, diag <> [] /\ console st' = (console st ++ diag)%list
    end.

(** The history after the accepted rows [rows]. *)
Definition final_history (hist : list string) (rows : list string) : list string :=
  fold_left history_after rows hist.

End Plan.

(** Capture identifiers numbered in the order of declaration. *)
Definition numbered_outputs (outputs : Dict) : Prop :=
  forall i name id,
    nth_error outputs i = Some (name, id) -> id = "o" ++ Py.str (Z.of_nat i).

(* ================================================================== *)
(** ** The capture plan in the words of the specification               *)
(* ================================================================== *)

(** The identifier of the last declared output: the capture identifier of
    the last entry of the output map. *)
Definition last_declared_id (outputs : Dict) : option string :=
  match rev outputs with
  | [] => None
  | (_, id) :: _ => Some id
  end.

(** The encoding the specification gives a capture identifier: the
    configured data type, except in benchmark mode for the identifier of
    the last declared output, which is shown as an unsigned integer. *)
Definition spec_encoding (cfg : RunConfig) (outputs : Dict) (id : string)
    : string :=
  match last_declared_id outputs with
  | Some last_id =>
      if benchCore cfg && String.eqb id last_id then "unsigned"
      else data_type cfg
  | None => data_type cfg
  end.

(** A design whose listing gives the identifiers out of order. *)
Definition swapped_outputs : Dict := [("0", "o1"); ("1", "o0")].

(** A world for examples: the engine prints [0f0.25 0f0.75 0f17], a
    command that sets an input to [boom] fails, every other command
    succeeds in silence. *)
Definition demo_env : Env :=
  fun _ command =>
    if Py.startswith "bondmachine" command
    then mkCompleted 0 ("0f0.25 0f0.75 0f17" ++ Py.nl) ""
    else if String.eqb command
              ("simbox -simbox-file working_dir/simboxtemp.json -add "
                 ++ dq ++ "absolute:0:set:a:boom" ++ dq)
         then mkCompleted 1 "" "no such value"
         else mkCompleted 0 "" "".

Definition demo_inputs : Dict := [("0", "a"); ("1", "b")].
Definition demo_outputs : Dict := [("0", "o0"); ("1", "o1"); ("2", "o2")].

(* ================================================================== *)
(** ** The command line and the design introspection                    *)
(* ================================================================== *)

(** [sub in s] for two strings: [sub] occurs in [s]. *)
Definition py_contains (sub s : string) : bool :=
  match find sub s with
  | Some _ => true
  | None => false
  end.

(** [s.split()] without argument: runs of whitespace separate the tokens
    and there is no empty token. *)
Fixpoint py_split_ws (s : string) : list string :=
  match s with
  | EmptyString => []
  | String c r =>
      if Py.isspace c then py_split_ws r
      else
        match r with
        | EmptyString => [String c EmptyString]
        | String c' _ =>
            if Py.isspace c' then String c EmptyString :: py_split_ws r
            else match py_split_ws r with
                 | h :: t => String c h :: t
                 | [] => [String c EmptyString]
                 end
        end
  end.

(** What [readline] returns call after call until the end of the text:
    the lines with their terminator, and a last line that has none. *)
Fixpoint py_readlines (s : string) : list string :=
  match s with
  | EmptyString => []
  | String c r =>
      if Ascii.eqb c newline then String c EmptyString :: py_readlines r
      else match py_readlines r with
           | h :: t => String c h :: t
           | [] => [String c EmptyString]
           end
  end.

(** [d[k] = v]: the value of a key that is there is replaced in place, a
    new key goes to the end. *)
Fixpoint dict_set (d : Dict) (k v : string) : Dict :=
  match d with
  | [] => [(k, v)]
  | (k', v') :: r =>
      if String.eqb k' k then (k', v) :: r else (k', v') :: dict_set r k v
  end.

(** The globals of lines 31-42 that the command line sets ([stopOnValidOf]
    is the component of that name of [State]). *)
Record Settings : Type := mkSettings {
  s_working_dir : string;
  s_input_file : string;
  s_output_file : string;
  s_simulation_steps : string;
  s_isml : bool;
  s_benchCore : bool;
  s_linear_data_range : string;
  s_data_type : string;
  s_prefix : string;
  s_header : bool;
  s_omit_prefix : bool
}.

(** Lines 31-42. *)
Definition initial_settings : Settings :=
  mkSettings "" "" "" "200" false false "" "float32" "0f" false true.

Definition set_working_dir (s : Settings) (a : string) : Settings :=
  mkSettings a (s_input_file s) (s_output_file s) (s_simulation_steps s)
    (s_isml s) (s_benchCore s) (s_linear_data_range s) (s_data_type s)
    (s_prefix s) (s_header s) (s_omit_prefix s).

Definition set_input_file (s : Settings) (a : string) : Settings :=
  mkSettings (s_working_dir s) a (s_output_file s) (s_simulation_steps s)
    (s_isml s) (s_benchCore s) (s_linear_data_range s) (s_data_type s)
    (s_prefix s) (s_header s) (s_omit_prefix s).

Definition set_output_file (s : Settings) (a : string) : Settings :=
  mkSettings (s_working_dir s) (s_input_file s) a (s_simulation_steps s)
    (s_isml s) (s_benchCore s) (s_linear_data_range s) (s_data_type s)
    (s_prefix s) (s_header s) (s_omit_prefix s).

Definition set_simulation_steps (s : Settings) (a : string) : Settings :=
  mkSettings (s_working_dir s) (s_input_file s) (s_output_file s) a
    (s_isml s) (s_benchCore s) (s_linear_data_range s) (s_data_type s)
    (s_prefix s) (s_header s) (s_omit_prefix s).

Definition set_isml (s : Settings) (b : bool) : Settings :=
  mkSettings (s_working_dir s) (s_input_file s) (s_output_file s)
    (s_simulation_steps s) b (s_benchCore s) (s_linear_data_range s)
    (s_data_type s) (s_prefix s) (s_header s) (s_omit_prefix s).

Definition set_benchCore (s : Settings) (b : bool) : Settings :=
  mkSettings (s_working_dir s) (s_input_file s) (s_output_file s)
    (s_simulation_steps s) (s_isml s) b (s_linear_data_range s)
    (s_data_type s) (s_prefix s) (s_header s) (s_omit_prefix s).

Definition set_linear_data_range (s : Settings) (a : string) : Settings :=
  mkSettings (s_working_dir s) (s_input_file s) (s_output_file s)
    (s_simulation_steps s) (s_isml s) (s_benchCore s) a
    (s_data_type s) (s_prefix s) (s_header s) (s_omit_prefix s).

Definition set_data_type (s : Settings) (a : string) : Settings :=
  mkSettings (s_working_dir s) (s_input_file s) (s_output_file s)
    (s_simulation_steps s) (s_isml s) (s_benchCore s) (s_linear_data_range s)
    a (s_prefix s) (s_header s) (s_omit_prefix s).

Definition set_prefix (s : Settings) (a : string) : Settings :=
  mkSettings (s_working_dir s) (s_input_file s) (s_output_file s)
    (s_simulation_steps s) (s_isml s) (s_benchCore s) (s_linear_data_range s)
    (s_data_type s) a (s_header s) (s_omit_prefix s).

Definition set_header (s : Settings) (b : bool) : Settings :=
  mkSettings (s_working_dir s) (s_input_file s) (s_output_file s)
    (s_simulation_steps s) (s_isml s) (s_benchCore s) (s_linear_data_range s)
    (s_data_type s) (s_prefix s) b (s_omit_prefix s).

Definition set_omit_prefix (s : Settings) (b : bool) : Settings :=
  mkSettings (s_working_dir s) (s_input_file s) (s_output_file s)
    (s_simulation_steps s) (s_isml s) (s_benchCore s) (s_linear_data_range s)
    (s_data_type s) (s_prefix s) (s_header s) b.

(** The settings as the row loop reads them; [stop] is the value of the
    global [stopOnValidOf]. *)
Definition to_config (s : Settings) (stop : Z) : RunConfig :=
  mkConfig (s_working_dir s) (s_simulation_steps s) (s_isml s) (s_benchCore s)
           stop (s_linear_data_range s) (s_data_type s) (s_header s)
           (s_omit_prefix s).

(** Lines 7-29. *)
Definition usage_text : list string :=
  [ "SimBatch: A batch simulator for BondMachine designs";
    "";
    "SimBatch allows you to run batch simulations of BondMachine designs using a CSV input file and producing a CSV output file.";
    "It expects the BondMachine design to be already compiled in the working directory called `bondmachine.json`.";
    "";
    "Usage: simbatch [options]";
    "Options:";
    "  -w, --working-dir DIR        set the working directory (default: working_dir)";
    "  -i, --input-file FILE        set the input CSV file (default: simbatch_input.csv)";
    "  -o, --output-file FILE       set the output CSV file (default: working_dir/simbatch_output.csv)";
    "  -s, --simulation-steps N     number of simulation steps (default: 200)";
    "  -m, --ml                     enable ML output formatting (probabilities + classification)";
    "  -b, --benchcore              enable benchcore mode";
    "  -H, --header                 include header row in output CSV";
    "  -P, --prefix                 include data type prefix in output CSV";
    "  -d, --data-type TYPE         data type for outputs (e.g. float32) (default: float32)";
    "  --linear-data-range RANGE    pass a linear data range option to bondmachine/bmnumbers";
    "  -v, --stop-on-valid-of N     stop on valid of output index N";
    "  -h, --help                   show this help message and exit";
    "";
    "Example:";
    "  simbatch.py -w working_dir -i input.csv -o out.csv -s 200" ].

Fixpoint print_all (texts : list string) : M unit :=
  match texts with
  | [] => ret tt
  | t :: rest => print t ;; print_all rest
  end.

Definition usage : M unit := print_all usage_text.

(** The option letters and names handed to [getopt] at line 46. *)
Definition shortopts : string := "w:i:o:s:mbd:v:hH".

Definition longopts : list string :=
  [ "working-dir="; "input-file="; "output-file="; "simulation-steps=";
    "ml"; "benchcore"; "linear-data-range="; "data-type=";
    "stop-on-valid-of="; "help"; "header" ].

(** The option names [getopt] can report for them: a dash and a letter,
    two dashes and a name without its [=]. *)
Fixpoint short_names (spec : string) : list string :=
  match spec with
  | EmptyString => []
  | String c r =>
      if Ascii.eqb c ":" then short_names r
      else String "-" (String c EmptyString) :: short_names r
  end.

Definition long_name (spec : string) : string :=
  "--" ++ Py.rstrip_by (Ascii.eqb "=") spec.

Definition registered_options : list string :=
  (short_names shortopts ++ map long_name longopts)%list.

(** [o in (x, y)] *)
Definition is_either (o x y : string) : bool :=
  String.eqb o x || String.eqb o y.

Section Prelude.

Variable env : Env.

(** [int(text)], with [None] for its [ValueError]. *)
Variable py_int : string -> option Z.

(** The body of [for o, a in opts], lines 53-77. *)
Definition apply_option (s : Settings) (o a : string) : M Settings :=
  if is_either o "-w" "--working-dir" then ret (set_working_dir s a)
  else if is_either o "-i" "--input-file" then ret (set_input_file s a)
  else if is_either o "-o" "--output-file" then ret (set_output_file s a)
  else if is_either o "-s" "--simulation-steps"
       then ret (set_simulation_steps s a)
  else if py_contains o "--linear-data-range"
       then ret (set_linear_data_range s ("-linear-data-range " ++ a))
  else if is_either o "-d" "--data-type" then ret (set_data_type s a)
  else if is_either o "-m" "--ml" then ret (set_isml s true)
  else if is_either o "-b" "--benchcore" then ret (set_benchCore s true)
  else if is_either o "-h" "--help" then usage ;; sys_exit 0%Z
  else if is_either o "-v" "--stop-on-valid-of" then
         match py_int a with
         | Some v => set_stop v ;; ret s
         | None => raise ValueError
         end
  else if is_either o "-H" "--header" then ret (set_header s true)
  else if is_either o "-P" "--prefix" then ret (set_omit_prefix s false)
  else ret s.

Fixpoint parse_options (opts : list (string * string)) (s : Settings)
    : M Settings :=
  match opts with
  | [] => ret s
  | (o, a) :: rest => s' <- apply_option s o a ;; parse_options rest s'
  end.

(** Lines 45-77; [None] is the [GetoptError] of [getopt]. *)
Definition parse_command_line (parsed : option (list (string * string)))
    : M Settings :=
  match parsed with
  | None => usage ;; sys_exit 2%Z
  | Some opts => parse_options opts initial_settings
  end.

(** Lines 79-84. *)
Definition apply_defaults (s : Settings) : Settings :=
  let s1 := if String.eqb (s_working_dir s) ""
            then set_working_dir s "working_dir" else s in
  let s2 := if String.eqb (s_input_file s1) ""
            then set_input_file s1 "simbatch_input.csv" else s1 in
  if String.eqb (s_output_file s2) ""
  then set_output_file s2 (s_working_dir s2 ++ "/simbatch_output.csv")
  else s2.

(** Line 86. *)
Definition last_step (s : Settings) : M string :=
  match py_int (s_simulation_steps s) with
  | Some n => ret (Py.str (n - 1))
  | None => raise ValueError
  end.

(** Lines 98-100 and 112-114: a line of two tokens enters the map. *)
Definition add_line (d : Dict) (o : string) : Dict :=
  match py_split_ws o with
  | [k; v] => dict_set d k v
  | _ => d
  end.

(** Lines 89-100 and 103-114: the map a listing command prints. *)
Definition load_map (command : string) : M Dict :=
  p <- popen env command ;;
  if (returncode p =? 0)%Z
  then ret (fold_left add_line (py_readlines (p_stdout p)) [])
  else ret [].

Definition list_inputs_command (s : Settings) : string :=
  "bondmachine -bondmachine-file " ++ s_working_dir s
    ++ "/bondmachine.json -list-inputs " ++ s_linear_data_range s.

Definition list_outputs_command (s : Settings) : string :=
  "bondmachine -bondmachine-file " ++ s_working_dir s
    ++ "/bondmachine.json -list-outputs " ++ s_linear_data_range s.

Definition prefix_command (s : Settings) : string :=
  "bmnumbers -get-prefix " ++ s_data_type s ++ " " ++ s_linear_data_range s.

(** Lines 117-125: every line read replaces the prefix by its stripped
    text. *)
Definition resolve_prefix (s : Settings) : M string :=
  p <- popen env (prefix_command s) ;;
  if (returncode p =? 0)%Z
  then ret (fold_left (fun _ o => Py.strip o) (py_readlines (p_stdout p))
                      (s_prefix s))
  else ret (s_prefix s).

(** Lines 45-126: the settings, the two signal maps and the prefix. *)
Definition prelude (parsed : option (list (string * string)))
    : M (Settings * Dict * Dict) :=
  s0 <- parse_command_line parsed ;;
  let s := apply_defaults s0 in
  _ <- last_step s ;;
  inputs <- load_map (list_inputs_command s) ;;
  outputs <- load_map (list_outputs_command s) ;;
  prefix <- resolve_prefix s ;;
  ret (set_prefix s prefix, inputs, outputs).

(** Lines 45-126 and 136-243, with the two files taken as opened and the
    input table given by its lines. *)
Definition script (fm : Float32) (parsed : option (list (string * string)))
    (lines : list string) : M unit :=
  r <- prelude parsed ;;
  stop <- get_stop ;;
  let '(s, inputs, outputs) := r in
  batch env fm (to_config s stop) inputs outputs (s_prefix s) lines.

End Prelude.

(** The state the script starts in. *)
Definition start_state : State := mkState [] [] "" (-1)%Z.

(** The value of a key in a listing: that of the last line of two tokens
    that names it. *)
Fixpoint lookup_lines (lines : list string) (k : string) : option string :=
  match lines with
  | [] => None
  | o :: rest =>
      match lookup_lines rest k with
      | Some v => Some v
      | None =>
          match py_split_ws o with
          | [k'; v] => if String.eqb k' k then Some v else None
          | _ => None
          end
      end
  end.

(** A reading of decimal numerals for examples. *)
Definition demo_int (text : string) : option Z :=
  match ExactDecimal.of_string (Py.strip text) with
  | Some (m, O) => Some m
  | _ => None
  end.

(** No comma occurs in [s]. *)
Definition comma_free (s : string) : Prop := ~ In ","%char (chars s).

(** The header row without its terminator. *)
Definition header_names (ml bench : bool) (n : nat) : list string :=
  ((if ml
    then map (fun j => ("probability_" ++ Py.str (Z.of_nat j))%string) (seq 0 n)
           ++ ["classification"]
    else [""])
   ++ (if bench then ["latency_cycles"] else []))%list.

(** How often the engine was called among the commands [cmds]. *)
Definition engine_calls (cmds : list string) : nat :=
  length (filter (Py.startswith "bondmachine") cmds).

(** Two states with the same history, the same output file and the same
    stop target: they may differ in what was printed. *)
Definition same_run (st1 st2 : State) : Prop :=
  calls st1 = calls st2
  /\ outfile st1 = outfile st2
  /\ stopOnValidOf st1 = stopOnValidOf st2.

(** Two outcomes of the same kind, in such states. *)
Definition same_result {A : Type} (o1 o2 : Outcome A) : Prop :=
  match o1, o2 with
  | Done a1 st1, Done a2 st2 => a1 = a2 /\ same_run st1 st2
  | Exit c1 st1, Exit c2 st2 => c1 = c2 /\ same_run st1 st2
  | Raise e1 st1, Raise e2 st2 => e1 = e2 /\ same_run st1 st2
  | _, _ => False
  end.

(** A design for examples: two inputs, three outputs, the prefix [0f];
    the engine prints one value for each output. *)
Definition design_env : Env :=
  fun _ command =>
    if py_contains "-list-inputs" command
    then mkCompleted 0 ("0 i0" ++ Py.nl ++ "1 i1" ++ Py.nl) ""
    else if py_contains "-list-outputs" command
    then mkCompleted 0 ("0 o0" ++ Py.nl ++ "1 o1" ++ Py.nl ++ "2 o2" ++ Py.nl) ""
    else if py_contains "-get-prefix" command
    then mkCompleted 0 ("0f" ++ Py.nl) ""
    else if Py.startswith "bondmachine" command
    then mkCompleted 0 ("0f0.25 0f0.75 0f17" ++ Py.nl) ""
    else mkCompleted 0 "" "".

(** A step whose result does not depend on what was printed before. *)
Definition respects {A : Type} (m : M A) : Prop :=
  forall st1 st2, same_run st1 st2 -> same_result (m st1) (m st2).

(** Every command succeeds. *)
Definition all_succeed (env : Env) : Prop :=
  forall h command, returncode (env h command) = 0%Z.

(** Every column of a row of [n] values has an input name. *)
Definition positions_named (inputs : Dict) (n : nat) : Prop :=
  forall j, j < n -> dict_get inputs (Py.str (Z.of_nat j)) <> None.

(* ================================================================== *)
(** ** Lemmas on the string operations                                  *)
(* ================================================================== *)

Section StringLemmas.

Lemma append_nil_r (s : string) : s ++ "" = s.
Proof. induction s; simpl; congruence. Qed.

Lemma append_assoc (a b c : string) : (a ++ b) ++ c = a ++ b ++ c.
Proof. induction a; simpl; congruence. Qed.

Lemma length_append (a b : string) :
  String.length (a ++ b) = String.length a + String.length b.
Proof. induction a; simpl; congruence. Qed.

Lemma split_not_nil (sep : ascii) (s : string) : Py.split sep s <> [].
Proof.
  destruct s as [|c r]; simpl; [discriminate|].
  destruct (Ascii.eqb c sep); [discriminate|].
  destruct (Py.split sep r); discriminate.
Qed.

Lemma split_length_pos (sep : ascii) (s : string) :
  1 <= length (Py.split sep s).
Proof.
  pose proof (split_not_nil sep s) as H.
  destruct (Py.split sep s); [congruence | simpl; lia].
Qed.

Lemma join_split (sep : ascii) (s : string) :
  Py.join (String sep "") (Py.split sep s) = s.
Proof.
  induction s as [|c r IH]; [reflexivity|].
  simpl Py.split. destruct (Ascii.eqb_spec c sep) as [->|Hne].
  - pose proof (split_not_nil sep r) as Hn.
    destruct (Py.split sep r) as [|h t] eqn:E; [congruence|].
    change (Py.join (String sep "") ("" :: h :: t))
      with ("" ++ String sep "" ++ Py.join (String sep "") (h :: t)).
    rewrite IH. reflexivity.
  - pose proof (split_not_nil sep r) as Hn.
    destruct (Py.split sep r) as [|h t] eqn:E; [congruence|].
    destruct t as [|h' t'].
    + simpl in *. congruence.
    + change (Py.join (String sep "") (String c h :: h' :: t'))
        with (String c (h ++ String sep "" ++ Py.join (String sep "") (h' :: t'))).
      f_equal. exact IH.
Qed.

(** The code's [parts[-1]] / [parts[:-1]] on a split line is the cut at
    the last separator. *)
Lemma pop_last_split (sep : ascii) (s : string) :
  Py.pop_last (Py.split sep s) =
    match cut_last (fun c => Ascii.eqb c sep) s with
    | (None, tok) => Some ([], tok)
    | (Some pre, tok) => Some (Py.split sep pre, tok)
    end.
Proof.
  induction s as [|c r IH]; [reflexivity|].
  simpl Py.split. simpl cut_last.
  pose proof (split_not_nil sep r) as Hn.
  destruct (cut_last (fun c0 => Ascii.eqb c0 sep) r) as [[pre|] tok];
    destruct (Ascii.eqb c sep) eqn:Ec;
    destruct (Py.split sep r) as [|h t] eqn:E; try congruence.
  - simpl. simpl in IH. rewrite IH. rewrite Ec. reflexivity.
  - simpl Py.split. rewrite Ec.
    pose proof (split_not_nil sep pre) as Hp.
    destruct t as [|h' t'].
    + simpl in IH. injection IH as H1 H2. symmetry in H1. contradiction.
    + change (Py.pop_last (String c h :: h' :: t'))
        with (match Py.pop_last (h' :: t') with
              | Some (init, l) => Some (String c h :: init, l)
              | None => None
              end).
      change (Py.pop_last (h :: h' :: t'))
        with (match Py.pop_last (h' :: t') with
              | Some (init, l) => Some (h :: init, l)
              | None => None
              end) in IH.
      destruct (Py.pop_last (h' :: t')) as [[init l]|]; [|discriminate].
      injection IH as <- <-. reflexivity.
  - simpl. simpl in IH. rewrite IH. reflexivity.
  - destruct t as [|h' t'].
    + simpl in IH. injection IH as <-. reflexivity.
    + change (Py.pop_last (h :: h' :: t'))
        with (match Py.pop_last (h' :: t') with
              | Some (init, l) => Some (h :: init, l)
              | None => None
              end) in IH.
      destruct (Py.pop_last (h' :: t')) as [[init l]|]; discriminate.
Qed.

Lemma cut_last_ext (f g : ascii -> bool) (s : string) :
  (forall c, In c (list_ascii_of_string s) -> f c = g c) ->
  cut_last f s = cut_last g s.
Proof.
  induction s as [|c r IH]; intros H; [reflexivity|].
  simpl. rewrite IH by (intros; apply H; simpl; auto).
  rewrite (H c) by (simpl; auto). reflexivity.
Qed.

End StringLemmas.

Section ReplaceLemmas.

Lemma startswith_refl_app (p r : string) : Py.startswith p (p ++ r) = true.
Proof.
  induction p as [|a p IH]; simpl; [reflexivity|].
  rewrite Ascii.eqb_refl. exact IH.
Qed.

(** A match of [p] only looks at the first [len p] characters. *)
Lemma startswith_app (p x r : string) :
  String.length p <= String.length x ->
  Py.startswith p (x ++ r) = Py.startswith p x.
Proof.
  revert x. induction p as [|a p IH]; intros x Hlen; [reflexivity|].
  destruct x as [|b x]; simpl in *; [lia|].
  rewrite IH by lia. reflexivity.
Qed.

Lemma replace_scan_skip (old new x r : string) :
  Py.replace_scan old new (String.length x) (x ++ r)
  = Py.replace_scan old new 0 r.
Proof.
  induction x as [|c x IH]; simpl.
  - destruct r; reflexivity.
  - exact IH.
Qed.

Lemma find_none_not_nil (p s : string) : find p s = None -> p <> "".
Proof. intros H ->. destruct s; discriminate. Qed.

(** Nothing is removed from a text the prefix does not occur in. *)
Lemma replace_scan_absent (p s : string) :
  find p s = None -> Py.replace_scan p "" 0 s = s.
Proof.
  induction s as [|c r IH]; intros H; [reflexivity|].
  simpl in H. simpl.
  destruct (Py.startswith p (String c r)); [discriminate|].
  destruct (find p r); [discriminate|].
  rewrite IH by reflexivity. reflexivity.
Qed.

(** A field that carries the prefix at its end loses it, and the scan
    goes on behind it. *)
Lemma replace_scan_field (p a rest : string) :
  p <> "" ->
  prefixed_once p a ->
  Py.replace_scan p "" 0 (a ++ p ++ rest)
  = a ++ Py.replace_scan p "" 0 rest.
Proof.
  intros Hp. unfold prefixed_once.
  induction a as [|c a IH]; intros H.
  - destruct p as [|c p']; [congruence|].
    change ("" ++ String c p' ++ rest) with (String c (p' ++ rest)).
    cbn [Py.replace_scan].
    change (String c (p' ++ rest)) with (String c p' ++ rest).
    rewrite startswith_refl_app.
    replace (Py.len (String c p') - 1) with (String.length p')
      by (unfold Py.len; simpl; lia).
    rewrite replace_scan_skip. reflexivity.
  - change (String c a ++ p ++ rest) with (String c (a ++ p ++ rest)).
    cbn [Py.replace_scan].
    change (String c a ++ p) with (String c (a ++ p)) in H.
    cbn [find] in H.
    assert (Hs : Py.startswith p (String c (a ++ p ++ rest))
                 = Py.startswith p (String c (a ++ p))).
    { rewrite <- append_assoc.
      change (String c ((a ++ p) ++ rest)) with (String c (a ++ p) ++ rest).
      apply startswith_app. simpl. rewrite length_append. lia. }
    rewrite Hs.
    destruct (Py.startswith p (String c (a ++ p))); [discriminate|].
    destruct (find p (a ++ p)) as [n|] eqn:E; [|discriminate].
    simpl in H. injection H as ->.
    rewrite IH by reflexivity. reflexivity.
Qed.

Lemma concat_fields_app (p a : string) (fields : list string) (last : string) :
  String.concat "" (map (fun f => f ++ p) (a :: fields)) ++ last
  = a ++ p ++ (String.concat "" (map (fun f => f ++ p) fields) ++ last).
Proof.
  destruct fields as [|b fields].
  - simpl. rewrite append_assoc. reflexivity.
  - cbn [map String.concat]. cbn [map] in *.
    rewrite !append_assoc. reflexivity.
Qed.

Lemma concat_cons (a : string) (fields : list string) :
  String.concat "" (a :: fields) = a ++ String.concat "" fields.
Proof. destruct fields; simpl; [rewrite append_nil_r|]; reflexivity. Qed.

(** [replace(prefix, "")] on a line of prefixed fields. *)
Lemma replace_prefixed_fields (p : string) (fields : list string) (last : string) :
  Forall (prefixed_once p) fields ->
  find p last = None ->
  Py.replace p "" (String.concat "" (map (fun f => f ++ p) fields) ++ last)
  = String.concat "" fields ++ last.
Proof.
  intros Hf Hl. pose proof (find_none_not_nil _ _ Hl) as Hp.
  destruct p as [|c0 p0] eqn:Ep; [congruence|]. rewrite <- Ep in *.
  assert (Hr : forall s, Py.replace p "" s = Py.replace_scan p "" 0 s)
    by (rewrite Ep; reflexivity).
  rewrite Hr. clear Hr Ep.
  induction Hf as [|a fields Ha Hf IH].
  - simpl. apply replace_scan_absent. assumption.
  - rewrite concat_fields_app, concat_cons.
    rewrite replace_scan_field by assumption.
    rewrite IH, append_assoc. reflexivity.
Qed.

End ReplaceLemmas.

(* ================================================================== *)
(** ** The class index                                                  *)
(* ================================================================== *)

Section Argmax.

Variable fm : Float32.
Hypothesis le_trans : le_transitive fm.

Lemma nth_error_snoc_inv (A : Type) (l : list A) (x : A) j w :
  nth_error (l ++ [x])%list j = Some w ->
  (j < length l /\ nth_error l j = Some w) \/ (j = length l /\ w = x).
Proof.
  intros H. destruct (Nat.lt_ge_cases j (length l)) as [Hlt|Hge].
  - left. split; [assumption|]. rewrite nth_error_app1 in H; assumption.
  - right. rewrite nth_error_app2 in H by assumption.
    destruct (j - length l) as [|n] eqn:E; simpl in H.
    + split; [lia | congruence].
    + destruct n; discriminate.
Qed.

Lemma argmax_scan_first (l : list (f32 fm)) :
  forall (done : list (f32 fm)) (mp : f32 fm) (best : nat),
    comparable fm (done ++ l)%list ->
    nth_error done best = Some mp ->
    (forall j v, nth_error done j = Some v -> f32_le fm v mp = true) ->
    (forall j v, j < best -> nth_error done j = Some v ->
                 f32_le fm mp v = false) ->
    is_first_argmax fm (done ++ l)%list
      (argmax_scan fm mp best (length done) l).
Proof.
  induction l as [|v r IH]; intros done mp best Hcmp Hbest Hmax Hfirst.
  - rewrite app_nil_r. exists mp. auto.
  - assert (Hlen : length (done ++ [v])%list = S (length done))
      by (rewrite length_app; simpl; lia).
    assert (Hin_mp : In mp (done ++ v :: r)%list)
      by (apply in_or_app; left; eapply nth_error_In; eassumption).
    assert (Hin_v : In v (done ++ v :: r)%list)
      by (apply in_or_app; right; left; reflexivity).
    assert (Heq : (done ++ v :: r = (done ++ [v]) ++ r)%list)
      by (rewrite <- app_assoc; reflexivity).
    simpl argmax_scan. rewrite Heq, <- Hlen.
    destruct (f32_le fm v mp) eqn:Ele; simpl negb; cbv iota.
    + apply IH.
      * rewrite <- Heq. exact Hcmp.
      * rewrite nth_error_app1; [assumption|].
        apply nth_error_Some. congruence.
      * intros j w Hj. apply nth_error_snoc_inv in Hj.
        destruct Hj as [[_ Hj]|[_ ->]]; eauto.
      * intros j w Hlt Hj. apply nth_error_snoc_inv in Hj.
        destruct Hj as [[_ Hj]|[-> _]]; [eauto|].
        assert (best < length done) by (apply nth_error_Some; congruence).
        lia.
    + assert (Hmv : f32_le fm mp v = true)
        by (destruct (Hcmp mp v Hin_mp Hin_v); congruence).
      assert (Hnum : f32_isnan fm v = false)
        by (unfold f32_isnan; destruct (Hcmp v v Hin_v Hin_v) as [-> | ->];
            reflexivity).
      rewrite Hnum. apply IH.
      * rewrite <- Heq. exact Hcmp.
      * rewrite nth_error_app2, Nat.sub_diag by lia. reflexivity.
      * intros j w Hj. apply nth_error_snoc_inv in Hj.
        destruct Hj as [[_ Hj]|[_ ->]].
        -- eapply le_trans; [eapply Hmax; eassumption | assumption].
        -- destruct (Hcmp v v Hin_v Hin_v); assumption.
      * intros j w Hlt Hj. apply nth_error_snoc_inv in Hj.
        destruct Hj as [[_ Hj]|[-> _]]; [|lia].
        destruct (f32_le fm v w) eqn:Evw; [|reflexivity].
        rewrite (le_trans _ _ _ Evw (Hmax _ _ Hj)) in Ele. discriminate.
Qed.

(** [np.argmax] returns the first position of the maximum. *)
Lemma argmax_first (vals : list (f32 fm)) :
  vals <> [] -> comparable fm vals ->
  exists k, argmax fm vals = Some k /\ is_first_argmax fm vals k.
Proof.
  intros Hne Hcmp. destruct vals as [|v r]; [congruence|].
  assert (Hnum : f32_isnan fm v = false).
  { unfold f32_isnan.
    destruct (Hcmp v v (or_introl eq_refl) (or_introl eq_refl)) as [-> | ->];
      reflexivity. }
  exists (argmax_scan fm v 0 1 r). split; [simpl; rewrite Hnum; reflexivity|].
  apply (argmax_scan_first r [v] v 0 Hcmp); [reflexivity| |].
  - intros [|[|j]] w Hj; simpl in Hj; try discriminate.
    injection Hj as <-.
    destruct (Hcmp v v (or_introl eq_refl) (or_introl eq_refl)); assumption.
  - intros j w Hlt. lia.
Qed.

Lemma astype_length (tokens : list string) (vals : list (f32 fm)) :
  astype fm tokens = Some vals -> length vals = length tokens.
Proof.
  revert vals. induction tokens as [|t r IH]; intros vals; simpl.
  - intros [= <-]. reflexivity.
  - destruct (f32_of_string fm t); [|discriminate].
    destruct (astype fm r); [|discriminate].
    intros [= <-]. simpl. f_equal. apply IH. reflexivity.
Qed.

(** On a vector of equal elements the first position is 0. *)
Lemma first_argmax_all_equal (vals : list (f32 fm)) (k : nat) :
  is_first_argmax fm vals k ->
  (forall a b, In a vals -> In b vals -> f32_le fm a b = true) ->
  k = 0.
Proof.
  intros (m & Hk & _ & Hfirst) Heq.
  destruct k as [|k]; [reflexivity|].
  destruct vals as [|v r]; [discriminate|].
  assert (H : f32_le fm m v = false)
    by (apply (Hfirst 0 v); [lia | reflexivity]).
  rewrite Heq in H; [discriminate| |left; reflexivity].
  eapply nth_error_In; eassumption.
Qed.

End Argmax.

Lemma decimal_le_total (a b : ExactDecimal.t) :
  ExactDecimal.le a b = true \/ ExactDecimal.le b a = true.
Proof.
  unfold ExactDecimal.le.
  destruct (Z.leb_spec (fst a * 10 ^ Z.of_nat (snd b))
                       (fst b * 10 ^ Z.of_nat (snd a))); [left; reflexivity|].
  right. apply Z.leb_le. lia.
Qed.

Lemma decimal_le_trans : le_transitive ExactDecimal.model.
Proof.
  intros [m1 s1] [m2 s2] [m3 s3]. unfold ExactDecimal.model, ExactDecimal.le. simpl.
  rewrite !Z.leb_le. intros H12 H23.
  assert (Ha : (0 < 10 ^ Z.of_nat s1)%Z) by (apply Z.pow_pos_nonneg; lia).
  assert (Hb : (0 < 10 ^ Z.of_nat s2)%Z) by (apply Z.pow_pos_nonneg; lia).
  assert (Hc : (0 < 10 ^ Z.of_nat s3)%Z) by (apply Z.pow_pos_nonneg; lia).
  set (a := (10 ^ Z.of_nat s1)%Z) in *.
  set (b := (10 ^ Z.of_nat s2)%Z) in *.
  set (c := (10 ^ Z.of_nat s3)%Z) in *.
  apply (Z.mul_le_mono_pos_r _ _ b Hb).
  apply Z.le_trans with (m2 * a * c)%Z.
  - replace (m1 * c * b)%Z with (m1 * b * c)%Z by ring.
    apply Z.mul_le_mono_pos_r; assumption.
  - replace (m2 * a * c)%Z with (m2 * c * a)%Z by ring.
    replace (m3 * a * b)%Z with (m3 * b * a)%Z by ring.
    apply Z.mul_le_mono_pos_r; assumption.
Qed.

Lemma decimal_comparable (vals : list ExactDecimal.t) :
  comparable ExactDecimal.model vals.
Proof. intros a b _ _. apply decimal_le_total. Qed.

(* ================================================================== *)
(** ** Where the characters of a result come from                       *)
(* ================================================================== *)

Section Characters.

Lemma chars_append (a b : string) :
  chars (a ++ b) = (chars a ++ chars b)%list.
Proof. induction a; simpl; [reflexivity|]. unfold chars in *. simpl. congruence. Qed.

Lemma in_chars_append (c : ascii) (a b : string) :
  In c (chars (a ++ b)) <-> In c (chars a) \/ In c (chars b).
Proof. rewrite chars_append. apply in_app_iff. Qed.

Lemma in_replace_scan (old new : string) (c : ascii) (s : string) :
  forall k,
    In c (chars (Py.replace_scan old new k s)) ->
    In c (chars s) \/ In c (chars new).
Proof.
  induction s as [|a r IH]; intros k H; simpl in H; [contradiction|].
  destruct k as [|k].
  - destruct (Py.startswith old (String a r)).
    + apply in_chars_append in H. destruct H as [H|H]; [right; assumption|].
      destruct (IH _ H); [left; right; assumption | right; assumption].
    + destruct H as [<-|H]; [left; left; reflexivity|].
      destruct (IH _ H); [left; right; assumption | right; assumption].
  - destruct (IH _ H); [left; right; assumption | right; assumption].
Qed.

Lemma in_intersperse (new : string) (c : ascii) (s : string) :
  In c (chars (Py.intersperse new s)) -> In c (chars s) \/ In c (chars new).
Proof.
  induction s as [|a r IH]; simpl; intros H; [right; assumption|].
  apply in_chars_append in H. destruct H as [H|H]; [right; assumption|].
  destruct H as [<-|H]; [left; left; reflexivity|].
  destruct (IH H); [left; right; assumption | right; assumption].
Qed.

(** [replace] brings in no character that is not in the text or in the
    replacement. *)
Lemma in_replace (old new : string) (c : ascii) (s : string) :
  In c (chars (Py.replace old new s)) -> In c (chars s) \/ In c (chars new).
Proof.
  unfold Py.replace. destruct old.
  - apply in_intersperse.
  - apply in_replace_scan.
Qed.

Lemma in_lstrip_by (f : ascii -> bool) (c : ascii) (s : string) :
  In c (chars (Py.lstrip_by f s)) -> In c (chars s).
Proof.
  induction s as [|a r IH]; simpl; [tauto|].
  destruct (f a); [intros H; right; apply IH, H | tauto].
Qed.

Lemma in_rstrip_by (f : ascii -> bool) (c : ascii) (s : string) :
  In c (chars (Py.rstrip_by f s)) -> In c (chars s).
Proof.
  induction s as [|a r IH]; simpl; [tauto|].
  destruct (Py.rstrip_by f r) as [|b t].
  - destruct (f a); simpl; [tauto|]. intros [<-|[]]. left. reflexivity.
  - intros [<-|H]; [left; reflexivity | right; apply IH, H].
Qed.

Lemma in_strip_by (f : ascii -> bool) (c : ascii) (s : string) :
  In c (chars (Py.strip_by f s)) -> In c (chars s).
Proof. intros H. apply in_lstrip_by with f, in_rstrip_by with f, H. Qed.

Lemma in_cut_last (f : ascii -> bool) (c : ascii) (s : string) :
  (In c (chars (snd (cut_last f s))) -> In c (chars s))
  /\ (forall pre, fst (cut_last f s) = Some pre ->
                  In c (chars pre) -> In c (chars s)).
Proof.
  induction s as [|a r [IHt IHp]]; simpl.
  - split; [tauto | discriminate].
  - destruct (cut_last f r) as [[pre'|] tok]; simpl in *.
    + split; [intros H; right; apply IHt, H|].
      intros pre [= <-] [<-|H]; [left; reflexivity|].
      right. apply (IHp pre' eq_refl H).
    + destruct (f a); simpl.
      * split; [intros H; right; apply IHt, H|].
        intros pre [= <-] [].
      * split; [|discriminate].
        intros [<-|H]; [left; reflexivity | right; apply IHt, H].
Qed.

Lemma single_line_uint (d : Decimal.uint) :
  single_line (NilEmpty.string_of_uint d).
Proof.
  unfold single_line.
  induction d; simpl; intros H;
    try (destruct H as [H|H]; [discriminate H | exact (IHd H)]).
  exact H.
Qed.

(** [str(n)] is digits and a sign. *)
Lemma single_line_str (n : Z) : single_line (Py.str n).
Proof.
  unfold Py.str, NilZero.string_of_int.
  destruct (Z.to_int n) as [d|d].
  - destruct d; try apply single_line_uint.
    intros [H|[]]. discriminate H.
  - intros [H|H]; [discriminate H|]. revert H.
    destruct d; try apply single_line_uint.
    intros [H|[]]. discriminate H.
Qed.

(** A line, its terminator and what follows split into the line and the
    rest. *)
Lemma split_first_line (body rest : string) :
  single_line body ->
  Py.split newline (body ++ Py.nl ++ rest) = body :: Py.split newline rest.
Proof.
  unfold single_line. change (Py.nl ++ rest) with (String newline rest).
  induction body as [|a r IH]; intros H.
  - cbn [append Py.split]. rewrite Ascii.eqb_refl. reflexivity.
  - cbn [append Py.split].
    destruct (Ascii.eqb_spec a newline) as [->|_].
    + exfalso. apply H. left. reflexivity.
    + rewrite IH by (intros Hin; apply H; right; exact Hin). reflexivity.
Qed.

(** Reading the records back line by line gives their bodies. *)
Lemma split_records (bodies : list string) :
  Forall single_line bodies ->
  Py.split newline (String.concat "" (map (fun b => b ++ Py.nl) bodies))
  = (bodies ++ [""])%list.
Proof.
  induction 1 as [|b r Hb Hr IH]; [reflexivity|].
  cbn [map]. rewrite concat_cons, append_assoc.
  rewrite split_first_line by assumption. rewrite IH. reflexivity.
Qed.

End Characters.

(* ================================================================== *)
(** ** The result decoder                                               *)
(* ================================================================== *)

Section Decoder.

Variable fm : Float32.
Variable cfg : RunConfig.
Variable prefix : string.

(** The latency split never fails: it cuts the line at its last space. *)
Lemma split_latency_cut (outline : string) :
  split_latency outline
  = inr (before_last_token outline, last_token outline).
Proof.
  unfold split_latency, before_last_token, last_token.
  rewrite pop_last_split.
  change (fun c : ascii => Ascii.eqb c " ") with is_blank.
  destruct (cut_last is_blank outline) as [[pre|] tok]; simpl.
  - rewrite (join_split " " pre). reflexivity.
  - reflexivity.
Qed.

Lemma cut_last_none_id (f : ascii -> bool) (s : string) :
  (forall c, In c (list_ascii_of_string s) -> f c = false) ->
  cut_last f s = (None, s).
Proof.
  induction s as [|c r IH]; intros H; [reflexivity|].
  simpl. rewrite IH by (intros; apply H; simpl; auto).
  rewrite (H c) by (simpl; auto). reflexivity.
Qed.

Lemma cut_last_app (f : ascii -> bool) (pre tok : string) (c : ascii) :
  f c = true ->
  (forall x, In x (list_ascii_of_string tok) -> f x = false) ->
  cut_last f (pre ++ String c tok) = (Some pre, tok).
Proof.
  intros Hc Htok. induction pre as [|a pre IH]; simpl.
  - rewrite (cut_last_none_id f tok Htok), Hc. reflexivity.
  - rewrite IH. reflexivity.
Qed.

Lemma decode_fields (readout : string) :
  decode fm cfg prefix readout =
    match format_fields fm cfg (probability_line cfg prefix readout) with
    | inl e => inl e
    | inr fields => inr (fields ++ latency_field cfg prefix readout ++ Py.nl)
    end.
Proof.
  unfold decode, probability_line, latency_field.
  destruct (benchCore cfg).
  - rewrite split_latency_cut.
    destruct (format_fields fm cfg _); [reflexivity|].
    rewrite !append_assoc. reflexivity.
  - destruct (format_fields fm cfg _); reflexivity.
Qed.

Lemma single_line_append (a b : string) :
  single_line a -> single_line b -> single_line (a ++ b).
Proof.
  unfold single_line. intros Ha Hb H. apply in_chars_append in H. tauto.
Qed.

Lemma single_line_comma : single_line ",".
Proof. intros [H|[]]. discriminate H. Qed.

Create HintDb lines.

#[local] Hint Resolve single_line_append single_line_comma single_line_str : lines.

Lemma single_line_strip_prefix (readout : string) :
  single_line readout -> single_line (strip_prefix cfg prefix readout).
Proof.
  unfold strip_prefix, single_line. intros Hr.
  destruct (omit_prefix cfg); [|assumption].
  intros H. apply in_replace in H. destruct H as [H|[]]. exact (Hr H).
Qed.

Lemma single_line_before_last (s : string) :
  single_line s -> single_line (before_last_token s).
Proof.
  unfold single_line, before_last_token. intros Hs H.
  destruct (fst (cut_last is_blank s)) as [pre|] eqn:E; [|destruct H].
  apply Hs. exact (proj2 (in_cut_last is_blank newline s) pre E H).
Qed.

Lemma single_line_last_token (s : string) :
  single_line s -> single_line (last_token s).
Proof.
  unfold single_line, last_token. intros Hs H.
  apply Hs. exact (proj1 (in_cut_last is_blank newline s) H).
Qed.

Lemma single_line_commas (s : string) :
  single_line s -> single_line (Py.replace " " "," s).
Proof.
  unfold single_line. intros Hs H. apply in_replace in H.
  destruct H as [H|H]; [exact (Hs H) | exact (single_line_comma H)].
Qed.

Lemma single_line_fields (line fields : string) :
  single_line line ->
  format_fields fm cfg line = inr fields -> single_line fields.
Proof.
  unfold format_fields. intros Hl.
  destruct (isml cfg).
  - destruct (classify fm line) as [e|k]; [discriminate|].
    intros [= <-].
    apply single_line_append; [apply single_line_commas, Hl|].
    apply (single_line_append "," (Py.str (Z.of_nat k))); auto with lines.
  - intros [= <-]. apply single_line_commas.
    intros H. apply Hl. unfold Py.strip_char in H.
    exact (in_strip_by _ _ _ H).
Qed.

(** A record ends its line, and a one-line readout gives a one-line
    record. *)
Lemma decode_single_line (readout row : string) :
  single_line readout ->
  decode fm cfg prefix readout = inr row ->
  exists body, row = body ++ Py.nl /\ single_line body.
Proof.
  intros Hr. rewrite decode_fields.
  destruct (format_fields fm cfg (probability_line cfg prefix readout))
    as [e|fields] eqn:Ef; [discriminate|].
  intros [= <-].
  exists (fields ++ latency_field cfg prefix readout).
  split; [rewrite append_assoc; reflexivity|].
  pose proof (single_line_strip_prefix readout Hr) as Ho.
  apply single_line_append.
  - apply (single_line_fields (probability_line cfg prefix readout)); [|exact Ef].
    unfold probability_line. destruct (benchCore cfg); [|exact Ho].
    rewrite split_latency_cut. apply single_line_before_last, Ho.
  - unfold latency_field. destruct (benchCore cfg); [|intros []].
    rewrite split_latency_cut.
    apply (single_line_append ","
             (last_token (strip_prefix cfg prefix readout)));
      auto using single_line_last_token with lines.
Qed.

End Decoder.

(** C1. In ML mode, when every token of the line of probabilities converts
    to a number, the record is that line with commas for spaces followed by
    one more field, the class index, and this index is the position of the
    first greatest probability: no element is greater, every earlier one is
    smaller, and on a vector of equal elements it is 0.  Only the latency
    of benchmark mode comes behind it. *)
Theorem ml_class_index_is_first_argmax :
  forall (fm : Float32) (cfg : RunConfig) (prefix readout : string)
         (vals : list (f32 fm)),
    isml cfg = true ->
    le_transitive fm ->
    astype fm (Py.split " " (probability_line cfg prefix readout)) = Some vals ->
    comparable fm vals ->
    exists k : nat,
      decode fm cfg prefix readout
      = inr (Py.replace " " "," (probability_line cfg prefix readout)
             ++ "," ++ Py.str (Z.of_nat k)
             ++ latency_field cfg prefix readout ++ Py.nl)
      /\ is_first_argmax fm vals k
      /\ ((forall a b, In a vals -> In b vals -> f32_le fm a b = true) -> k = 0)
      /\ (benchCore cfg = false -> latency_field cfg prefix readout = "").
Proof.
  intros fm cfg prefix readout vals Hml Htr Hvals Hcmp.
  assert (Hne : vals <> []).
  { pose proof (astype_length fm _ _ Hvals) as Hl.
    pose proof (split_length_pos " " (probability_line cfg prefix readout)).
    destruct vals; [simpl in Hl; lia | discriminate]. }
  destruct (argmax_first fm Htr vals Hne Hcmp) as (k & Hk & Hfirst).
  exists k. repeat split.
  - rewrite decode_fields. unfold format_fields, classify.
    rewrite Hml, Hvals, Hk. rewrite !append_assoc. reflexivity.
  - exact Hfirst.
  - intros Heq. exact (first_argmax_all_equal fm vals k Hfirst Heq).
  - intros Hb. unfold latency_field. rewrite Hb. reflexivity.
Qed.

Lemma ml_class_index_witness :
  exists k : nat,
    decode ExactDecimal.model (with_modes true false false default_config)
           "0f" "0f0.1 0f0.9 0f0.9"
    = inr (Py.replace " " ","
             (probability_line (with_modes true false false default_config)
                               "0f" "0f0.1 0f0.9 0f0.9")
           ++ "," ++ Py.str (Z.of_nat k)
           ++ latency_field (with_modes true false false default_config)
                            "0f" "0f0.1 0f0.9 0f0.9" ++ Py.nl)
    /\ is_first_argmax ExactDecimal.model [(1%Z, 1); (9%Z, 1); (9%Z, 1)] k
    /\ ((forall a b, In a [(1%Z, 1); (9%Z, 1); (9%Z, 1)] ->
                     In b [(1%Z, 1); (9%Z, 1); (9%Z, 1)] ->
                     f32_le ExactDecimal.model a b = true) -> k = 0)
    /\ (benchCore (with_modes true false false default_config) = false ->
        latency_field (with_modes true false false default_config)
                      "0f" "0f0.1 0f0.9 0f0.9" = "").
Proof.
  apply (ml_class_index_is_first_argmax ExactDecimal.model
           (with_modes true false false default_config)
           "0f" "0f0.1 0f0.9 0f0.9" [(1%Z, 1); (9%Z, 1); (9%Z, 1)]).
  - reflexivity.
  - exact decimal_le_trans.
  - reflexivity.
  - apply decimal_comparable.
Defined.

(** The decoding scenarios of the specification. *)
Example scenario_ml :
  decode ExactDecimal.model (with_modes true false false default_config)
         "0f" "0f0.1 0f0.9" = inr ("0.1,0.9,1" ++ Py.nl).
Proof. vm_compute. reflexivity. Qed.

Example scenario_benchmark :
  decode ExactDecimal.model (with_modes false true false default_config)
         "0f" "0f3.5 0f42" = inr ("3.5,42" ++ Py.nl).
Proof. vm_compute. reflexivity. Qed.

Example scenario_ml_benchmark_tie :
  decode ExactDecimal.model (with_modes true true false default_config)
         "0f" "0f0.5 0f0.5 0f0.1 0f42" = inr ("0.5,0.5,0.1,0,42" ++ Py.nl).
Proof. vm_compute. reflexivity. Qed.

(** C2. In benchmark mode the readout, once its prefixes are removed, is cut
    at its last space: the token behind it is the latency, the fields (and
    the class index of ML mode) are computed from the line before it, and
    the latency is written as the last field of the row.  On a readout
    whose only whitespace is the space, this token is the one after the
    last whitespace boundary. *)
Theorem bench_latency_is_last_token :
  forall (fm : Float32) (cfg : RunConfig) (prefix readout : string),
    benchCore cfg = true ->
    decode fm cfg prefix readout
    = match format_fields fm cfg
              (before_last_token (strip_prefix cfg prefix readout)) with
      | inl e => inl e
      | inr fields =>
          inr (fields ++ ","
                 ++ last_token (strip_prefix cfg prefix readout) ++ Py.nl)
      end
    /\ probability_line cfg prefix readout
       = before_last_token (strip_prefix cfg prefix readout)
    /\ (forall pre tok,
          strip_prefix cfg prefix readout = pre ++ " " ++ tok ->
          space_free tok ->
          before_last_token (strip_prefix cfg prefix readout) = pre
          /\ last_token (strip_prefix cfg prefix readout) = tok)
    /\ (space_free (strip_prefix cfg prefix readout) ->
          before_last_token (strip_prefix cfg prefix readout) = ""
          /\ last_token (strip_prefix cfg prefix readout)
             = strip_prefix cfg prefix readout)
    /\ (space_delimited (strip_prefix cfg prefix readout) ->
          last_token (strip_prefix cfg prefix readout)
          = token_after_last_whitespace (strip_prefix cfg prefix readout)).
Proof.
  intros fm cfg prefix readout Hb.
  set (outline := strip_prefix cfg prefix readout).
  repeat split.
  - unfold decode. fold outline. rewrite Hb, split_latency_cut. reflexivity.
  - unfold probability_line. fold outline.
    rewrite Hb, split_latency_cut. reflexivity.
  - unfold before_last_token. rewrite H.
    change (pre ++ " " ++ tok) with (pre ++ String " " tok).
    rewrite (cut_last_app is_blank pre tok " " eq_refl H0). reflexivity.
  - unfold last_token. rewrite H.
    change (pre ++ " " ++ tok) with (pre ++ String " " tok).
    rewrite (cut_last_app is_blank pre tok " " eq_refl H0). reflexivity.
  - unfold before_last_token.
    rewrite (cut_last_none_id is_blank outline H). reflexivity.
  - unfold last_token.
    rewrite (cut_last_none_id is_blank outline H). reflexivity.
  - intros Hws. unfold last_token, token_after_last_whitespace.
    f_equal. apply cut_last_ext. intros c Hin.
    destruct (Py.isspace c) eqn:Ec.
    + rewrite (Hws c Hin Ec). reflexivity.
    + unfold is_blank. destruct (Ascii.eqb_spec c " ") as [->|]; [|reflexivity].
      discriminate.
Qed.

Lemma bench_latency_witness :
  decode ExactDecimal.model (with_modes false true false default_config)
         "0f" "0f3.5 0f42"
  = inr ("3.5,42" ++ Py.nl)
  /\ last_token (strip_prefix (with_modes false true false default_config)
                              "0f" "0f3.5 0f42")
     = token_after_last_whitespace "3.5 42".
Proof.
  destruct (bench_latency_is_last_token ExactDecimal.model
              (with_modes false true false default_config)
              "0f" "0f3.5 0f42" eq_refl) as (Hrow & _ & _ & _ & Hws).
  split.
  - rewrite Hrow. reflexivity.
  - apply Hws. intros c Hin Hc. simpl in Hin.
    repeat (destruct Hin as [<-|Hin]; [try discriminate; reflexivity|]).
    contradiction.
Defined.



(* ================================================================== *)
(** ** The row pipeline                                                 *)
(* ================================================================== *)

Section Pipeline.

Variable env : Env.
Variable fm : Float32.
Variable cfg : RunConfig.
Variable inputs outputs : Dict.
Variable prefix : string.

Local Abbreviation engine := (the_engine_command cfg outputs).
Local Abbreviation ok := (stops_on_last_output cfg outputs).
Local Abbreviation checked' := (checked env cfg outputs).

Lemma statuses_app (h e1 e2 : list string) :
  statuses env h (e1 ++ e2)%list
  = (statuses env h e1 ++ statuses env (h ++ e1) e2)%list.
Proof.
  revert h. induction e1 as [|c r IH]; intros h; simpl.
  - rewrite app_nil_r. reflexivity.
  - rewrite IH, <- app_assoc. reflexivity.
Qed.

Lemma all_zero_app (h e1 e2 : list string) :
  all_zero env h e1 -> all_zero env (h ++ e1) e2 ->
  all_zero env h (e1 ++ e2).
Proof.
  unfold all_zero. intros H1 H2. rewrite statuses_app.
  apply Forall_app. split; assumption.
Qed.

Lemma bind_assoc {A B C : Type} (m : M A) (f : A -> M B) (g : B -> M C)
    (st : State) :
  bind (bind m f) g st = bind m (fun a => bind (f a) g) st.
Proof. unfold bind. destruct (m st); reflexivity. Qed.

Lemma bind_ext {A B : Type} (m : M A) (f g : A -> M B) (st : State) :
  (forall a s, f a s = g a s) -> bind m f st = bind m g st.
Proof. intros H. unfold bind. destruct (m st); auto. Qed.

Lemma checked_ret {A : Type} (a : A) (st : State) : checked' st (ret a st).
Proof.
  exists []. simpl. rewrite app_nil_r.
  split; [reflexivity|]. split; [constructor|]. split; [reflexivity|].
  split; [constructor | reflexivity].
Qed.

Lemma checked_raise {A : Type} (e : Exn) (st : State) :
  checked' st (raise e st : Outcome A).
Proof.
  exists []. simpl. rewrite app_nil_r.
  split; [reflexivity|]. split; [constructor|]. split; [reflexivity|].
  split; [constructor | reflexivity].
Qed.

(** Steps that run checked commands compose. *)
Lemma checked_bind {A B : Type} (m : M A) (k : A -> M B) (st : State) :
  checked' st (m st) ->
  (forall a st1, m st = Done a st1 -> checked' st1 (k a st1)) ->
  checked' st (bind m k st).
Proof.
  intros (ext1 & Hc1 & Hok1 & Hf1 & H1) Hk. unfold bind.
  destruct (m st) as [a st1|code st1|e st1] eqn:Em; simpl in *.
  - destruct H1 as [Hz1 Hcon1].
    destruct (Hk a st1 eq_refl) as (ext2 & Hc2 & Hok2 & Hf2 & H2).
    exists (ext1 ++ ext2)%list.
    split; [rewrite Hc2, Hc1, app_assoc; reflexivity|].
    split; [apply Forall_app; split; assumption|].
    split; [congruence|].
    rewrite Hc1 in H2.
    destruct (k a st1) as [b st2|code st2|e st2]; simpl in *.
    + destruct H2 as [Hz2 Hcon2]. split; [|congruence].
      apply all_zero_app; assumption.
    + destruct H2 as [Hcode (diag & Hd & Hcon2)].
      split; [assumption|]. exists diag. split; [assumption | congruence].
    + destruct H2 as [Hz2 Hcon2]. split; [|congruence].
      apply all_zero_app; assumption.
  - exists ext1. split; [assumption|]. split; [assumption|].
    split; assumption.
  - exists ext1. split; [assumption|]. split; [assumption|].
    split; assumption.
Qed.

(** One command whose status is tested: on 0 the step goes on with [k],
    otherwise [fail] prints and exits. *)
Lemma checked_command {A : Type} (command : string)
    (k fail : Completed -> M A) (st : State) :
  ok command ->
  (forall p st1, checked' st1 (k p st1)) ->
  (forall p st1, exists diag,
      diag <> [] /\ fail p st1 = Exit 2%Z (add_console st1 diag)) ->
  checked' st
    ((p <- popen env command ;;
      if (returncode p =? 0)%Z then k p else fail p) st).
Proof.
  intros Hok Hk Hfail. unfold bind, popen.
  set (p := env (calls st) command).
  set (st1 := mkState (calls st ++ [command]) (console st) (outfile st)
                      (stopOnValidOf st)).
  destruct (Z.eqb_spec (returncode p) 0) as [Hz|Hnz].
  - destruct (Hk p st1) as (ext & Hc & Hokx & Hf & H).
    exists (command :: ext).
    split; [rewrite Hc; simpl; rewrite <- app_assoc; reflexivity|].
    split; [constructor; assumption|].
    split; [exact Hf|].
    assert (Hall : all_zero env (calls st1) ext ->
                   all_zero env (calls st) (command :: ext)).
    { intros Hz'. unfold all_zero. simpl. constructor; assumption. }
    destruct (k p st1) as [b st2|code st2|e st2]; simpl in *.
    + destruct H; split; auto.
    + exact H.
    + destruct H; split; auto.
  - destruct (Hfail p st1) as (diag & Hd & ->).
    exists [command]. simpl.
    split; [reflexivity|]. split; [constructor; [assumption|constructor]|].
    split; [reflexivity|]. split; [reflexivity|].
    exists diag. split; [assumption | reflexivity].
Qed.

Lemma ok_simbox (rest : string) : ok (simbox cfg ++ rest).
Proof. intros H. unfold simbox in H. simpl in H. discriminate H. Qed.

Lemma ok_config : Forall ok (config_commands cfg).
Proof. unfold config_commands. repeat constructor; apply ok_simbox. Qed.

Lemma fail_one (A : Type) (d : string) (st : State) :
  exists diag, diag <> [] /\
    (print d ;; sys_exit 2%Z) st = (Exit 2%Z (add_console st diag) : Outcome A).
Proof. exists [d]. split; [discriminate | reflexivity]. Qed.

Lemma run_config_checked (commands : list string) :
  Forall ok commands ->
  forall st, checked' st (run_config env commands st).
Proof.
  induction commands as [|c r IH]; intros Hok st.
  - apply checked_ret.
  - inversion Hok as [|? ? Hc Hr]; subst. simpl run_config.
    apply (checked_command c (fun _ => run_config env r)
             (fun _ => print ("Error preparing simbox command: " ++ c) ;;
                       sys_exit 2%Z)).
    + assumption.
    + intros _ st1. apply IH. assumption.
    + intros _ st1. apply fail_one.
Qed.

Lemma bind_inputs_checked (inputs_values : list string) :
  forall i st, checked' st (bind_inputs env cfg inputs i inputs_values st).
Proof.
  induction inputs_values as [|v r IH]; intros i st.
  - apply checked_ret.
  - simpl bind_inputs.
    destruct (dict_get inputs (Py.str (Z.of_nat i))) as [name|].
    + apply (checked_command (bind_command cfg name v)
               (fun _ => bind_inputs env cfg inputs (S i) r)
               (fun _ => print ("Error setting input " ++ name ++ " to " ++ v) ;;
                         sys_exit 2%Z)).
      * apply ok_simbox.
      * intros _ st1. apply IH.
      * intros _ st1. apply fail_one.
    + apply checked_raise.
Qed.

Lemma capture_outputs_checked (names : list string) :
  forall st, checked' st (capture_outputs env cfg outputs names st).
Proof.
  induction names as [|n r IH]; intros st.
  - apply checked_ret.
  - simpl capture_outputs.
    destruct (dict_get outputs n) as [id|].
    + apply (checked_command (capture_command cfg outputs id)
               (fun _ => capture_outputs env cfg outputs r)
               (fun _ => print ("Error getting output " ++ n) ;;
                         sys_exit 2%Z)).
      * apply ok_simbox.
      * intros _ st1. apply IH.
      * intros _ st1. apply fail_one.
    + apply checked_raise.
Qed.

Lemma simulate_checked (st : State) :
  checked' st (simulate env cfg outputs st).
Proof.
  set (v := (Z.of_nat (length outputs) - 1)%Z).
  change (checked' (with_stop st v)
            ((p <- popen env (engine_command cfg v) ;;
              if (returncode p =? 0)%Z then ret (Py.strip (p_stdout p))
              else print "Error running simulation" ;;
                   print (p_stderr p) ;; sys_exit 2%Z) (with_stop st v))).
  apply (checked_command (engine_command cfg v)
           (fun p => ret (Py.strip (p_stdout p)))
           (fun p => print "Error running simulation" ;;
                     print (p_stderr p) ;; sys_exit 2%Z)).
  - intros _. reflexivity.
  - intros p st1. apply checked_ret.
  - intros p st1. exists ["Error running simulation"; p_stderr p].
    split; [discriminate|]. unfold bind, print, sys_exit, add_console. simpl.
    rewrite <- app_assoc. reflexivity.
Qed.

Lemma prepare_and_simulate_checked (inputs_values : list string) (st : State) :
  checked' st (prepare_and_simulate env cfg inputs outputs inputs_values st).
Proof.
  unfold prepare_and_simulate.
  apply checked_bind; [apply run_config_checked, ok_config|]. intros _ st1 _.
  apply checked_bind; [apply bind_inputs_checked|]. intros _ st2 _.
  apply checked_bind; [apply capture_outputs_checked|]. intros _ st3 _.
  apply simulate_checked.
Qed.

(** *** Rows that run to their end *)

(** One turn of a command loop that did not exit: the command ran and its
    status was 0. *)
Ltac command_succeeded :=
  unfold bind at 1; unfold popen;
  match goal with
  | |- context [(returncode ?p =? 0)%Z] =>
      destruct (returncode p =? 0)%Z; [|discriminate]
  end.

Lemma add_calls_app (st : State) (a b : list string) :
  add_calls (add_calls st a) b = add_calls st (a ++ b).
Proof. unfold add_calls. simpl. rewrite app_assoc. reflexivity. Qed.

Lemma add_calls_nil (st : State) : add_calls st [] = st.
Proof. destruct st. unfold add_calls. simpl. rewrite app_nil_r. reflexivity. Qed.

Lemma run_config_done (commands : list string) :
  forall st st',
    run_config env commands st = Done tt st' -> st' = add_calls st commands.
Proof.
  induction commands as [|c r IH]; intros st st'; simpl.
  - unfold ret. intros [= <-]. symmetry. apply add_calls_nil.
  - command_succeeded.
    intros H. apply IH in H. rewrite H.
    apply (add_calls_app st [c] r).
Qed.

Lemma bind_inputs_done (inputs_values : list string) :
  forall i st st',
    bind_inputs env cfg inputs i inputs_values st = Done tt st' ->
    exists cs, bind_commands cfg inputs i inputs_values = Some cs
               /\ st' = add_calls st cs.
Proof.
  induction inputs_values as [|v r IH]; intros i st st'; simpl.
  - unfold ret. intros [= <-]. exists []. split; [reflexivity|].
    symmetry. apply add_calls_nil.
  - destruct (dict_get inputs (Py.str (Z.of_nat i))) as [name|];
      [|discriminate].
    command_succeeded.
    intros H. apply IH in H. destruct H as (cs & -> & ->).
    exists (bind_command cfg name v :: cs). split; [reflexivity|].
    apply (add_calls_app st [bind_command cfg name v] cs).
Qed.

Lemma capture_outputs_done (names : list string) :
  forall st st',
    capture_outputs env cfg outputs names st = Done tt st' ->
    exists cs, capture_commands cfg outputs names = Some cs
               /\ st' = add_calls st cs.
Proof.
  induction names as [|n r IH]; intros st st'; simpl.
  - unfold ret. intros [= <-]. exists []. split; [reflexivity|].
    symmetry. apply add_calls_nil.
  - destruct (dict_get outputs n) as [id|]; [|discriminate].
    command_succeeded.
    intros H. apply IH in H. destruct H as (cs & -> & ->).
    exists (capture_command cfg outputs id :: cs). split; [reflexivity|].
    apply (add_calls_app st [capture_command cfg outputs id] cs).
Qed.

Lemma simulate_done (st st' : State) (readout : string) :
  simulate env cfg outputs st = Done readout st' ->
  readout = Py.strip (p_stdout (env (calls st) engine))
  /\ st' = with_stop (add_calls st [engine]) (Z.of_nat (length outputs) - 1).
Proof.
  unfold simulate, bind, set_stop, get_stop, popen, ret. simpl.
  fold engine.
  destruct (returncode (env (calls st) engine) =? 0)%Z; [|discriminate].
  intros [= <- <-]. split; reflexivity.
Qed.

Lemma prepare_and_simulate_done (inputs_values : list string)
    (st st' : State) (readout : string) :
  prepare_and_simulate env cfg inputs outputs inputs_values st
  = Done readout st' ->
  exists binds captures,
    bind_commands cfg inputs 0 inputs_values = Some binds
    /\ capture_commands cfg outputs (dict_keys outputs) = Some captures
    /\ readout = Py.strip (p_stdout
         (env (calls st ++ config_commands cfg ++ binds ++ captures)%list engine))
    /\ st' = with_stop
               (add_calls st (config_commands cfg ++ binds ++ captures ++ [engine]))
               (Z.of_nat (length outputs) - 1).
Proof.
  unfold prepare_and_simulate. unfold bind at 1.
  destruct (run_config env (config_commands cfg) st) as [[] s1| |] eqn:E1;
    try discriminate.
  apply run_config_done in E1. unfold bind at 1.
  destruct (bind_inputs env cfg inputs 0 inputs_values s1) as [[] s2| |] eqn:E2;
    try discriminate.
  apply bind_inputs_done in E2. destruct E2 as (binds & Hb & E2).
  unfold bind at 1.
  destruct (capture_outputs env cfg outputs (dict_keys outputs) s2)
    as [[] s3| |] eqn:E3; try discriminate.
  apply capture_outputs_done in E3. destruct E3 as (captures & Hc & E3).
  intros H. apply simulate_done in H. destruct H as [Hr Hs].
  exists binds, captures. subst s1 s2 s3.
  rewrite !add_calls_app in *.
  split; [assumption|]. split; [assumption|]. split.
  - rewrite Hr. unfold add_calls. simpl. rewrite <- ?app_assoc. reflexivity.
  - rewrite Hs. rewrite <- ?app_assoc. reflexivity.
Qed.

Lemma run_row_eq (line : string) (inputs_values : list string) (st : State) :
  run_row env fm cfg inputs outputs prefix line inputs_values st
  = bind (prepare_and_simulate env cfg inputs outputs inputs_values)
         (write_record fm cfg prefix)
         (add_calls (add_console st [running line]) [rm_command cfg]).
Proof. reflexivity. Qed.

(** An accepted row that ends normally ran its commands and the engine,
    and wrote the record decoded from the readout. *)
Lemma run_row_done (line : string) (inputs_values : list string)
    (st st' : State) :
  run_row env fm cfg inputs outputs prefix line inputs_values st = Done tt st' ->
  exists cmds row,
    row_commands cfg inputs outputs inputs_values = Some cmds
    /\ decode fm cfg prefix
         (Py.strip (p_stdout (env (calls st ++ cmds)%list engine))) = inr row
    /\ st' = mkState (calls st ++ cmds ++ [engine])%list
                     (console st ++ [running line])%list
                     (outfile st ++ row)
                     (Z.of_nat (length outputs) - 1).
Proof.
  rewrite run_row_eq.
  set (s0 := add_calls (add_console st [running line]) [rm_command cfg]).
  unfold bind.
  destruct (prepare_and_simulate env cfg inputs outputs inputs_values s0)
    as [readout s1| |] eqn:E; try discriminate.
  apply prepare_and_simulate_done in E.
  destruct E as (binds & captures & Hb & Hc & Hr & Hs).
  unfold write_record.
  destruct (decode fm cfg prefix readout) as [e|row] eqn:Ed; [discriminate|].
  unfold write. intros [= <-].
  exists (rm_command cfg :: config_commands cfg ++ binds ++ captures)%list, row.
  unfold row_commands. rewrite Hb, Hc.
  split; [reflexivity|]. split.
  - rewrite <- Ed, Hr. subst s0. simpl. rewrite <- !app_assoc. reflexivity.
  - rewrite Hs. subst s0. unfold with_stop, add_calls. simpl.
    rewrite <- !app_assoc. reflexivity.
Qed.

(** What every accepted row does, whatever its end: it removes the old
    simbox file and then runs checked commands only. *)
Lemma run_row_checked (line : string) (inputs_values : list string)
    (st : State) :
  exists ext,
    calls (state_of
             (run_row env fm cfg inputs outputs prefix line inputs_values st))
    = (calls st ++ rm_command cfg :: ext)%list
    /\ Forall ok ext
    /\ match run_row env fm cfg inputs outputs prefix line inputs_values st with
       | Done _ _ | Raise _ _ =>
           all_zero env (calls st ++ [rm_command cfg]) ext
       | Exit code st' =>
           code = 2%Z /\ outfile st' = outfile st /\
           exists diag, diag <> [] /\
             console st' = (console st ++ running line :: diag)%list
       end.
Proof.
  rewrite run_row_eq.
  set (s0 := add_calls (add_console st [running line]) [rm_command cfg]).
  unfold bind.
  destruct (prepare_and_simulate_checked inputs_values s0)
    as (ext & Hc & Hok & Hf & H).
  exists ext.
  destruct (prepare_and_simulate env cfg inputs outputs inputs_values s0)
    as [readout s1|code s1|e s1]; simpl in Hc, Hf, H.
  - destruct H as [Hz Hcon]. unfold write_record.
    destruct (decode fm cfg prefix readout) as [e|row];
      unfold raise, write; simpl; rewrite Hc, <- app_assoc;
      (split; [reflexivity|]); (split; [assumption|]); exact Hz.
  - simpl. rewrite Hc, <- app_assoc. split; [reflexivity|].
    split; [assumption|].
    destruct H as [Hcode (diag & Hd & Hcon)].
    split; [assumption|]. split; [assumption|].
    exists diag. split; [assumption|].
    rewrite Hcon. simpl. rewrite <- app_assoc. reflexivity.
  - simpl. rewrite Hc, <- app_assoc. split; [reflexivity|].
    split; [assumption|]. apply H.
Qed.

(** *** The row loop *)

Lemma process_line_rejected (raw : string) (st : State) :
  accepted inputs raw = false ->
  process_line env fm cfg inputs outputs prefix raw st
  = Done tt (add_console st [column_error]).
Proof.
  unfold accepted, process_line. intros Hacc. rewrite Hacc.
  pose proof (split_length_pos "," (Py.strip raw)) as Hpos.
  destruct (Nat.eqb_spec (length (Py.split "," (Py.strip raw))) 0) as [E|_];
    [lia | reflexivity].
Qed.

Lemma process_line_accepted (raw : string) (st : State) :
  accepted inputs raw = true ->
  process_line env fm cfg inputs outputs prefix raw st
  = run_row env fm cfg inputs outputs prefix (Py.strip raw)
      (Py.split "," (Py.strip raw)) st.
Proof.
  unfold accepted, process_line. intros Hacc. rewrite Hacc.
  pose proof (split_length_pos "," (Py.strip raw)) as Hpos.
  destruct (Nat.eqb_spec (length (Py.split "," (Py.strip raw))) 0) as [E|_];
    [lia | reflexivity].
Qed.

Lemma row_loop_app (l1 l2 : list string) (st : State) :
  row_loop env fm cfg inputs outputs prefix (l1 ++ l2) st
  = bind (row_loop env fm cfg inputs outputs prefix l1)
         (fun _ => row_loop env fm cfg inputs outputs prefix l2) st.
Proof.
  revert st. induction l1 as [|raw r IH]; intros st; [reflexivity|].
  simpl. rewrite bind_assoc. apply bind_ext. intros _ s1. apply IH.
Qed.

Lemma ok_rm : ok (rm_command cfg).
Proof. intros H. discriminate H. Qed.

Lemma process_line_calls (raw : string) (st : State) :
  exists ext,
    calls (state_of (process_line env fm cfg inputs outputs prefix raw st))
    = (calls st ++ ext)%list
    /\ Forall ok ext.
Proof.
  destruct (accepted inputs raw) eqn:Hacc.
  - rewrite process_line_accepted by assumption.
    destruct (run_row_checked (Py.strip raw) (Py.split "," (Py.strip raw)) st)
      as (ext & Hc & Hok & _).
    exists (rm_command cfg :: ext). split; [assumption|].
    constructor; [apply ok_rm | assumption].
  - rewrite process_line_rejected by assumption.
    exists []. simpl. rewrite app_nil_r. split; constructor.
Qed.

Lemma row_loop_calls (lines : list string) :
  forall st, exists ext,
    calls (state_of (row_loop env fm cfg inputs outputs prefix lines st))
    = (calls st ++ ext)%list
    /\ Forall ok ext.
Proof.
  induction lines as [|raw r IH]; intros st.
  - exists []. simpl. rewrite app_nil_r. split; constructor.
  - simpl. unfold bind.
    destruct (process_line_calls raw st) as (e1 & Hc1 & Hok1).
    destruct (process_line env fm cfg inputs outputs prefix raw st)
      as [[] s1|code s1|e s1]; simpl in Hc1.
    + destruct (IH s1) as (e2 & Hc2 & Hok2).
      exists (e1 ++ e2)%list. rewrite Hc2, Hc1, app_assoc.
      split; [reflexivity | apply Forall_app; split; assumption].
    + exists e1. split; assumption.
    + exists e1. split; assumption.
Qed.

Lemma decode_ends_line (readout row : string) :
  decode fm cfg prefix readout = inr row ->
  exists body, row = body ++ Py.nl.
Proof.
  rewrite decode_fields.
  destruct (format_fields fm cfg _) as [e|fields]; [discriminate|].
  intros [= <-]. exists (fields ++ latency_field cfg prefix readout).
  rewrite append_assoc. reflexivity.
Qed.

(** The file after a loop that ran to its end: one record for each
    accepted row, in their order. *)
Lemma row_loop_done (lines : list string) :
  forall st st',
    row_loop env fm cfg inputs outputs prefix lines st = Done tt st' ->
    calls st'
    = final_history cfg inputs outputs (calls st) (filter (accepted inputs) lines)
    /\ outfile st'
       = outfile st
         ++ String.concat ""
              (expected_records env fm cfg inputs outputs prefix (calls st)
                 (filter (accepted inputs) lines))
    /\ length (expected_records env fm cfg inputs outputs prefix (calls st)
                 (filter (accepted inputs) lines))
       = length (filter (accepted inputs) lines).
Proof.
  induction lines as [|raw r IH]; intros st st'.
  - simpl. unfold ret. intros [= <-]. simpl. rewrite append_nil_r. auto.
  - simpl row_loop. unfold bind.
    destruct (process_line env fm cfg inputs outputs prefix raw st)
      as [[] s1|code s1|e s1] eqn:E; try discriminate.
    intros Hrest. apply IH in Hrest. destruct Hrest as (Hc & Hf & Hl).
    simpl filter. destruct (accepted inputs raw) eqn:Hacc.
    + rewrite process_line_accepted in E by assumption.
      apply run_row_done in E. destruct E as (cmds & row & Hcmds & Hrow & ->).
      simpl in Hc, Hf, Hl.
      assert (Hrec : record_of env fm cfg inputs outputs prefix (calls st) raw
                     = Some row).
      { unfold record_of. rewrite Hcmds, Hrow. reflexivity. }
      assert (Hhist : history_after cfg inputs outputs (calls st) raw
                      = (calls st ++ cmds ++ [engine])%list).
      { unfold history_after. rewrite Hcmds. reflexivity. }
      unfold final_history. simpl fold_left. simpl expected_records.
      rewrite Hrec, Hhist, concat_cons.
      split; [exact Hc|]. split.
      * rewrite Hf, append_assoc. reflexivity.
      * simpl. f_equal. exact Hl.
    + rewrite process_line_rejected in E by assumption.
      injection E as <-. simpl in Hc, Hf, Hl. auto.
Qed.

End Pipeline.

(* ================================================================== *)
(** ** The capture plan                                                 *)
(* ================================================================== *)

Lemma dict_get_in (d : Dict) (k v : string) :
  NoDup (dict_keys d) -> In (k, v) d -> dict_get d k = Some v.
Proof.
  induction d as [|[k' v'] r IH]; intros Hnd Hin; [contradiction|].
  simpl in *. inversion Hnd as [|? ? Hnotin Hnd']; subst.
  destruct Hin as [[= -> ->]|Hin].
  - rewrite String.eqb_refl. reflexivity.
  - destruct (String.eqb_spec k' k) as [->|_].
    + exfalso. apply Hnotin. unfold dict_keys.
      change k with (fst (k, v)). apply in_map. assumption.
    + apply IH; assumption.
Qed.

(** [str] gives different texts for different numbers. *)
Lemma to_int_not_nil (z : Z) :
  Z.to_int z <> Decimal.Pos Decimal.Nil
  /\ Z.to_int z <> Decimal.Neg Decimal.Nil.
Proof.
  assert (H : forall p, Pos.to_uint p <> Decimal.Nil).
  { intros p E. pose proof (DecimalPos.Unsigned.of_to p) as H.
    rewrite E in H. discriminate H. }
  destruct z as [|p|p]; simpl; split; try discriminate.
  - intros [= E]. exact (H p E).
  - intros [= E]. exact (H p E).
Qed.

Lemma str_inj (a b : Z) : Py.str a = Py.str b -> a = b.
Proof.
  unfold Py.str. intros E. apply DecimalZ.to_int_inj.
  destruct (to_int_not_nil a) as [Ha1 Ha2], (to_int_not_nil b) as [Hb1 Hb2].
  pose proof (NilZero.isi _ Ha1 Ha2) as Ia.
  pose proof (NilZero.isi _ Hb1 Hb2) as Ib.
  rewrite E in Ia. congruence.
Qed.

(** The text of a capture request, as lines 194 and 196 build it. *)
Lemma capture_command_text (cfg : RunConfig) (outputs : Dict) (id : string) :
  capture_command cfg outputs id
  = "simbox -simbox-file " ++ working_dir cfg ++ "/simboxtemp.json -add "
      ++ dq ++ "onexit:show:" ++ id ++ ":"
      ++ (if benchCore cfg
             && String.eqb id ("o" ++ Py.str (Z.of_nat (length outputs) - 1))
          then "unsigned" else data_type cfg)
      ++ dq.
Proof.
  unfold capture_command, simbox, encoding, last_output_id.
  rewrite !append_assoc. reflexivity.
Qed.

Section Capture.

Variable env : Env.
Variable cfg : RunConfig.
Variable outputs : Dict.

Local Abbreviation request := (fun e : string * string =>
                                 capture_command cfg outputs (snd e)).

(** One turn of the capture loop. *)
Lemma capture_outputs_step (k v : string) (r : list (string * string))
    (st : State) :
  dict_get outputs k = Some v ->
  capture_outputs env cfg outputs (map fst ((k, v) :: r)) st
  = if (returncode (env (calls st) (capture_command cfg outputs v)) =? 0)%Z
    then capture_outputs env cfg outputs (map fst r)
           (add_calls st [capture_command cfg outputs v])
    else Exit 2%Z (add_console (add_calls st [capture_command cfg outputs v])
                               ["Error getting output " ++ k]).
Proof.
  intros Hget. simpl. rewrite Hget. unfold bind, popen.
  destruct (returncode (env (calls st) (capture_command cfg outputs v)) =? 0)%Z;
    reflexivity.
Qed.

Lemma all_zero_cons (h : list string) (c : string) (r : list string) :
  all_zero env h (c :: r)
  <-> (returncode (env h c) =? 0)%Z = true /\ all_zero env (h ++ [c]) r.
Proof.
  unfold all_zero. simpl. rewrite Forall_cons_iff, Z.eqb_eq. reflexivity.
Qed.

(** The loop emits the requests of the entries in their order, as long
    as each of them succeeds. *)
Lemma capture_loop (entries : list (string * string)) :
  (forall k v, In (k, v) entries -> dict_get outputs k = Some v) ->
  forall st,
    (all_zero env (calls st) (map request entries) ->
     capture_outputs env cfg outputs (map fst entries) st
     = Done tt (add_calls st (map request entries)))
    /\ (forall st',
          capture_outputs env cfg outputs (map fst entries) st = Done tt st' ->
          all_zero env (calls st) (map request entries))
    /\ (forall code st',
          capture_outputs env cfg outputs (map fst entries) st = Exit code st' ->
          code = 2%Z
          /\ exists n name,
               nth_error (map fst entries) n = Some name
               /\ st' = add_console
                          (add_calls st (firstn (S n) (map request entries)))
                          ["Error getting output " ++ name])
    /\ (forall e st',
          capture_outputs env cfg outputs (map fst entries) st <> Raise e st').
Proof.
  induction entries as [|[k v] r IH]; intros Hget st.
  - simpl. unfold ret. split; [|split; [|split]]; try discriminate.
    + intros _. rewrite add_calls_nil. reflexivity.
    + intros st' _. constructor.
  - rewrite (capture_outputs_step k v r st (Hget k v (or_introl eq_refl))).
    destruct (IH (fun k' v' H => Hget k' v' (or_intror H))
                 (add_calls st [capture_command cfg outputs v]))
      as (Hall & Hdone & Hexit & Hraise).
    cbn [map snd].
    destruct (returncode (env (calls st) (capture_command cfg outputs v)) =? 0)%Z
      eqn:E.
    + split; [|split; [|split]].
      * intros Hz. apply all_zero_cons in Hz. destruct Hz as [_ Hz].
        rewrite (Hall Hz). f_equal.
        apply (add_calls_app st [capture_command cfg outputs v]).
      * intros st' H. apply all_zero_cons.
        split; [exact E | exact (Hdone st' H)].
      * intros code st' H. destruct (Hexit code st' H) as (-> & n & name & Hn & ->).
        split; [reflexivity|]. exists (S n), name. split; [exact Hn|].
        cbn [firstn].
        rewrite (add_calls_app st [capture_command cfg outputs v]).
        reflexivity.
      * exact Hraise.
    + split; [|split; [|split]]; try discriminate.
      * intros Hz. apply all_zero_cons in Hz. destruct Hz as [Hz _]. congruence.
      * intros code st' [= <- <-]. split; [reflexivity|].
        exists 0, k. split; reflexivity.
Qed.

End Capture.

(** C8, as amended. The capture loop emits one request for each entry of
    the output map, in the order of the map, as long as each request
    succeeds; the text of a request shows the capture identifier in the
    configured data type, except that in benchmark mode the identifier
    that reads [o] followed by the output count minus one is shown as
    [unsigned].  When all requests succeed the loop ends normally behind
    the last of them; when one fails the loop stops there by
    [sys.exit(2)] with a diagnostic.  Outside benchmark mode every request
    uses the data type; when the identifiers are numbered [o0], [o1], ...
    in the order of the map, the one shown as [unsigned] is that of the
    last entry and of no other. *)
Theorem capture_encoding_per_output :
  forall (env : Env) (cfg : RunConfig) (outputs : Dict) (requests : list string),
    NoDup (dict_keys outputs) ->
    requests
    = map (fun e : string * string =>
             "simbox -simbox-file " ++ working_dir cfg
               ++ "/simboxtemp.json -add " ++ dq ++ "onexit:show:" ++ snd e
               ++ ":"
               ++ (if benchCore cfg
                      && String.eqb (snd e)
                           ("o" ++ Py.str (Z.of_nat (length outputs) - 1))
                   then "unsigned" else data_type cfg)
               ++ dq)
          outputs ->
    (forall st,
        (all_zero env (calls st) requests ->
         capture_outputs env cfg outputs (dict_keys outputs) st
         = Done tt (add_calls st requests))
        /\ (forall st',
              capture_outputs env cfg outputs (dict_keys outputs) st
              = Done tt st' ->
              st' = add_calls st requests)
        /\ (forall code st',
              capture_outputs env cfg outputs (dict_keys outputs) st
              = Exit code st' ->
              code = 2%Z
              /\ exists n name,
                   nth_error (dict_keys outputs) n = Some name
                   /\ st' = add_console
                              (add_calls st (firstn (S n) requests))
                              ["Error getting output " ++ name])
        /\ (forall e st',
              capture_outputs env cfg outputs (dict_keys outputs) st
              <> Raise e st'))
    /\ (benchCore cfg = false ->
        requests
        = map (fun e : string * string =>
                 "simbox -simbox-file " ++ working_dir cfg
                   ++ "/simboxtemp.json -add " ++ dq ++ "onexit:show:" ++ snd e
                   ++ ":" ++ data_type cfg ++ dq)
              outputs)
    /\ (numbered_outputs outputs ->
        forall i name id,
          nth_error outputs i = Some (name, id) ->
          String.eqb id ("o" ++ Py.str (Z.of_nat (length outputs) - 1)) = true
          <-> i = length outputs - 1).
Proof.
  intros env cfg outputs requests Hnd Hreq.
  assert (Hmap : requests
                 = map (fun e => capture_command cfg outputs (snd e)) outputs).
  { rewrite Hreq. apply map_ext. intros e. symmetry.
    apply capture_command_text. }
  split; [|split].
  - intros st. rewrite Hmap. unfold dict_keys.
    destruct (capture_loop env cfg outputs outputs
                (fun k v H => dict_get_in outputs k v Hnd H) st)
      as (Hall & Hdone & Hexit & Hraise).
    split; [exact Hall|]. split; [|split; [exact Hexit | exact Hraise]].
    intros st' H. pose proof (Hall (Hdone st' H)) as H'. congruence.
  - intros Hb. rewrite Hreq. apply map_ext. intros e. rewrite Hb. reflexivity.
  - intros Hnum i name id Hi. rewrite (Hnum _ _ _ Hi), String.eqb_eq.
    assert (i < length outputs) by (apply nth_error_Some; congruence).
    split.
    + intros [= E]. apply str_inj in E. lia.
    + intros ->. do 2 f_equal. lia.
Qed.

Lemma capture_encoding_witness :
  capture_outputs demo_env (with_modes false true false default_config)
    demo_outputs (dict_keys demo_outputs) (initial_state default_config [])
  = Done tt
      (add_calls (initial_state default_config [])
         [ "simbox -simbox-file working_dir/simboxtemp.json -add " ++ dq
             ++ "onexit:show:o0:float32" ++ dq;
           "simbox -simbox-file working_dir/simboxtemp.json -add " ++ dq
             ++ "onexit:show:o1:float32" ++ dq;
           "simbox -simbox-file working_dir/simboxtemp.json -add " ++ dq
             ++ "onexit:show:o2:unsigned" ++ dq ]).
Proof.
  assert (Hnd : NoDup (dict_keys demo_outputs)).
  { unfold demo_outputs, dict_keys. simpl.
    repeat constructor; simpl; intuition discriminate. }
  destruct (capture_encoding_per_output demo_env
              (with_modes false true false default_config) demo_outputs
              _ Hnd eq_refl) as (Hrun & _ & _).
  destruct (Hrun (initial_state default_config [])) as (Hall & _).
  apply Hall. repeat constructor.
Defined.

(** C8, as the specification words it, fails when the identifiers are
    not in the order of the map: in benchmark mode the request for [o0],
    the identifier of the last declared output, is emitted with the data
    type, and [o1] is the one shown as [unsigned]. *)
Lemma capture_encoding_counterexample :
  ~ (forall name id,
        In (name, id) swapped_outputs ->
        In ("simbox -simbox-file working_dir/simboxtemp.json -add " ++ dq
              ++ "onexit:show:" ++ id ++ ":"
              ++ spec_encoding (with_modes false true false default_config)
                   swapped_outputs id
              ++ dq)
           (calls (state_of
                     (capture_outputs demo_env
                        (with_modes false true false default_config)
                        swapped_outputs (dict_keys swapped_outputs)
                        (initial_state default_config [])))))
  /\ calls (state_of
              (capture_outputs demo_env
                 (with_modes false true false default_config)
                 swapped_outputs (dict_keys swapped_outputs)
                 (initial_state default_config [])))
     = [ "simbox -simbox-file working_dir/simboxtemp.json -add " ++ dq
           ++ "onexit:show:o1:unsigned" ++ dq;
         "simbox -simbox-file working_dir/simboxtemp.json -add " ++ dq
           ++ "onexit:show:o0:float32" ++ dq ]
  /\ last_declared_id swapped_outputs = Some "o0"
  /\ spec_encoding (with_modes false true false default_config)
       swapped_outputs "o0" = "unsigned"
  /\ spec_encoding (with_modes false true false default_config)
       swapped_outputs "o1" = "float32".
Proof.
  split; [|repeat split; vm_compute; reflexivity].
  intros H. specialize (H "1" "o0" (or_intror (or_introl eq_refl))).
  vm_compute in H. destruct H as [H|[H|[]]]; discriminate H.
Qed.

(* ================================================================== *)
(** ** Rejected rows and fatal statuses                                 *)
(* ================================================================== *)

(** C6. A row whose number of fields is not the number of inputs prints
    the column diagnostic, runs no command and writes nothing; the loop
    goes on with the next line, and an accepted row behind it that runs to
    its end adds its record to the file. *)
Theorem column_mismatch_skips_the_row :
  forall (env : Env) (fm : Float32) (cfg : RunConfig)
         (inputs outputs : Dict) (prefix raw : string) (st : State),
    accepted inputs raw = false ->
    process_line env fm cfg inputs outputs prefix raw st
    = Done tt (add_console st [column_error])
    /\ (forall rest,
          row_loop env fm cfg inputs outputs prefix (raw :: rest) st
          = row_loop env fm cfg inputs outputs prefix rest
              (add_console st [column_error]))
    /\ (forall good st',
          accepted inputs good = true ->
          row_loop env fm cfg inputs outputs prefix [raw; good] st
          = Done tt st' ->
          exists record, outfile st' = outfile st ++ record ++ Py.nl).
Proof.
  intros env fm cfg inputs outputs prefix raw st Hrej.
  assert (Hline := process_line_rejected env fm cfg inputs outputs prefix
                     raw st Hrej).
  assert (Hloop : forall rest,
             row_loop env fm cfg inputs outputs prefix (raw :: rest) st
             = row_loop env fm cfg inputs outputs prefix rest
                 (add_console st [column_error])).
  { intros rest. simpl. unfold bind. rewrite Hline. reflexivity. }
  split; [exact Hline|]. split; [exact Hloop|].
  intros good st' Hacc Hdone. rewrite Hloop in Hdone.
  simpl in Hdone. unfold bind in Hdone.
  destruct (process_line env fm cfg inputs outputs prefix good
              (add_console st [column_error])) as [[] s1| |] eqn:E;
    try discriminate.
  unfold ret in Hdone. injection Hdone as <-.
  rewrite process_line_accepted in E by assumption.
  apply run_row_done in E. destruct E as (cmds & row & _ & Hrow & ->).
  apply decode_ends_line in Hrow. destruct Hrow as (body & ->).
  exists body. reflexivity.
Qed.

Lemma column_mismatch_witness :
  process_line demo_env ExactDecimal.model default_config demo_inputs demo_outputs
    "0f" "1" (initial_state default_config [])
  = Done tt (add_console (initial_state default_config []) [column_error])
  /\ outfile (state_of
       (row_loop demo_env ExactDecimal.model default_config demo_inputs
          demo_outputs "0f" ["1"; "1,2"] (initial_state default_config [])))
     = "0.25,0.75,17" ++ Py.nl.
Proof.
  destruct (column_mismatch_skips_the_row demo_env ExactDecimal.model
              default_config demo_inputs demo_outputs "0f" "1"
              (initial_state default_config []) eq_refl)
    as (Hline & Hloop & _).
  split; [exact Hline|].
  rewrite Hloop. vm_compute. reflexivity.
Defined.

(** C7. When the rows before have run to their end and, in the next row,
    any command behind the removal of the old simbox file (a sandbox
    directive, an input binding, a capture request or the engine) ends
    with a status other than 0, the whole loop ends by [sys.exit(2)]: the
    lines behind are not processed, one or more diagnostics were printed
    after the row's announcement, and the output file still holds what the
    rows before had written. *)
Theorem nonzero_status_is_fatal :
  forall (env : Env) (fm : Float32) (cfg : RunConfig)
         (inputs outputs : Dict) (prefix : string)
         (before : list string) (raw : string) (after : list string)
         (st st1 : State) (ext : list string),
    row_loop env fm cfg inputs outputs prefix before st = Done tt st1 ->
    calls (state_of (process_line env fm cfg inputs outputs prefix raw st1))
    = (calls st1 ++ rm_command cfg :: ext)%list ->
    Exists (fun z => z <> 0%Z)
           (statuses env (calls st1 ++ [rm_command cfg]) ext) ->
    exists st' diag,
      row_loop env fm cfg inputs outputs prefix (before ++ raw :: after) st
      = Exit 2%Z st'
      /\ outfile st' = outfile st1
      /\ diag <> []
      /\ console st'
         = (console st1 ++ running (Py.strip raw) :: diag)%list.
Proof.
  intros env fm cfg inputs outputs prefix before raw after st st1 ext
         Hbefore Hcalls Hbad.
  assert (Hacc : accepted inputs raw = true).
  { destruct (accepted inputs raw) eqn:E; [reflexivity|].
    rewrite process_line_rejected in Hcalls by assumption.
    simpl in Hcalls. rewrite <- (app_nil_r (calls st1)) in Hcalls at 1.
    apply app_inv_head in Hcalls. discriminate. }
  rewrite row_loop_app. unfold bind at 1. rewrite Hbefore.
  simpl row_loop. unfold bind at 1.
  rewrite process_line_accepted in * by assumption.
  destruct (run_row_checked env fm cfg inputs outputs prefix (Py.strip raw)
              (Py.split "," (Py.strip raw)) st1) as (ext' & Hc & _ & H).
  rewrite Hc in Hcalls. apply app_inv_head in Hcalls.
  injection Hcalls as ->.
  destruct (run_row env fm cfg inputs outputs prefix (Py.strip raw)
              (Py.split "," (Py.strip raw)) st1) as [[] s2|code s2|e s2].
  - exfalso. unfold all_zero in H. rewrite Forall_forall in H.
    rewrite Exists_exists in Hbad. destruct Hbad as (z & Hin & Hz).
    apply Hz, H, Hin.
  - destruct H as (-> & Hf & diag & Hd & Hcon).
    exists s2, diag. auto.
  - exfalso. unfold all_zero in H. rewrite Forall_forall in H.
    rewrite Exists_exists in Hbad. destruct Hbad as (z & Hin & Hz).
    apply Hz, H, Hin.
Qed.

Lemma nonzero_status_witness :
  exists st' diag,
    row_loop demo_env ExactDecimal.model default_config demo_inputs demo_outputs
      "0f" (["1,2"] ++ "boom,1" :: ["3,4"]) (initial_state default_config [])
    = Exit 2%Z st'
    /\ outfile st'
       = outfile (state_of
           (row_loop demo_env ExactDecimal.model default_config demo_inputs
              demo_outputs "0f" ["1,2"] (initial_state default_config [])))
    /\ diag <> []
    /\ console st'
       = (console (state_of
            (row_loop demo_env ExactDecimal.model default_config demo_inputs
               demo_outputs "0f" ["1,2"] (initial_state default_config [])))
          ++ running (Py.strip "boom,1") :: diag)%list.
Proof.
  apply (nonzero_status_is_fatal demo_env ExactDecimal.model default_config
           demo_inputs demo_outputs "0f" ["1,2"] "boom,1" ["3,4"]
           (initial_state default_config [])
           (state_of
              (row_loop demo_env ExactDecimal.model default_config demo_inputs
                 demo_outputs "0f" ["1,2"] (initial_state default_config [])))
           (config_commands default_config
              ++ [bind_command default_config "a" "boom"])%list).
  - vm_compute. reflexivity.
  - vm_compute. reflexivity.
  - apply Exists_exists. exists 1%Z. split; [|discriminate].
    vm_compute. do 10 right. left. reflexivity.
Defined.

(* ================================================================== *)
(** ** The order of the output rows                                     *)
(* ================================================================== *)

Lemma expected_records_lines (env : Env) (fm : Float32) (cfg : RunConfig)
    (inputs outputs : Dict) (prefix : string) (rows : list string) :
  forall hist,
    Forall (fun record => exists body, record = body ++ Py.nl)
           (expected_records env fm cfg inputs outputs prefix hist rows).
Proof.
  induction rows as [|raw r IH]; intros hist; simpl; [constructor|].
  destruct (record_of env fm cfg inputs outputs prefix hist raw) as [row|] eqn:E;
    [|constructor].
  constructor; [|apply IH].
  unfold record_of in E.
  destruct (row_commands cfg inputs outputs _) as [cmds|]; [|discriminate].
  destruct (decode fm cfg prefix _) as [e|row'] eqn:Ed; [discriminate|].
  injection E as <-. eapply decode_ends_line. eassumption.
Qed.

Lemma expected_records_bodies (env : Env) (fm : Float32) (cfg : RunConfig)
    (inputs outputs : Dict) (prefix : string) (rows : list string) :
  (forall hist,
      single_line (Py.strip (p_stdout (env hist (the_engine_command cfg outputs))))) ->
  forall hist, exists bodies,
    expected_records env fm cfg inputs outputs prefix hist rows
    = map (fun b => b ++ Py.nl) bodies
    /\ Forall single_line bodies.
Proof.
  intros Hone. induction rows as [|raw r IH]; intros hist; simpl.
  - exists []. split; [reflexivity | constructor].
  - destruct (record_of env fm cfg inputs outputs prefix hist raw) as [row|] eqn:E.
    + unfold record_of in E.
      destruct (row_commands cfg inputs outputs _) as [cmds|]; [|discriminate].
      destruct (decode fm cfg prefix _) as [e|row'] eqn:Ed; [discriminate|].
      injection E as <-.
      apply decode_single_line in Ed; [|apply Hone].
      destruct Ed as (body & -> & Hbody).
      destruct (IH (history_after cfg inputs outputs hist raw))
        as (bodies & -> & Hbodies).
      exists (body :: bodies). split; [reflexivity | constructor; assumption].
    + exists []. split; [reflexivity | constructor].
Qed.

(** C9. When the batch runs to its end, the output file holds, behind the
    header, one record for each accepted row and nothing for the other
    lines: the i-th record is the one decoded from the engine's readout
    for the i-th accepted row, and each record ends its line.  When the
    engine prints one line, as its interface says, the file read back line
    by line behind the header is these records, one row each. *)
Theorem output_rows_follow_accepted_rows :
  forall (env : Env) (fm : Float32) (cfg : RunConfig)
         (inputs outputs : Dict) (prefix : string)
         (lines : list string) (st st' : State),
    batch env fm cfg inputs outputs prefix lines st = Done tt st' ->
    outfile st'
    = outfile st ++ header_text cfg outputs
        ++ String.concat ""
             (expected_records env fm cfg inputs outputs prefix (calls st)
                (filter (accepted inputs) lines))
    /\ length (expected_records env fm cfg inputs outputs prefix (calls st)
                 (filter (accepted inputs) lines))
       = length (filter (accepted inputs) lines)
    /\ Forall (fun record => exists body, record = body ++ Py.nl)
              (expected_records env fm cfg inputs outputs prefix (calls st)
                 (filter (accepted inputs) lines))
    /\ ((forall hist,
            single_line
              (Py.strip (p_stdout (env hist (the_engine_command cfg outputs))))) ->
        exists bodies,
          length bodies = length (filter (accepted inputs) lines)
          /\ expected_records env fm cfg inputs outputs prefix (calls st)
               (filter (accepted inputs) lines)
             = map (fun b => b ++ Py.nl) bodies
          /\ Py.split newline
               (String.concat ""
                  (expected_records env fm cfg inputs outputs prefix (calls st)
                     (filter (accepted inputs) lines)))
             = (bodies ++ [""])%list).
Proof.
  intros env fm cfg inputs outputs prefix lines st st' Hdone.
  unfold batch, bind, write in Hdone.
  apply row_loop_done in Hdone. simpl in Hdone.
  destruct Hdone as (_ & Hf & Hl).
  split; [|split; [|split]].
  - rewrite Hf, append_assoc. reflexivity.
  - exact Hl.
  - apply expected_records_lines.
  - intros Hone.
    destruct (expected_records_bodies env fm cfg inputs outputs prefix
                (filter (accepted inputs) lines) Hone (calls st))
      as (bodies & Hb & Hs).
    exists bodies. rewrite Hb in *. rewrite length_map in Hl.
    split; [exact Hl|]. split; [reflexivity|].
    apply split_records. exact Hs.
Qed.

Lemma output_rows_witness :
  outfile (state_of
    (batch demo_env ExactDecimal.model (with_modes false true false default_config)
       demo_inputs demo_outputs "0f" ["1,2"; "3"; ""; "4,5"]
       (initial_state default_config [])))
  = "" ++ ""
      ++ String.concat ""
           (expected_records demo_env ExactDecimal.model
              (with_modes false true false default_config)
              demo_inputs demo_outputs "0f" [] ["1,2"; "4,5"])
  /\ exists bodies,
       length bodies = 2
       /\ Py.split newline
            (String.concat ""
               (expected_records demo_env ExactDecimal.model
                  (with_modes false true false default_config)
                  demo_inputs demo_outputs "0f" [] ["1,2"; "4,5"]))
          = (bodies ++ [""])%list.
Proof.
  destruct (output_rows_follow_accepted_rows demo_env ExactDecimal.model
              (with_modes false true false default_config)
              demo_inputs demo_outputs "0f" ["1,2"; "3"; ""; "4,5"]
              (initial_state default_config [])
              (state_of
                 (batch demo_env ExactDecimal.model
                    (with_modes false true false default_config)
                    demo_inputs demo_outputs "0f" ["1,2"; "3"; ""; "4,5"]
                    (initial_state default_config []))))
    as (Hf & _ & _ & Hrows).
  - vm_compute. reflexivity.
  - split; [exact Hf|].
    destruct Hrows as (bodies & Hlen & _ & Hsplit).
    + intros hist. vm_compute. intuition discriminate.
    + exists bodies. split; [exact Hlen | exact Hsplit].
Defined.

(* ================================================================== *)
(** ** Blank lines                                                      *)
(* ================================================================== *)

(** C5. A split never yields zero fields, so the test of line 149 never
    skips a line.  A blank line has one empty field: against a design
    with two inputs it gets the column diagnostic, and against a design
    with one input it is run as a row with an empty value and a record is
    written for it. *)
Theorem blank_line_is_not_skipped :
  (forall sep s, length (Py.split sep s) <> 0)
  /\ process_line demo_env ExactDecimal.model default_config demo_inputs
       demo_outputs "0f" Py.nl (initial_state default_config [])
     = Done tt (add_console (initial_state default_config []) [column_error])
  /\ outfile (state_of
       (process_line demo_env ExactDecimal.model default_config [("0", "a")]
          demo_outputs "0f" Py.nl (initial_state default_config [])))
     = "0.25,0.75,17" ++ Py.nl
  /\ In (bind_command default_config "a" "")
        (calls (state_of
           (process_line demo_env ExactDecimal.model default_config [("0", "a")]
              demo_outputs "0f" Py.nl (initial_state default_config [])))).
Proof.
  split; [|split; [|split]].
  - intros sep s. pose proof (split_length_pos sep s). lia.
  - vm_compute. reflexivity.
  - vm_compute. reflexivity.
  - vm_compute. do 11 right. left. reflexivity.
Qed.

(* ================================================================== *)
(** ** The fields of a record                                           *)
(* ================================================================== *)

Section Fields.

Lemma split_app_sep (sep : ascii) (a b : string) :
  Py.split sep (a ++ String sep b) = (Py.split sep a ++ Py.split sep b)%list.
Proof.
  induction a as [|c a IH]; cbn [append Py.split].
  - rewrite Ascii.eqb_refl. reflexivity.
  - rewrite IH. destruct (Ascii.eqb c sep); [reflexivity|].
    pose proof (split_not_nil sep a) as Hn.
    destruct (Py.split sep a); [congruence | reflexivity].
Qed.

Lemma split_free (sep : ascii) (s : string) :
  ~ In sep (chars s) -> Py.split sep s = [s].
Proof.
  induction s as [|c r IH]; intros H; [reflexivity|].
  cbn [Py.split]. destruct (Ascii.eqb_spec c sep) as [->|_].
  - exfalso. apply H. left. reflexivity.
  - rewrite IH by (intros Hin; apply H; right; exact Hin). reflexivity.
Qed.

(** Commas for spaces: the fields are the tokens. *)
Lemma split_commas (s : string) :
  comma_free s -> Py.split "," (Py.replace " " "," s) = Py.split " " s.
Proof.
  unfold comma_free.
  change (Py.replace " " "," s) with (Py.replace_scan " " "," 0 s).
  induction s as [|c r IH]; intros H; [reflexivity|].
  assert (Hr : ~ In ","%char (chars r)) by (intros Hin; apply H; right; exact Hin).
  cbn [Py.replace_scan Py.startswith Py.len String.length Nat.sub].
  rewrite andb_true_r.
  destruct (Ascii.eqb_spec " " c) as [<-|Hne].
  - cbn [append Py.split]. cbn. rewrite IH by assumption. reflexivity.
  - cbn [Py.split].
    destruct (Ascii.eqb_spec c ",") as [->|_];
      [exfalso; apply H; left; reflexivity|].
    destruct (Ascii.eqb_spec c " ") as [->|_]; [congruence|].
    rewrite IH by assumption. reflexivity.
Qed.

Lemma lstrip_free (f : ascii -> bool) (s : string) :
  (forall c, In c (chars s) -> f c = false) -> Py.lstrip_by f s = s.
Proof.
  destruct s as [|c r]; intros H; [reflexivity|].
  simpl. rewrite (H c) by (left; reflexivity). reflexivity.
Qed.

Lemma rstrip_free (f : ascii -> bool) (s : string) :
  (forall c, In c (chars s) -> f c = false) -> Py.rstrip_by f s = s.
Proof.
  induction s as [|c r IH]; intros H; [reflexivity|].
  simpl. rewrite IH by (intros x Hx; apply H; right; exact Hx).
  rewrite (H c) by (left; reflexivity). destruct r; reflexivity.
Qed.

Lemma strip_comma_free (s : string) :
  comma_free s -> Py.strip_char "," s = s.
Proof.
  intros H. unfold Py.strip_char, Py.strip_by.
  assert (Hf : forall c, In c (chars s) -> Ascii.eqb "," c = false).
  { intros c Hin. destruct (Ascii.eqb_spec "," c) as [<-|]; [|reflexivity].
    exfalso. exact (H Hin). }
  rewrite lstrip_free by assumption. apply rstrip_free. assumption.
Qed.

Lemma comma_free_uint (d : Decimal.uint) :
  comma_free (NilEmpty.string_of_uint d).
Proof.
  unfold comma_free.
  induction d; simpl; intros H;
    try (destruct H as [H|H]; [discriminate H | exact (IHd H)]).
  exact H.
Qed.

Lemma comma_free_str (n : Z) : comma_free (Py.str n).
Proof.
  unfold Py.str, NilZero.string_of_int.
  destruct (Z.to_int n) as [d|d].
  - destruct d; try apply comma_free_uint.
    intros [H|[]]. discriminate H.
  - intros [H|H]; [discriminate H|]. revert H.
    destruct d; try apply comma_free_uint.
    intros [H|[]]. discriminate H.
Qed.

Lemma cut_last_parts (f : ascii -> bool) (s pre tok : string) :
  cut_last f s = (Some pre, tok) ->
  exists c, f c = true /\ s = pre ++ String c tok
            /\ (forall x, In x (chars tok) -> f x = false).
Proof.
  revert pre tok. induction s as [|a r IH]; intros pre tok; simpl.
  - discriminate.
  - destruct (cut_last f r) as [[pre'|] tok'] eqn:E.
    + intros [= <- <-]. destruct (IH _ _ eq_refl) as (c & Hc & -> & Hfree).
      exists c. auto.
    + destruct (f a) eqn:Ea; intros [= <- <-].
      exists a. split; [assumption|].
      clear IH. revert tok' E. induction r as [|b r IHr]; intros tok' E.
      * simpl in E. injection E as <-. split; [reflexivity | intros x []].
      * simpl in E. destruct (cut_last f r) as [[p2|] t2]; [discriminate|].
        destruct (f b) eqn:Eb; [discriminate|]. injection E as <-.
        destruct (IHr _ eq_refl) as [Heq Hfree]. injection Heq as ->.
        split; [reflexivity|].
        intros x [<-|Hx]; [assumption | apply Hfree, Hx].
Qed.

(** The tokens of a line are those before its last space and the one
    behind it. *)
Lemma split_before_last (s pre : string) :
  fst (cut_last is_blank s) = Some pre ->
  Py.split " " s = (Py.split " " pre ++ [last_token s])%list.
Proof.
  unfold last_token. destruct (cut_last is_blank s) as [o tok] eqn:E.
  simpl. intros ->.
  destruct (cut_last_parts is_blank s pre tok E) as (c & Hc & -> & Hfree).
  unfold is_blank in Hc. apply Ascii.eqb_eq in Hc. subst c.
  rewrite split_app_sep. f_equal. apply split_free.
  intros Hin. specialize (Hfree _ Hin). discriminate Hfree.
Qed.

End Fields.

Section RecordFields.

Variable fm : Float32.
Variable cfg : RunConfig.
Variable prefix : string.

Lemma comma_free_before_last (s : string) :
  comma_free s -> comma_free (before_last_token s).
Proof.
  unfold comma_free, before_last_token. intros Hs H.
  destruct (fst (cut_last is_blank s)) as [pre|] eqn:E; [|destruct H].
  apply Hs. exact (proj2 (in_cut_last is_blank "," s) pre E H).
Qed.

Lemma comma_free_last_token (s : string) :
  comma_free s -> comma_free (last_token s).
Proof.
  unfold comma_free, last_token. intros Hs H.
  apply Hs. exact (proj1 (in_cut_last is_blank "," s) H).
Qed.

Lemma comma_free_probability_line (readout : string) :
  comma_free (strip_prefix cfg prefix readout) ->
  comma_free (probability_line cfg prefix readout).
Proof.
  intros H. unfold probability_line. destruct (benchCore cfg); [|exact H].
  rewrite split_latency_cut. apply comma_free_before_last, H.
Qed.

Lemma split_fields_latency (fields latency : string) (bench : bool) :
  comma_free latency ->
  Py.split "," (fields ++ (if bench then "," ++ latency else ""))
  = (Py.split "," fields ++ (if bench then [latency] else []))%list.
Proof.
  intros Hl. destruct bench.
  - change ("," ++ latency) with (String "," latency).
    rewrite split_app_sep, (split_free "," latency Hl). reflexivity.
  - rewrite append_nil_r, app_nil_r. reflexivity.
Qed.

Lemma latency_field_eq (readout : string) :
  latency_field cfg prefix readout
  = if benchCore cfg
    then "," ++ last_token (strip_prefix cfg prefix readout) else "".
Proof.
  unfold latency_field. destruct (benchCore cfg); [|reflexivity].
  rewrite split_latency_cut. reflexivity.
Qed.

(** The fields of an ML record, read back by splitting on the comma. *)
Lemma record_fields_ml (readout row : string) :
  isml cfg = true ->
  comma_free (strip_prefix cfg prefix readout) ->
  decode fm cfg prefix readout = inr row ->
  exists body k,
    row = body ++ Py.nl
    /\ Py.split "," body
       = (Py.split " " (probability_line cfg prefix readout)
          ++ [Py.str (Z.of_nat k)]
          ++ (if benchCore cfg
              then [last_token (strip_prefix cfg prefix readout)] else []))%list.
Proof.
  intros Hml Hfree. rewrite decode_fields.
  pose proof (comma_free_probability_line readout Hfree) as HP.
  pose proof (comma_free_last_token _ Hfree) as HL.
  set (P := probability_line cfg prefix readout) in *.
  unfold format_fields. rewrite latency_field_eq, Hml.
  destruct (classify fm P) as [e|k]; [discriminate|].
  intros [= <-].
  exists ((Py.replace " " "," P ++ "," ++ Py.str (Z.of_nat k))
          ++ (if benchCore cfg
              then "," ++ last_token (strip_prefix cfg prefix readout)
              else "")), k.
  split; [rewrite !append_assoc; reflexivity|].
  rewrite split_fields_latency by assumption.
  change (Py.replace " " "," P ++ "," ++ Py.str (Z.of_nat k))
    with (Py.replace " " "," P ++ String "," (Py.str (Z.of_nat k))).
  rewrite split_app_sep, split_commas by assumption.
  rewrite (split_free "," _ (comma_free_str (Z.of_nat k))).
  rewrite <- app_assoc. reflexivity.
Qed.

(** The fields of a plain record. *)
Lemma record_fields_plain (readout row : string) :
  isml cfg = false ->
  comma_free (strip_prefix cfg prefix readout) ->
  decode fm cfg prefix readout = inr row ->
  exists body,
    row = body ++ Py.nl
    /\ Py.split "," body
       = (Py.split " " (probability_line cfg prefix readout)
          ++ (if benchCore cfg
              then [last_token (strip_prefix cfg prefix readout)] else []))%list.
Proof.
  intros Hml Hfree. rewrite decode_fields.
  pose proof (comma_free_probability_line readout Hfree) as HP.
  pose proof (comma_free_last_token _ Hfree) as HL.
  set (P := probability_line cfg prefix readout) in *.
  unfold format_fields. rewrite latency_field_eq, Hml.
  intros [= <-].
  exists (Py.replace " " "," (Py.strip_char "," P)
          ++ (if benchCore cfg
              then "," ++ last_token (strip_prefix cfg prefix readout)
              else "")).
  split; [rewrite append_assoc; reflexivity|].
  rewrite split_fields_latency by assumption.
  rewrite strip_comma_free, split_commas by assumption. reflexivity.
Qed.

End RecordFields.



(* ================================================================== *)
(** ** The columns of the header                                        *)
(* ================================================================== *)

Lemma comma_free_append (a b : string) :
  comma_free a -> comma_free b -> comma_free (a ++ b).
Proof.
  unfold comma_free. intros Ha Hb H. apply in_chars_append in H. tauto.
Qed.

Lemma comma_free_probability_name (j : nat) :
  comma_free ("probability_" ++ Py.str (Z.of_nat j)).
Proof.
  apply comma_free_append; [|apply comma_free_str].
  vm_compute. intuition discriminate.
Qed.

Lemma split_probability_columns (n : nat) :
  forall (i : nat) (rest : string),
    Py.split "," (probability_columns i n ++ rest)
    = (map (fun j => ("probability_" ++ Py.str (Z.of_nat j))%string) (seq i n)
       ++ Py.split "," rest)%list.
Proof.
  induction n as [|n IH]; intros i rest; [reflexivity|].
  cbn [probability_columns seq map].
  rewrite !append_assoc.
  change ("probability_" ++ Py.str (Z.of_nat i) ++ ","
            ++ probability_columns (S i) n ++ rest)
    with (("probability_" ++ Py.str (Z.of_nat i))
            ++ String "," (probability_columns (S i) n ++ rest)).
  rewrite split_app_sep, IH.
  rewrite (split_free "," _ (comma_free_probability_name i)). reflexivity.
Qed.

(** The columns of the ML header. *)
Lemma header_fields_ml (cfg : RunConfig) (outputs : Dict) :
  header cfg = true ->
  isml cfg = true ->
  exists body,
    header_text cfg outputs = body ++ Py.nl
    /\ Py.split "," body
       = header_names true (benchCore cfg) (length outputs).
Proof.
  intros Hh Hml. unfold header_text, header_names. rewrite Hh, Hml.
  exists ((probability_columns 0 (length outputs) ++ "classification")
          ++ (if benchCore cfg then ",latency_cycles" else "")).
  split; [rewrite !append_assoc; reflexivity|].
  assert (Hl : comma_free "latency_cycles") by (vm_compute; intuition discriminate).
  change ",latency_cycles" with ("," ++ "latency_cycles").
  rewrite (split_fields_latency _ "latency_cycles" (benchCore cfg) Hl).
  rewrite split_probability_columns. reflexivity.
Qed.

(** X2. With the header flag set, the header row read back by splitting on
    the comma is, in ML mode, [probability_0] to [probability_(n-1)] for
    the [n] declared outputs and then [classification]; outside ML mode it
    is one empty field; in benchmark mode [latency_cycles] follows. *)
Theorem header_columns :
  forall (cfg : RunConfig) (outputs : Dict),
    header cfg = true ->
    exists body,
      header_text cfg outputs = body ++ Py.nl
      /\ Py.split "," body
         = header_names (isml cfg) (benchCore cfg) (length outputs).
Proof.
  intros cfg outputs Hh. destruct (isml cfg) eqn:Hml.
  - destruct (header_fields_ml cfg outputs Hh Hml) as (body & Hhead & Hcols).
    exists body. split; assumption.
  - unfold header_text, header_names. rewrite Hh, Hml.
    exists (if benchCore cfg then ",latency_cycles" else "").
    split; [reflexivity|].
    destruct (benchCore cfg); reflexivity.
Qed.

Lemma header_columns_witness :
  exists body,
    header_text (with_modes true true true default_config) demo_outputs
    = body ++ Py.nl
    /\ Py.split "," body
       = header_names (isml (with_modes true true true default_config))
           (benchCore (with_modes true true true default_config))
           (length demo_outputs).
Proof.
  apply (header_columns (with_modes true true true default_config) demo_outputs).
  reflexivity.
Defined.

Lemma header_names_length (ml bench : bool) (n : nat) :
  ml = true ->
  length (header_names ml bench n) = n + 1 + (if bench then 1 else 0).
Proof.
  intros ->. unfold header_names.
  rewrite !length_app, length_map, length_seq. destruct bench; simpl; lia.
Qed.

Lemma cut_last_none (f : ascii -> bool) (s : string) :
  fst (cut_last f s) = None -> forall c, In c (chars s) -> f c = false.
Proof.
  induction s as [|a r IH]; simpl; [intros _ c []|].
  destruct (cut_last f r) as [[pre|] tok]; simpl in *; [discriminate|].
  destruct (f a) eqn:Ea; [discriminate|].
  intros _ c [<-|Hin]; [assumption | apply IH; [reflexivity | assumption]].
Qed.

(** X3. In ML mode, when the engine prints one token for each of two or
    more declared outputs, the header has as many columns as the record
    when benchmark mode is off, and one column more than the record when it
    is on: the header counts a probability for every output, the record
    has none for the output that carries the latency. *)
Theorem header_and_record_columns :
  forall (fm : Float32) (cfg : RunConfig) (outputs : Dict)
         (prefix readout row : string),
    header cfg = true ->
    isml cfg = true ->
    2 <= length outputs ->
    comma_free (strip_prefix cfg prefix readout) ->
    length (Py.split " " (strip_prefix cfg prefix readout)) = length outputs ->
    decode fm cfg prefix readout = inr row ->
    exists hbody body,
      header_text cfg outputs = hbody ++ Py.nl
      /\ row = body ++ Py.nl
      /\ length (Py.split "," hbody)
         = length (Py.split "," body) + (if benchCore cfg then 1 else 0).
Proof.
  intros fm cfg outputs prefix readout row Hh Hml Hn Hfree Hlen Hdec.
  destruct (header_fields_ml cfg outputs Hh Hml) as (hbody & Hhead & Hcols).
  destruct (record_fields_ml fm cfg prefix readout row Hml Hfree Hdec)
    as (body & k & Hrow & Hfields).
  exists hbody, body. split; [assumption|]. split; [assumption|].
  rewrite Hcols, Hfields, header_names_length by reflexivity.
  rewrite !length_app. unfold probability_line.
  set (outline := strip_prefix cfg prefix readout) in *.
  destruct (benchCore cfg); [|simpl; lia].
  rewrite split_latency_cut.
  destruct (fst (cut_last is_blank outline)) as [pre|] eqn:E.
  - rewrite (split_before_last outline pre E), length_app in Hlen.
    unfold before_last_token. rewrite E. simpl in *. lia.
  - exfalso. pose proof (cut_last_none is_blank outline E) as Hnone.
    rewrite (split_free " " outline) in Hlen; [simpl in Hlen; lia|].
    intros Hin. specialize (Hnone _ Hin). discriminate Hnone.
Qed.

Lemma header_and_record_columns_witness :
  exists hbody body,
    header_text (with_modes true true true default_config) demo_outputs
    = hbody ++ Py.nl
    /\ "0.25,0.75,1,17" ++ Py.nl = body ++ Py.nl
    /\ length (Py.split "," hbody)
       = length (Py.split "," body)
         + (if benchCore (with_modes true true true default_config)
            then 1 else 0).
Proof.
  apply (header_and_record_columns ExactDecimal.model
           (with_modes true true true default_config) demo_outputs
           "0f" "0f0.25 0f0.75 0f17").
  - reflexivity.
  - reflexivity.
  - simpl. lia.
  - vm_compute. intuition discriminate.
  - vm_compute. reflexivity.
  - vm_compute. reflexivity.
Defined.

(* ================================================================== *)
(** ** What a row binds, and how a row can fail                         *)
(* ================================================================== *)

Section Rows.

Variable env : Env.
Variable fm : Float32.
Variable cfg : RunConfig.
Variable inputs outputs : Dict.
Variable prefix : string.

Local Abbreviation engine := (the_engine_command cfg outputs).

(** The bind commands follow the columns: the [j]-th binds the [j]-th
    value to the name stored under its position. *)
Lemma bind_commands_nth (inputs_values : list string) :
  forall i cs,
    bind_commands cfg inputs i inputs_values = Some cs ->
    length cs = length inputs_values
    /\ forall j v,
         nth_error inputs_values j = Some v ->
         exists name,
           dict_get inputs (Py.str (Z.of_nat (i + j))) = Some name
           /\ nth_error cs j = Some (bind_command cfg name v).
Proof.
  induction inputs_values as [|v0 r IH]; intros i cs; simpl.
  - intros [= <-]. split; [reflexivity|]. intros [|j] v H; discriminate H.
  - destruct (dict_get inputs (Py.str (Z.of_nat i))) as [name|] eqn:En;
      [|discriminate].
    destruct (bind_commands cfg inputs (S i) r) as [cs'|] eqn:Er;
      [|discriminate].
    intros [= <-]. destruct (IH _ _ Er) as [Hlen Hnth].
    split; [simpl; congruence|].
    intros [|j] v H; simpl in H.
    + injection H as <-. exists name. rewrite Nat.add_0_r. auto.
    + destruct (Hnth j v H) as (name' & Hn & Hc).
      exists name'. rewrite Nat.add_succ_r. simpl in Hn. auto.
Qed.

Lemma bind_commands_none (inputs_values : list string) :
  forall i j,
    j < length inputs_values ->
    dict_get inputs (Py.str (Z.of_nat (i + j))) = None ->
    bind_commands cfg inputs i inputs_values = None.
Proof.
  intros i j Hj Hnone.
  destruct (bind_commands cfg inputs i inputs_values) as [cs|] eqn:E;
    [|reflexivity].
  destruct (bind_commands_nth inputs_values i cs E) as [_ Hnth].
  destruct (nth_error inputs_values j) as [v|] eqn:Ev.
  - destruct (Hnth j v Ev) as (name & Hn & _). congruence.
  - apply nth_error_None in Ev. lia.
Qed.

(** *** Exceptions *)

Lemma run_config_no_raise (commands : list string) :
  forall st e st', run_config env commands st <> Raise e st'.
Proof.
  induction commands as [|c r IH]; intros st e st'; simpl; [discriminate|].
  unfold bind at 1. unfold popen.
  destruct (returncode (env (calls st) c) =? 0)%Z; [apply IH | discriminate].
Qed.

Lemma bind_inputs_raise (inputs_values : list string) :
  forall i st e st',
    bind_inputs env cfg inputs i inputs_values st = Raise e st' ->
    exists j,
      j < length inputs_values
      /\ e = KeyError (Py.str (Z.of_nat (i + j)))
      /\ dict_get inputs (Py.str (Z.of_nat (i + j))) = None.
Proof.
  induction inputs_values as [|v r IH]; intros i st e st'; simpl;
    [discriminate|].
  destruct (dict_get inputs (Py.str (Z.of_nat i))) as [name|] eqn:En.
  - unfold bind at 1. unfold popen.
    destruct (returncode (env (calls st) (bind_command cfg name v)) =? 0)%Z;
      [|discriminate].
    intros H. apply IH in H. destruct H as (j & Hj & He & Hn).
    exists (S j). rewrite Nat.add_succ_r. split; [lia | auto].
  - unfold raise. intros [= <- <-]. exists 0. rewrite Nat.add_0_r.
    split; [lia | auto].
Qed.

Lemma dict_get_key (d : Dict) (k : string) :
  In k (dict_keys d) -> dict_get d k <> None.
Proof.
  induction d as [|[k' v'] r IH]; simpl; [tauto|].
  intros [->|Hin].
  - rewrite String.eqb_refl. discriminate.
  - destruct (String.eqb k' k); [discriminate | apply IH, Hin].
Qed.

Lemma capture_outputs_no_raise (names : list string) :
  (forall n, In n names -> In n (dict_keys outputs)) ->
  forall st e st', capture_outputs env cfg outputs names st <> Raise e st'.
Proof.
  induction names as [|n r IH]; intros Hin st e st'; simpl; [discriminate|].
  destruct (dict_get outputs n) as [id|] eqn:En.
  - unfold bind at 1. unfold popen.
    destruct (returncode (env (calls st) (capture_command cfg outputs id)) =? 0)%Z;
      [|discriminate].
    apply IH. intros m Hm. apply Hin. right. exact Hm.
  - exfalso. apply (dict_get_key outputs n); [apply Hin; left; reflexivity|].
    exact En.
Qed.

Lemma simulate_no_raise (st : State) (e : Exn) (st' : State) :
  simulate env cfg outputs st <> Raise e st'.
Proof.
  unfold simulate, bind, set_stop, get_stop, popen, ret. simpl.
  destruct (returncode _ =? 0)%Z; discriminate.
Qed.

Lemma prepare_raise (inputs_values : list string) (st : State) (e : Exn)
    (st' : State) :
  prepare_and_simulate env cfg inputs outputs inputs_values st = Raise e st' ->
  exists j,
    j < length inputs_values
    /\ e = KeyError (Py.str (Z.of_nat j))
    /\ dict_get inputs (Py.str (Z.of_nat j)) = None.
Proof.
  unfold prepare_and_simulate. unfold bind at 1.
  destruct (run_config env (config_commands cfg) st) as [[] s1| |] eqn:E1;
    [|discriminate | intros _; exfalso; exact (run_config_no_raise _ _ _ _ E1)].
  unfold bind at 1.
  destruct (bind_inputs env cfg inputs 0 inputs_values s1) as [[] s2| |] eqn:E2;
    [|discriminate|].
  - unfold bind at 1.
    destruct (capture_outputs env cfg outputs (dict_keys outputs) s2)
      as [[] s3| |] eqn:E3.
    + intros H. exfalso. exact (simulate_no_raise _ _ _ H).
    + discriminate.
    + intros _. exfalso.
      exact (capture_outputs_no_raise (dict_keys outputs) (fun n H => H)
               _ _ _ E3).
  - intros [= <- <-]. apply bind_inputs_raise in E2. exact E2.
Qed.

Lemma decode_error (readout : string) (e : Exn) :
  decode fm cfg prefix readout = inl e -> e = ValueError /\ isml cfg = true.
Proof.
  rewrite decode_fields. unfold format_fields, classify.
  destruct (isml cfg); [|discriminate].
  destruct (astype fm _) as [vals|].
  - destruct (argmax fm vals); [discriminate|]. intros [= <-]. auto.
  - intros [= <-]. auto.
Qed.

(** An accepted row that stops by an exception has written nothing; with
    the readout held as text, the exception is the [KeyError] of a column
    without input name or, in ML mode, the [ValueError] of the
    conversion. *)
Lemma run_row_raise (line : string) (inputs_values : list string)
    (st st' : State) (e : Exn) :
  run_row env fm cfg inputs outputs prefix line inputs_values st = Raise e st' ->
  outfile st' = outfile st
  /\ ((exists j,
          j < length inputs_values
          /\ e = KeyError (Py.str (Z.of_nat j))
          /\ dict_get inputs (Py.str (Z.of_nat j)) = None)
      \/ (e = ValueError /\ isml cfg = true
          /\ bind_commands cfg inputs 0 inputs_values <> None)).
Proof.
  rewrite run_row_eq.
  set (s0 := add_calls (add_console st [running line]) [rm_command cfg]).
  unfold bind.
  destruct (prepare_and_simulate_checked env cfg inputs outputs inputs_values s0)
    as (ext & _ & _ & Hf & _).
  destruct (prepare_and_simulate env cfg inputs outputs inputs_values s0)
    as [readout s1|code s1|e1 s1] eqn:E; simpl in Hf.
  - unfold write_record.
    destruct (decode fm cfg prefix readout) as [e2|row] eqn:Ed;
      [|discriminate].
    unfold raise. intros [= <- <-]. split; [exact Hf|]. right.
    destruct (decode_error _ _ Ed) as [-> Hml].
    apply prepare_and_simulate_done in E.
    destruct E as (binds & _ & Hb & _). rewrite Hb.
    repeat split; [assumption | discriminate].
  - discriminate.
  - intros [= <- <-]. split; [exact Hf|]. left.
    exact (prepare_raise _ _ _ _ E).
Qed.

(** Where a row can raise: in the binding loop, on a column without input
    name, or behind the engine, when the row has run all its commands. *)
Lemma run_row_raise_where (line : string) (inputs_values : list string)
    (st st' : State) (e : Exn) :
  run_row env fm cfg inputs outputs prefix line inputs_values st = Raise e st' ->
  (exists j,
      j < length inputs_values
      /\ e = KeyError (Py.str (Z.of_nat j))
      /\ dict_get inputs (Py.str (Z.of_nat j)) = None
      /\ bind_commands cfg inputs 0 inputs_values = None)
  \/ (exists cmds,
         row_commands cfg inputs outputs inputs_values = Some cmds
         /\ calls st' = (calls st ++ cmds ++ [engine])%list).
Proof.
  rewrite run_row_eq.
  set (s0 := add_calls (add_console st [running line]) [rm_command cfg]).
  unfold bind.
  destruct (prepare_and_simulate env cfg inputs outputs inputs_values s0)
    as [readout s1|code s1|e1 s1] eqn:E.
  - unfold write_record.
    destruct (decode fm cfg prefix readout) as [e2|row]; [|discriminate].
    unfold raise. intros [= _ <-]. right.
    apply prepare_and_simulate_done in E.
    destruct E as (binds & captures & Hb & Hc & _ & ->).
    exists (rm_command cfg :: config_commands cfg ++ binds ++ captures)%list.
    unfold row_commands. rewrite Hb, Hc. split; [reflexivity|].
    subst s0. simpl. rewrite <- !app_assoc. reflexivity.
  - discriminate.
  - intros [= <- _]. left. apply prepare_raise in E.
    destruct E as (j & Hj & He & Hn). exists j.
    repeat split; try assumption.
    exact (bind_commands_none inputs_values 0 j Hj Hn).
Qed.

Lemma run_row_exit (line : string) (inputs_values : list string)
    (st st' : State) (code : Z) :
  run_row env fm cfg inputs outputs prefix line inputs_values st = Exit code st' ->
  code = 2%Z /\ outfile st' = outfile st.
Proof.
  intros H.
  destruct (run_row_checked env fm cfg inputs outputs prefix line
              inputs_values st) as (ext & _ & _ & Hc).
  rewrite H in Hc. tauto.
Qed.

End Rows.

(** X4. An accepted row that runs to its end has run, behind the removal
    of the simbox file and the ten directives, one bind command for each
    of its values, in column order: the [j]-th binds the [j]-th value to
    the input name stored under the position [j]; the capture requests
    and the engine follow. *)
Theorem inputs_bound_by_position :
  forall (env : Env) (fm : Float32) (cfg : RunConfig)
         (inputs outputs : Dict) (prefix raw : string) (st st' : State),
    accepted inputs raw = true ->
    process_line env fm cfg inputs outputs prefix raw st = Done tt st' ->
    exists binds captures,
      calls st'
      = (calls st ++ rm_command cfg :: config_commands cfg ++ binds
           ++ captures ++ [the_engine_command cfg outputs])%list
      /\ length binds = length (Py.split "," (Py.strip raw))
      /\ forall j v,
           nth_error (Py.split "," (Py.strip raw)) j = Some v ->
           exists name,
             dict_get inputs (Py.str (Z.of_nat j)) = Some name
             /\ nth_error binds j = Some (bind_command cfg name v).
Proof.
  intros env fm cfg inputs outputs prefix raw st st' Hacc Hdone.
  rewrite process_line_accepted in Hdone by assumption.
  apply run_row_done in Hdone.
  destruct Hdone as (cmds & row & Hcmds & _ & ->).
  unfold row_commands in Hcmds.
  destruct (bind_commands cfg inputs 0 (Py.split "," (Py.strip raw)))
    as [binds|] eqn:Eb; [|discriminate].
  destruct (capture_commands cfg outputs (dict_keys outputs))
    as [captures|]; [|discriminate].
  injection Hcmds as <-.
  destruct (bind_commands_nth cfg inputs _ _ _ Eb) as [Hlen Hnth].
  exists binds, captures. split; [|split; [exact Hlen | exact Hnth]].
  simpl. rewrite <- !app_assoc. reflexivity.
Qed.

Lemma inputs_bound_witness :
  exists binds captures,
    calls (state_of
             (process_line demo_env ExactDecimal.model default_config
                demo_inputs demo_outputs "0f" "7,9"
                (initial_state default_config [])))
    = ([] ++ rm_command default_config :: config_commands default_config
         ++ binds ++ captures
         ++ [the_engine_command default_config demo_outputs])%list
    /\ length binds = length (Py.split "," (Py.strip "7,9"))
    /\ forall j v,
         nth_error (Py.split "," (Py.strip "7,9")) j = Some v ->
         exists name,
           dict_get demo_inputs (Py.str (Z.of_nat j)) = Some name
           /\ nth_error binds j = Some (bind_command default_config name v).
Proof.
  apply (inputs_bound_by_position demo_env ExactDecimal.model default_config
           demo_inputs demo_outputs "0f" "7,9"
           (initial_state default_config [])).
  - reflexivity.
  - vm_compute. reflexivity.
Defined.





(* ================================================================== *)
(** ** The batch as a whole                                             *)
(* ================================================================== *)

Section Batch.

Variable env : Env.
Variable fm : Float32.
Variable cfg : RunConfig.
Variable inputs outputs : Dict.
Variable prefix : string.

Local Abbreviation engine := (the_engine_command cfg outputs).

Lemma engine_calls_app (a b : list string) :
  engine_calls (a ++ b) = engine_calls a + engine_calls b.
Proof. unfold engine_calls. rewrite filter_app, length_app. reflexivity. Qed.

Lemma engine_calls_none (cmds : list string) :
  Forall (fun c => Py.startswith "bondmachine" c = false) cmds ->
  engine_calls cmds = 0.
Proof.
  unfold engine_calls. induction 1 as [|c r Hc _ IH]; [reflexivity|].
  cbn [filter]. rewrite Hc. exact IH.
Qed.

Lemma bind_commands_simbox (inputs_values : list string) :
  forall i cs,
    bind_commands cfg inputs i inputs_values = Some cs ->
    Forall (fun c => Py.startswith "bondmachine" c = false) cs.
Proof.
  induction inputs_values as [|v r IH]; intros i cs; simpl.
  - intros [= <-]. constructor.
  - destruct (dict_get inputs _); [|discriminate].
    destruct (bind_commands cfg inputs (S i) r) eqn:E; [|discriminate].
    intros [= <-]. constructor; [reflexivity | eapply IH; eassumption].
Qed.

Lemma capture_commands_simbox (names : list string) :
  forall cs,
    capture_commands cfg outputs names = Some cs ->
    Forall (fun c => Py.startswith "bondmachine" c = false) cs.
Proof.
  induction names as [|n r IH]; intros cs; simpl.
  - intros [= <-]. constructor.
  - destruct (dict_get outputs n); [|discriminate].
    destruct (capture_commands cfg outputs r) eqn:E; [|discriminate].
    intros [= <-]. constructor; [reflexivity | apply IH; reflexivity].
Qed.

Lemma config_commands_simbox :
  Forall (fun c => Py.startswith "bondmachine" c = false) (config_commands cfg).
Proof. unfold config_commands. repeat constructor. Qed.

Lemma row_commands_no_engine (inputs_values cmds : list string) :
  row_commands cfg inputs outputs inputs_values = Some cmds ->
  engine_calls cmds = 0.
Proof.
  unfold row_commands.
  destruct (bind_commands cfg inputs 0 inputs_values) as [binds|] eqn:Eb;
    [|discriminate].
  destruct (capture_commands cfg outputs (dict_keys outputs))
    as [captures|] eqn:Ec; [|discriminate].
  intros H.
  assert (Hc : cmds = (rm_command cfg :: config_commands cfg ++ binds
                         ++ captures)%list) by congruence.
  rewrite Hc. apply engine_calls_none.
  apply Forall_cons; [reflexivity|].
  apply Forall_app. split; [apply config_commands_simbox|].
  apply Forall_app. split.
  - eapply bind_commands_simbox; eassumption.
  - eapply capture_commands_simbox; eassumption.
Qed.

Lemma row_loop_engine_calls (lines : list string) :
  forall st st',
    row_loop env fm cfg inputs outputs prefix lines st = Done tt st' ->
    exists ext,
      calls st' = (calls st ++ ext)%list
      /\ engine_calls ext = length (filter (accepted inputs) lines).
Proof.
  induction lines as [|raw r IH]; intros st st'.
  - simpl. unfold ret. intros [= <-]. exists []. rewrite app_nil_r. auto.
  - simpl row_loop. unfold bind.
    destruct (process_line env fm cfg inputs outputs prefix raw st)
      as [[] s1|code s1|e s1] eqn:E; try discriminate.
    intros Hrest. apply IH in Hrest. destruct Hrest as (ext & Hc & Hn).
    simpl filter. destruct (accepted inputs raw) eqn:Hacc.
    + rewrite process_line_accepted in E by assumption.
      apply run_row_done in E. destruct E as (cmds & row & Hcmds & _ & ->).
      simpl in Hc. exists (cmds ++ [engine] ++ ext)%list.
      split; [rewrite Hc, <- !app_assoc; reflexivity|].
      rewrite !engine_calls_app, (row_commands_no_engine _ _ Hcmds), Hn.
      reflexivity.
    + rewrite process_line_rejected in E by assumption.
      injection E as <-. exists ext. auto.
Qed.

(** Whatever way the loop ends, the file holds whole records: those of
    the first accepted rows. *)
Lemma row_loop_outfile (lines : list string) :
  forall st, exists n,
    n <= length (filter (accepted inputs) lines)
    /\ outfile (state_of (row_loop env fm cfg inputs outputs prefix lines st))
       = outfile st
         ++ String.concat ""
              (firstn n
                 (expected_records env fm cfg inputs outputs prefix (calls st)
                    (filter (accepted inputs) lines))).
Proof.
  induction lines as [|raw r IH]; intros st.
  - exists 0. simpl. rewrite append_nil_r. auto.
  - simpl row_loop. unfold bind. simpl filter.
    destruct (accepted inputs raw) eqn:Hacc.
    + rewrite process_line_accepted by assumption.
      destruct (run_row env fm cfg inputs outputs prefix (Py.strip raw)
                  (Py.split "," (Py.strip raw)) st)
        as [[] s1|code s1|e s1] eqn:E.
      * apply run_row_done in E. destruct E as (cmds & row & Hcmds & Hrow & ->).
        match goal with
        | |- context [row_loop _ _ _ _ _ _ r ?s] => destruct (IH s) as (n & Hn & Hf)
        end.
        simpl in Hf. exists (S n). split; [simpl; lia|].
        simpl expected_records. unfold record_of, history_after.
        rewrite Hcmds, Hrow. cbn [firstn]. rewrite concat_cons, Hf.
        rewrite append_assoc. reflexivity.
      * exists 0. split; [lia|]. simpl.
        rewrite append_nil_r. exact (proj2 (run_row_exit _ _ _ _ _ _ _ _ _ _ _ E)).
      * exists 0. split; [lia|]. simpl.
        rewrite append_nil_r. exact (proj1 (run_row_raise _ _ _ _ _ _ _ _ _ _ _ E)).
    + rewrite process_line_rejected by assumption.
      destruct (IH (add_console st [column_error])) as (n & Hn & Hf).
      exists n. split; assumption.
Qed.

(** *** What was printed does not matter *)

Lemma same_run_refl (st : State) : same_run st st.
Proof. repeat split. Qed.

Lemma respects_bind {A B : Type} (m : M A) (k : A -> M B) :
  respects m -> (forall a, respects (k a)) -> respects (bind m k).
Proof.
  intros Hm Hk st1 st2 Hs. unfold bind. specialize (Hm st1 st2 Hs).
  destruct (m st1) as [a1 s1|c1 s1|e1 s1], (m st2) as [a2 s2|c2 s2|e2 s2];
    simpl in Hm; try contradiction; try exact Hm.
  destruct Hm as [<- Hs']. apply Hk. exact Hs'.
Qed.

Lemma respects_ret {A : Type} (a : A) : respects (ret a).
Proof. intros st1 st2 Hs. simpl. auto. Qed.

Lemma respects_raise {A : Type} (e : Exn) : respects (raise e : M A).
Proof. intros st1 st2 Hs. simpl. auto. Qed.

Lemma respects_exit {A : Type} (code : Z) : respects (sys_exit code : M A).
Proof. intros st1 st2 Hs. simpl. auto. Qed.

Lemma respects_print (text : string) : respects (print text).
Proof. intros st1 st2 (Hc & Hf & Hv). simpl. repeat split; assumption. Qed.

Lemma respects_write (text : string) : respects (write text).
Proof.
  intros st1 st2 (Hc & Hf & Hv).
  unfold write, same_result, same_run. cbn [calls outfile stopOnValidOf].
  rewrite Hf. auto.
Qed.

Lemma respects_popen (command : string) : respects (popen env command).
Proof.
  intros st1 st2 (Hc & Hf & Hv). simpl. rewrite Hc.
  repeat split; assumption.
Qed.

Lemma respects_fail (A : Type) (texts : list string) :
  respects (print_all texts ;; (sys_exit 2%Z : M A)).
Proof.
  apply respects_bind; [|intros _; apply respects_exit].
  induction texts as [|t r IH]; [apply respects_ret|].
  simpl. apply respects_bind; [apply respects_print | intros _; exact IH].
Qed.

Create HintDb run.

#[local] Hint Resolve respects_ret respects_raise respects_exit respects_print
  respects_write respects_popen : run.

Ltac respects_step :=
  first [ apply respects_bind; [|intro] | progress auto with run ].

Lemma respects_run_config (commands : list string) :
  respects (run_config env commands).
Proof.
  induction commands as [|c r IH]; simpl; [auto with run|].
  apply respects_bind; [auto with run|]. intros p.
  destruct (returncode p =? 0)%Z; [exact IH|].
  repeat respects_step.
Qed.

Lemma respects_bind_inputs (inputs_values : list string) :
  forall i, respects (bind_inputs env cfg inputs i inputs_values).
Proof.
  induction inputs_values as [|v r IH]; intros i; simpl; [auto with run|].
  destruct (dict_get inputs _); [|auto with run].
  apply respects_bind; [auto with run|]. intros p.
  destruct (returncode p =? 0)%Z; [apply IH|].
  repeat respects_step.
Qed.

Lemma respects_capture_outputs (names : list string) :
  respects (capture_outputs env cfg outputs names).
Proof.
  induction names as [|n r IH]; simpl; [auto with run|].
  destruct (dict_get outputs n); [|auto with run].
  apply respects_bind; [auto with run|]. intros p.
  destruct (returncode p =? 0)%Z; [exact IH|].
  repeat respects_step.
Qed.

Lemma respects_simulate : respects (simulate env cfg outputs).
Proof.
  unfold simulate.
  apply respects_bind.
  { intros st1 st2 (Hc & Hf & Hv). simpl. repeat split; assumption. }
  intros _. apply respects_bind.
  { intros st1 st2 (Hc & Hf & Hv). simpl. repeat split; assumption. }
  intros stop. apply respects_bind; [auto with run|]. intros p.
  destruct (returncode p =? 0)%Z; repeat respects_step.
Qed.

Lemma respects_run_row (line : string) (inputs_values : list string) :
  respects (run_row env fm cfg inputs outputs prefix line inputs_values).
Proof.
  unfold run_row, prepare_and_simulate, write_record.
  apply respects_bind; [auto with run|]. intros _.
  apply respects_bind; [auto with run|]. intros _.
  apply respects_bind.
  - apply respects_bind; [apply respects_run_config|]. intros _.
    apply respects_bind; [apply respects_bind_inputs|]. intros _.
    apply respects_bind; [apply respects_capture_outputs|]. intros _.
    apply respects_simulate.
  - intros readout. destruct (decode fm cfg prefix readout); auto with run.
Qed.

Lemma respects_process_line (raw : string) :
  respects (process_line env fm cfg inputs outputs prefix raw).
Proof.
  unfold process_line.
  destruct (length (Py.split "," (Py.strip raw)) =? 0)%nat; [auto with run|].
  destruct (length (Py.split "," (Py.strip raw)) =? length inputs)%nat;
    [apply respects_run_row | auto with run].
Qed.

Lemma row_loop_without_rejected (lines : list string) :
  forall st1 st2,
    same_run st1 st2 ->
    same_result
      (row_loop env fm cfg inputs outputs prefix lines st1)
      (row_loop env fm cfg inputs outputs prefix
         (filter (accepted inputs) lines) st2).
Proof.
  induction lines as [|raw r IH]; intros st1 st2 Hs.
  - simpl. auto.
  - simpl filter. destruct (accepted inputs raw) eqn:Hacc.
    + simpl row_loop. unfold bind.
      pose proof (respects_process_line raw st1 st2 Hs) as Hp.
      destruct (process_line env fm cfg inputs outputs prefix raw st1)
        as [a1 s1|c1 s1|e1 s1],
               (process_line env fm cfg inputs outputs prefix raw st2)
        as [a2 s2|c2 s2|e2 s2];
        simpl in Hp; try contradiction; try exact Hp.
      apply IH. apply Hp.
    + simpl row_loop. unfold bind.
      rewrite process_line_rejected by assumption.
      apply IH. destruct Hs as (Hc & Hf & Hv). repeat split; assumption.
Qed.

(** *** A world in which every command succeeds *)

Hypothesis Hsucceed : all_succeed env.

Lemma run_config_succeeds (commands : list string) :
  forall st, run_config env commands st = Done tt (add_calls st commands).
Proof.
  induction commands as [|c r IH]; intros st; simpl.
  - unfold ret. rewrite add_calls_nil. reflexivity.
  - unfold bind, popen. rewrite Hsucceed. simpl.
    rewrite IH. f_equal. apply (add_calls_app st [c] r).
Qed.

Lemma bind_inputs_succeeds (inputs_values : list string) :
  forall i cs st,
    bind_commands cfg inputs i inputs_values = Some cs ->
    bind_inputs env cfg inputs i inputs_values st = Done tt (add_calls st cs).
Proof.
  induction inputs_values as [|v r IH]; intros i cs st; simpl.
  - intros [= <-]. unfold ret. rewrite add_calls_nil. reflexivity.
  - destruct (dict_get inputs _) as [name|]; [|discriminate].
    destruct (bind_commands cfg inputs (S i) r) as [cs'|] eqn:E; [|discriminate].
    intros [= <-]. unfold bind, popen. rewrite Hsucceed. simpl.
    rewrite (IH _ _ _ E). f_equal.
    apply (add_calls_app st [bind_command cfg name v] cs').
Qed.

Lemma capture_outputs_succeeds (names : list string) :
  forall cs st,
    capture_commands cfg outputs names = Some cs ->
    capture_outputs env cfg outputs names st = Done tt (add_calls st cs).
Proof.
  induction names as [|n r IH]; intros cs st; simpl.
  - intros [= <-]. unfold ret. rewrite add_calls_nil. reflexivity.
  - destruct (dict_get outputs n) as [id|]; [|discriminate].
    destruct (capture_commands cfg outputs r) as [cs'|] eqn:E; [|discriminate].
    intros [= <-]. unfold bind, popen. rewrite Hsucceed. simpl.
    rewrite (IH _ _ eq_refl). f_equal.
    apply (add_calls_app st [capture_command cfg outputs id] cs').
Qed.

Lemma capture_commands_keys (names : list string) :
  (forall n, In n names -> In n (dict_keys outputs)) ->
  capture_commands cfg outputs names <> None.
Proof.
  induction names as [|n r IH]; intros Hin; simpl; [discriminate|].
  destruct (dict_get outputs n) eqn:En.
  - destruct (capture_commands cfg outputs r) eqn:E; [discriminate|].
    exfalso. apply IH; [|reflexivity]. intros m Hm. apply Hin. right. exact Hm.
  - exfalso. apply (dict_get_key outputs n); [apply Hin; left; reflexivity|].
    exact En.
Qed.

Lemma bind_commands_named (inputs_values : list string) :
  forall i,
    (forall j, j < length inputs_values ->
               dict_get inputs (Py.str (Z.of_nat (i + j))) <> None) ->
    bind_commands cfg inputs i inputs_values <> None.
Proof.
  induction inputs_values as [|v r IH]; intros i H; simpl; [discriminate|].
  destruct (dict_get inputs (Py.str (Z.of_nat i))) eqn:En.
  - destruct (bind_commands cfg inputs (S i) r) eqn:E; [discriminate|].
    exfalso. apply (IH (S i)); [|exact E].
    intros j Hj. specialize (H (S j)). rewrite Nat.add_succ_r in H.
    apply H. simpl. lia.
  - exfalso. apply (H 0); [simpl; lia|]. rewrite Nat.add_0_r. exact En.
Qed.

Lemma bind_commands_length (inputs_values : list string) :
  forall i cs,
    bind_commands cfg inputs i inputs_values = Some cs ->
    length cs = length inputs_values.
Proof.
  induction inputs_values as [|v r IH]; intros i cs; simpl.
  - intros [= <-]. reflexivity.
  - destruct (dict_get inputs _); [|discriminate].
    destruct (bind_commands cfg inputs (S i) r) eqn:E; [|discriminate].
    intros [= <-]. simpl. f_equal. eapply IH. eassumption.
Qed.

Lemma capture_commands_length (names : list string) :
  forall cs,
    capture_commands cfg outputs names = Some cs -> length cs = length names.
Proof.
  induction names as [|n r IH]; intros cs; simpl.
  - intros [= <-]. reflexivity.
  - destruct (dict_get outputs n); [|discriminate].
    destruct (capture_commands cfg outputs r) eqn:E; [|discriminate].
    intros [= <-]. simpl. f_equal. apply IH. reflexivity.
Qed.

(** When every command succeeds, a row whose columns all have a name
    runs all its commands and reaches the engine. *)
Lemma row_reaches_engine (line : string) (inputs_values : list string)
    (st : State) :
  positions_named inputs (length inputs_values) ->
  exists binds captures,
    bind_commands cfg inputs 0 inputs_values = Some binds
    /\ capture_commands cfg outputs (dict_keys outputs) = Some captures
    /\ calls (state_of
                (run_row env fm cfg inputs outputs prefix line inputs_values st))
       = (calls st ++ rm_command cfg :: config_commands cfg ++ binds
            ++ captures ++ [engine])%list
    /\ (forall code st',
          run_row env fm cfg inputs outputs prefix line inputs_values st
          <> Exit code st').
Proof.
  intros Hnamed. rewrite run_row_eq. unfold prepare_and_simulate.
  unfold bind. rewrite run_config_succeeds.
  destruct (bind_commands cfg inputs 0 inputs_values) as [binds|] eqn:Eb;
    [|exfalso; exact (bind_commands_named inputs_values 0 Hnamed Eb)].
  rewrite (bind_inputs_succeeds _ _ _ _ Eb).
  destruct (capture_commands cfg outputs (dict_keys outputs)) as [caps|] eqn:Ec;
    [|exfalso; exact (capture_commands_keys _ (fun n H => H) Ec)].
  rewrite (capture_outputs_succeeds _ _ _ Ec).
  unfold simulate. unfold bind, set_stop, get_stop, popen, ret.
  cbn [calls console outfile stopOnValidOf].
  rewrite Hsucceed. cbn [Z.eqb]. unfold write_record.
  exists binds, caps. split; [reflexivity|]. split; [reflexivity|].
  destruct (decode fm cfg prefix _) as [e|row]; unfold raise, write;
    cbn [state_of calls add_calls add_console];
    (split; [rewrite <- !app_assoc; reflexivity | discriminate]).
Qed.

End Batch.

(* ================================================================== *)
(** ** The header row                                                   *)
(* ================================================================== *)

Lemma single_line_probability_columns (n : nat) :
  forall i, single_line (probability_columns i n).
Proof.
  induction n as [|n IH]; intros i; cbn [probability_columns].
  - intros [].
  - apply single_line_append; [intros H; vm_compute in H; intuition discriminate|].
    apply single_line_append; [apply single_line_str|].
    apply single_line_append; [apply single_line_comma | apply IH].
Qed.

(** The header row of ML mode, without its terminator. *)
Lemma ml_header_line (outputs : Dict) (bench : bool) :
  single_line (probability_columns 0 (length outputs) ++ "classification"
                 ++ (if bench then ",latency_cycles" else ""))
  /\ Py.split "," (probability_columns 0 (length outputs) ++ "classification"
                     ++ (if bench then ",latency_cycles" else ""))
     = header_names true bench (length outputs).
Proof.
  split.
  - apply single_line_append; [apply single_line_probability_columns|].
    destruct bench; intros H; vm_compute in H; intuition discriminate.
  - rewrite split_probability_columns. unfold header_names.
    destruct bench; [rewrite <- app_assoc | rewrite app_nil_r]; reflexivity.
Qed.

(** What the batch has written, however it ends: the header text and the
    records of the first accepted rows. *)
Lemma batch_outfile (env : Env) (fm : Float32) (cfg : RunConfig)
    (inputs outputs : Dict) (prefix : string) (lines : list string)
    (st : State) :
  exists n,
    n <= length (filter (accepted inputs) lines)
    /\ outfile (state_of (batch env fm cfg inputs outputs prefix lines st))
       = outfile st ++ header_text cfg outputs
           ++ String.concat ""
                (firstn n
                   (expected_records env fm cfg inputs outputs prefix
                      (calls st) (filter (accepted inputs) lines))).
Proof.
  unfold batch, bind, write.
  match goal with
  | |- context [row_loop _ _ _ _ _ _ lines ?s] =>
      destruct (row_loop_outfile env fm cfg inputs outputs prefix lines s)
        as (n & Hn & Hf)
  end.
  exists n. split; [exact Hn|]. rewrite Hf. simpl.
  rewrite append_assoc. reflexivity.
Qed.

(** C10. With the header flag set and ML mode off, the first thing the
    batch writes to the output file is a header row without probability
    and classification columns: an empty line in plain mode and the text
    [,latency_cycles] in benchmark mode; the records of the accepted rows
    follow it, however the batch ends.  In a fresh file this row is the
    first line.  The row with the columns [probability_0], ...,
    [classification] is written in ML mode. *)
Theorem header_without_ml_has_no_class_columns :
  forall (env : Env) (fm : Float32) (cfg : RunConfig)
         (inputs outputs : Dict) (prefix : string)
         (lines : list string) (st : State),
    header cfg = true ->
    exists records,
      (exists n,
          n <= length (filter (accepted inputs) lines)
          /\ records
             = String.concat ""
                 (firstn n
                    (expected_records env fm cfg inputs outputs prefix
                       (calls st) (filter (accepted inputs) lines))))
      /\ (isml cfg = false -> benchCore cfg = false ->
          outfile (state_of (batch env fm cfg inputs outputs prefix lines st))
          = outfile st ++ Py.nl ++ records)
      /\ (isml cfg = false -> benchCore cfg = true ->
          outfile (state_of (batch env fm cfg inputs outputs prefix lines st))
          = outfile st ++ ",latency_cycles" ++ Py.nl ++ records)
      /\ (isml cfg = false -> outfile st = "" ->
          Py.split newline
            (outfile (state_of
                        (batch env fm cfg inputs outputs prefix lines st)))
          = (if benchCore cfg then ",latency_cycles" else "")
              :: Py.split newline records)
      /\ (isml cfg = true ->
          exists head,
            outfile (state_of
                       (batch env fm cfg inputs outputs prefix lines st))
            = outfile st ++ head ++ Py.nl ++ records
            /\ single_line head
            /\ Py.split "," head
               = (map (fun j => ("probability_" ++ Py.str (Z.of_nat j))%string)
                      (seq 0 (length outputs))
                    ++ ["classification"]
                    ++ (if benchCore cfg then ["latency_cycles"] else []))%list).
Proof.
  intros env fm cfg inputs outputs prefix lines st Hh.
  destruct (batch_outfile env fm cfg inputs outputs prefix lines st)
    as (n & Hn & Hf).
  unfold header_text in Hf. rewrite Hh in Hf.
  eexists. split; [exists n; split; [exact Hn | reflexivity]|].
  split; [|split; [|split]].
  - intros Hml Hb. rewrite Hml, Hb in Hf. exact Hf.
  - intros Hml Hb. rewrite Hml, Hb in Hf. rewrite Hf.
    rewrite !append_assoc. reflexivity.
  - intros Hml Hfresh. rewrite Hml, Hfresh in Hf. rewrite Hf.
    cbn [append]. rewrite append_assoc. apply split_first_line.
    destruct (benchCore cfg); intros H; vm_compute in H; intuition discriminate.
  - intros Hml. rewrite Hml in Hf.
    destruct (ml_header_line outputs (benchCore cfg)) as [Hline Hcols].
    exists (probability_columns 0 (length outputs) ++ "classification"
              ++ (if benchCore cfg then ",latency_cycles" else "")).
    split; [|split; [exact Hline|]].
    + rewrite Hf, !append_assoc. reflexivity.
    + rewrite Hcols. unfold header_names. rewrite <- app_assoc. reflexivity.
Qed.

Lemma header_without_ml_witness :
  exists records,
    (exists n,
        n <= length (filter (accepted demo_inputs) ["1,2"; "3"; "4,5"])
        /\ records
           = String.concat ""
               (firstn n
                  (expected_records demo_env ExactDecimal.model
                     (with_modes false true true default_config)
                     demo_inputs demo_outputs "0f" []
                     (filter (accepted demo_inputs) ["1,2"; "3"; "4,5"]))))
    /\ outfile (state_of
                  (batch demo_env ExactDecimal.model
                     (with_modes false true true default_config)
                     demo_inputs demo_outputs "0f" ["1,2"; "3"; "4,5"]
                     (initial_state default_config [])))
       = "" ++ ",latency_cycles" ++ Py.nl ++ records
    /\ Py.split newline
         (outfile (state_of
                     (batch demo_env ExactDecimal.model
                        (with_modes false true true default_config)
                        demo_inputs demo_outputs "0f" ["1,2"; "3"; "4,5"]
                        (initial_state default_config []))))
       = ",latency_cycles" :: Py.split newline records.
Proof.
  destruct (header_without_ml_has_no_class_columns demo_env ExactDecimal.model
              (with_modes false true true default_config)
              demo_inputs demo_outputs "0f" ["1,2"; "3"; "4,5"]
              (initial_state default_config []) eq_refl)
    as (records & Hrec & _ & Hbench & Hfirst & _).
  exists records. split; [exact Hrec|]. split.
  - exact (Hbench eq_refl eq_refl).
  - exact (Hfirst eq_refl eq_refl).
Defined.

Example header_row_benchmark :
  outfile (state_of
             (batch demo_env ExactDecimal.model
                (with_modes false true true default_config)
                demo_inputs demo_outputs "0f" ["1,2"; "3"; "4,5"]
                (initial_state default_config [])))
  = ",latency_cycles" ++ Py.nl ++ "0.25,0.75,17" ++ Py.nl
      ++ "0.25,0.75,17" ++ Py.nl.
Proof. vm_compute. reflexivity. Qed.

Example header_row_plain :
  outfile (state_of
             (batch demo_env ExactDecimal.model
                (with_modes false false true default_config)
                demo_inputs demo_outputs "0f" ["1,2"]
                (initial_state default_config [])))
  = Py.nl ++ "0.25,0.75,17" ++ Py.nl.
Proof. vm_compute. reflexivity. Qed.

Example header_row_ml :
  outfile (state_of
             (batch demo_env ExactDecimal.model
                (with_modes true true true default_config)
                demo_inputs demo_outputs "0f" ["1,2"]
                (initial_state default_config [])))
  = "probability_0,probability_1,probability_2,classification,latency_cycles"
      ++ Py.nl ++ "0.25,0.75,1,17" ++ Py.nl.
Proof. vm_compute. reflexivity. Qed.

(* ================================================================== *)
(** ** The stop target                                                  *)
(* ================================================================== *)

(** The commands of a trace that are the engine command are those that
    start with [bondmachine]. *)
Lemma engine_commands_counted (cfg : RunConfig) (outputs : Dict)
    (ext : list string) :
  Forall (stops_on_last_output cfg outputs) ext ->
  length (filter (String.eqb (the_engine_command cfg outputs)) ext)
  = engine_calls ext.
Proof.
  unfold engine_calls. induction 1 as [|c r Hc _ IH]; [reflexivity|].
  cbn [filter]. destruct (Py.startswith "bondmachine" c) eqn:E.
  - rewrite (Hc E), String.eqb_refl. cbn [length]. f_equal. exact IH.
  - destruct (String.eqb_spec (the_engine_command cfg outputs) c) as [Hc'|_];
      [|exact IH].
    rewrite <- Hc' in E. discriminate E.
Qed.

Lemma simulate_state (env : Env) (cfg : RunConfig) (outputs : Dict)
    (st : State) :
  calls (state_of (simulate env cfg outputs st))
  = (calls st ++ [the_engine_command cfg outputs])%list
  /\ stopOnValidOf (state_of (simulate env cfg outputs st))
     = (Z.of_nat (length outputs) - 1)%Z.
Proof.
  unfold simulate, bind, set_stop, get_stop, popen, ret, print, sys_exit.
  cbn [calls console outfile stopOnValidOf].
  destruct (returncode _ =? 0)%Z; split; reflexivity.
Qed.

(** C4. The command that runs the engine is the text of line 206 with the
    output count minus one, in decimal, behind [-sim-stop-on-valid-of]:
    the simulation step runs that command and leaves that number in the
    global [stopOnValidOf], whatever the global held before (the user's
    [-v], or the value left by an earlier row); every engine command in
    the trace of the row loop is that text; an accepted row that runs to
    its end has run it last; a loop that runs to its end has run it once
    for each accepted row.  The option [-v] stores its number in the same
    global (line 73), and the simulation step that follows overwrites it;
    the [-v] setting changes nothing in the loop. *)
Theorem stop_target_is_last_output :
  forall (env : Env) (fm : Float32) (cfg : RunConfig)
         (inputs outputs : Dict) (prefix : string),
    (forall st,
        calls (state_of (simulate env cfg outputs st))
        = (calls st
             ++ [("bondmachine -bondmachine-file " ++ working_dir cfg
                   ++ "/bondmachine.json -simbox-file " ++ working_dir cfg
                   ++ "/simboxtemp.json -sim-stop-on-valid-of "
                   ++ Py.str (Z.of_nat (length outputs) - 1)
                   ++ " -sim -sim-interactions " ++ simulation_steps cfg
                   ++ " " ++ linear_data_range cfg)%string])%list
        /\ stopOnValidOf (state_of (simulate env cfg outputs st))
           = (Z.of_nat (length outputs) - 1)%Z)
    /\ (forall lines st ext command,
          calls (state_of (row_loop env fm cfg inputs outputs prefix lines st))
          = (calls st ++ ext)%list ->
          In command ext ->
          Py.startswith "bondmachine" command = true ->
          command
          = "bondmachine -bondmachine-file " ++ working_dir cfg
              ++ "/bondmachine.json -simbox-file " ++ working_dir cfg
              ++ "/simboxtemp.json -sim-stop-on-valid-of "
              ++ Py.str (Z.of_nat (length outputs) - 1)
              ++ " -sim -sim-interactions " ++ simulation_steps cfg
              ++ " " ++ linear_data_range cfg)
    /\ (forall raw st st',
          accepted inputs raw = true ->
          process_line env fm cfg inputs outputs prefix raw st = Done tt st' ->
          (exists cmds,
              calls st'
              = (calls st ++ cmds
                   ++ [("bondmachine -bondmachine-file " ++ working_dir cfg
                         ++ "/bondmachine.json -simbox-file " ++ working_dir cfg
                         ++ "/simboxtemp.json -sim-stop-on-valid-of "
                         ++ Py.str (Z.of_nat (length outputs) - 1)
                         ++ " -sim -sim-interactions " ++ simulation_steps cfg
                         ++ " " ++ linear_data_range cfg)%string])%list)
          /\ stopOnValidOf st' = (Z.of_nat (length outputs) - 1)%Z)
    /\ (forall lines st st',
          row_loop env fm cfg inputs outputs prefix lines st = Done tt st' ->
          exists ext,
            calls st' = (calls st ++ ext)%list
            /\ length
                 (filter
                    (String.eqb
                       ("bondmachine -bondmachine-file " ++ working_dir cfg
                          ++ "/bondmachine.json -simbox-file " ++ working_dir cfg
                          ++ "/simboxtemp.json -sim-stop-on-valid-of "
                          ++ Py.str (Z.of_nat (length outputs) - 1)
                          ++ " -sim -sim-interactions " ++ simulation_steps cfg
                          ++ " " ++ linear_data_range cfg))
                    ext)
               = length (filter (accepted inputs) lines))
    /\ (forall (py_int : string -> option Z) (s : Settings) (a : string)
               (v : Z) (st : State),
          py_int a = Some v ->
          apply_option py_int s "-v" a st = Done s (with_stop st v)
          /\ stopOnValidOf
               (state_of (simulate env cfg outputs (with_stop st v)))
             = (Z.of_nat (length outputs) - 1)%Z)
    /\ (forall st v,
          simulate env cfg outputs (with_stop st v)
          = simulate env cfg outputs st)
    /\ (forall v lines st,
          row_loop env fm (with_user_stop v cfg) inputs outputs prefix lines st
          = row_loop env fm cfg inputs outputs prefix lines st).
Proof.
  intros env fm cfg inputs outputs prefix.
  change ("bondmachine -bondmachine-file " ++ working_dir cfg
            ++ "/bondmachine.json -simbox-file " ++ working_dir cfg
            ++ "/simboxtemp.json -sim-stop-on-valid-of "
            ++ Py.str (Z.of_nat (length outputs) - 1)
            ++ " -sim -sim-interactions " ++ simulation_steps cfg
            ++ " " ++ linear_data_range cfg)
    with (the_engine_command cfg outputs).
  split; [|split; [|split; [|split; [|split; [|split]]]]].
  - intros st. apply simulate_state.
  - intros lines st ext command Hcalls Hin Hstart.
    destruct (row_loop_calls env fm cfg inputs outputs prefix lines st)
      as (ext' & Hc & Hok).
    rewrite Hc in Hcalls. apply app_inv_head in Hcalls. subst ext'.
    rewrite Forall_forall in Hok. exact (Hok command Hin Hstart).
  - intros raw st st' Hacc Hdone.
    rewrite process_line_accepted in Hdone by assumption.
    apply run_row_done in Hdone.
    destruct Hdone as (cmds & row & _ & _ & ->). simpl.
    split; [exists cmds; reflexivity | reflexivity].
  - intros lines st st' Hdone.
    destruct (row_loop_engine_calls env fm cfg inputs outputs prefix lines
                st st' Hdone) as (ext & Hc & Hn).
    exists ext. split; [exact Hc|]. rewrite <- Hn.
    apply engine_commands_counted.
    destruct (row_loop_calls env fm cfg inputs outputs prefix lines st)
      as (ext' & Hc' & Hok).
    rewrite Hdone in Hc'. simpl in Hc'. rewrite Hc in Hc'.
    apply app_inv_head in Hc'. subst ext'. exact Hok.
  - intros py_int s a v st Hv. split.
    + unfold apply_option. cbn. rewrite Hv. reflexivity.
    + apply simulate_state.
  - intros st v. reflexivity.
  - intros v lines st. reflexivity.
Qed.

Lemma stop_target_witness :
  (exists cmds,
      calls (state_of
               (process_line demo_env ExactDecimal.model
                  (mkConfig "working_dir" "200" false false 0%Z "" "float32"
                            false true)
                  demo_inputs demo_outputs "0f" "1,2"
                  (mkState [] [] "" 0%Z)))
      = ([] ++ cmds
           ++ ["bondmachine -bondmachine-file working_dir/bondmachine.json -simbox-file working_dir/simboxtemp.json -sim-stop-on-valid-of 2 -sim -sim-interactions 200 "])%list)
  /\ stopOnValidOf
       (state_of
          (process_line demo_env ExactDecimal.model
             (mkConfig "working_dir" "200" false false 0%Z "" "float32"
                       false true)
             demo_inputs demo_outputs "0f" "1,2" (mkState [] [] "" 0%Z)))
     = 2%Z.
Proof.
  destruct (stop_target_is_last_output demo_env ExactDecimal.model
              (mkConfig "working_dir" "200" false false 0%Z "" "float32"
                        false true)
              demo_inputs demo_outputs "0f") as (_ & _ & Hrow & _).
  apply (Hrow "1,2" (mkState [] [] "" 0%Z)); vm_compute; reflexivity.
Defined.

(** X7. In a batch that runs to its end the engine is called once for
    each accepted row and not at all for the other lines. *)
Theorem engine_runs_once_per_accepted_row :
  forall (env : Env) (fm : Float32) (cfg : RunConfig)
         (inputs outputs : Dict) (prefix : string)
         (lines : list string) (st st' : State),
    batch env fm cfg inputs outputs prefix lines st = Done tt st' ->
    exists ext,
      calls st' = (calls st ++ ext)%list
      /\ engine_calls ext = length (filter (accepted inputs) lines).
Proof.
  intros env fm cfg inputs outputs prefix lines st st' Hdone.
  unfold batch, bind, write in Hdone.
  apply row_loop_engine_calls in Hdone. exact Hdone.
Qed.

Lemma engine_runs_once_witness :
  exists ext,
    calls (state_of
             (batch demo_env ExactDecimal.model default_config demo_inputs
                demo_outputs "0f" ["1,2"; "3"; ""; "4,5"]
                (initial_state default_config [])))
    = ([] ++ ext)%list
    /\ engine_calls ext
       = length (filter (accepted demo_inputs) ["1,2"; "3"; ""; "4,5"]).
Proof.
  apply (engine_runs_once_per_accepted_row demo_env ExactDecimal.model
           default_config demo_inputs demo_outputs "0f"
           ["1,2"; "3"; ""; "4,5"] (initial_state default_config [])).
  vm_compute. reflexivity.
Defined.

(** X8. Whatever way the batch ends (normally, by [sys.exit] or by an
    exception), the output file holds the header and behind it whole
    records only: those of the first [n] accepted rows, for some [n]. *)
Theorem file_holds_whole_records :
  forall (env : Env) (fm : Float32) (cfg : RunConfig)
         (inputs outputs : Dict) (prefix : string)
         (lines : list string) (st : State),
    exists n,
      n <= length (filter (accepted inputs) lines)
      /\ outfile (state_of (batch env fm cfg inputs outputs prefix lines st))
         = outfile st ++ header_text cfg outputs
             ++ String.concat ""
                  (firstn n
                     (expected_records env fm cfg inputs outputs prefix
                        (calls st) (filter (accepted inputs) lines))).
Proof.
  intros env fm cfg inputs outputs prefix lines st.
  unfold batch, bind, write.
  match goal with
  | |- context [row_loop _ _ _ _ _ _ lines ?s] =>
      destruct (row_loop_outfile env fm cfg inputs outputs prefix lines s)
        as (n & Hn & Hf)
  end.
  exists n. split; [exact Hn|]. rewrite Hf. simpl.
  rewrite append_assoc. reflexivity.
Qed.

(** X9. The lines that fail the column test change nothing but the
    console: the batch ends the same way, with the same commands run and
    the same output file, as on the table without them. *)
Theorem rejected_lines_only_print :
  forall (env : Env) (fm : Float32) (cfg : RunConfig)
         (inputs outputs : Dict) (prefix : string)
         (lines : list string) (st : State),
    same_result
      (batch env fm cfg inputs outputs prefix lines st)
      (batch env fm cfg inputs outputs prefix
         (filter (accepted inputs) lines) st)
    /\ calls (state_of (batch env fm cfg inputs outputs prefix lines st))
       = calls (state_of
                  (batch env fm cfg inputs outputs prefix
                     (filter (accepted inputs) lines) st))
    /\ outfile (state_of (batch env fm cfg inputs outputs prefix lines st))
       = outfile (state_of
                    (batch env fm cfg inputs outputs prefix
                       (filter (accepted inputs) lines) st)).
Proof.
  intros env fm cfg inputs outputs prefix lines st.
  assert (H : same_result
                (batch env fm cfg inputs outputs prefix lines st)
                (batch env fm cfg inputs outputs prefix
                   (filter (accepted inputs) lines) st)).
  { unfold batch, bind, write.
    apply row_loop_without_rejected. apply same_run_refl. }
  split; [exact H|].
  destruct (batch env fm cfg inputs outputs prefix lines st),
           (batch env fm cfg inputs outputs prefix
              (filter (accepted inputs) lines) st);
    simpl in H; try contradiction; destruct H as (_ & Hc & Hf & _); auto.
Qed.



(* ================================================================== *)
(** ** The command line                                                 *)
(* ================================================================== *)

Section Options.

Variable py_int : string -> option Z.

Lemma is_either_true (o x y : string) :
  is_either o x y = true -> o = x \/ o = y.
Proof.
  unfold is_either. intros H. apply orb_true_iff in H.
  destruct H as [H|H]; apply String.eqb_eq in H; auto.
Qed.

Lemma print_all_state (texts : list string) (st : State) :
  print_all texts st = Done tt (add_console st texts).
Proof.
  revert st. induction texts as [|t r IH]; intros st; simpl.
  - unfold ret, add_console. rewrite app_nil_r. destruct st; reflexivity.
  - unfold bind, print. rewrite IH. unfold add_console. simpl.
    rewrite <- app_assoc. reflexivity.
Qed.

Lemma usage_eq : usage = print_all usage_text.
Proof. reflexivity. Qed.

Lemma print_all_exit_not_done (A : Type) (texts : list string) (code : Z)
    (st : State) (a : A) (st' : State) :
  (print_all texts ;; (sys_exit code : M A)) st <> Done a st'.
Proof. unfold bind. rewrite print_all_state. discriminate. Qed.

(** A branch of the option chain that only stores a value. *)
Ltac stored H :=
  unfold bind, set_stop, ret in H; injection H as Hs' Hst'; subst; reflexivity.

(** The next test of the chain in [H], named [E]. *)
Ltac next_test H E :=
  match type of H with
  | (if ?b then _ else _) _ = _ => destruct b eqn:E; cbv beta iota in H
  end.

(** Only [--data-type] reaches the branch that sets the data type: [-d]
    occurs in the text [--linear-data-range] and is taken by the branch
    before. *)
Lemma apply_option_data_type (s s' : Settings) (o a : string) (st st' : State) :
  apply_option py_int s o a st = Done s' st' ->
  o <> "--data-type" ->
  s_data_type s' = s_data_type s.
Proof.
  unfold apply_option. intros H Ho.
  next_test H Ew; [stored H|].
  next_test H Ei; [stored H|].
  next_test H Eo; [stored H|].
  next_test H Es; [stored H|].
  next_test H Erange; [stored H|].
  next_test H Ed.
  { exfalso. apply is_either_true in Ed. destruct Ed as [-> | ->];
      [vm_compute in Erange; discriminate Erange | congruence]. }
  next_test H Em; [stored H|].
  next_test H Eb; [stored H|].
  next_test H Eh.
  { exfalso. rewrite usage_eq in H.
    exact (print_all_exit_not_done _ _ _ _ _ _ H). }
  next_test H Ev.
  { destruct (py_int a); [stored H | discriminate H]. }
  next_test H EH; [stored H|].
  next_test H EP; stored H.
Qed.

Lemma parse_options_data_type (opts : list (string * string)) :
  forall s s' st st',
    parse_options py_int opts s st = Done s' st' ->
    (forall a, ~ In ("--data-type", a) opts) ->
    s_data_type s' = s_data_type s.
Proof.
  induction opts as [|[o a] r IH]; intros s s' st st' H Hno; simpl in H.
  - injection H as Hs' Hst'. subst s'. reflexivity.
  - unfold bind in H.
    destruct (apply_option py_int s o a st) as [s1 st1| |] eqn:E;
      try discriminate.
    rewrite (IH _ _ _ _ H) by (intros b Hb; apply (Hno b); right; exact Hb).
    apply (apply_option_data_type _ _ _ _ _ _ E).
    intros ->. apply (Hno a). left. reflexivity.
Qed.

(** None of the options handed to [getopt] reaches the branch of [-P]. *)
Lemma apply_option_omit_prefix (s s' : Settings) (o a : string) (st st' : State) :
  In o registered_options ->
  apply_option py_int s o a st = Done s' st' ->
  s_omit_prefix s' = s_omit_prefix s.
Proof.
  intros Hin. unfold apply_option. intros H.
  next_test H Ew; [stored H|].
  next_test H Ei; [stored H|].
  next_test H Eo; [stored H|].
  next_test H Es; [stored H|].
  next_test H Erange; [stored H|].
  next_test H Ed; [stored H|].
  next_test H Em; [stored H|].
  next_test H Eb; [stored H|].
  next_test H Eh.
  { exfalso. rewrite usage_eq in H.
    exact (print_all_exit_not_done _ _ _ _ _ _ H). }
  next_test H Ev.
  { destruct (py_int a); [stored H | discriminate H]. }
  next_test H EH; [stored H|].
  next_test H EP; [|stored H].
  exfalso. apply is_either_true in EP.
  vm_compute in Hin. destruct EP as [-> | ->];
    repeat (destruct Hin as [Hin|Hin]; [discriminate Hin|]); contradiction.
Qed.

Lemma parse_options_omit_prefix (opts : list (string * string)) :
  forall s s' st st',
    Forall (fun oa => In (fst oa) registered_options) opts ->
    parse_options py_int opts s st = Done s' st' ->
    s_omit_prefix s' = s_omit_prefix s.
Proof.
  induction opts as [|[o a] r IH]; intros s s' st st' Hreg H; simpl in H.
  - injection H as Hs' Hst'. subst s'. reflexivity.
  - inversion Hreg as [|? ? Ho Hr]; subst. unfold bind in H.
    destruct (apply_option py_int s o a st) as [s1 st1| |] eqn:E;
      try discriminate.
    rewrite (IH _ _ _ _ Hr H).
    exact (apply_option_omit_prefix _ _ _ _ _ _ Ho E).
Qed.

(** The option loop runs no command and writes nothing. *)
Lemma apply_option_quiet (s : Settings) (o a : string) (st : State) :
  calls (state_of (apply_option py_int s o a st)) = calls st
  /\ outfile (state_of (apply_option py_int s o a st)) = outfile st.
Proof.
  unfold apply_option.
  destruct (is_either o "-w" "--working-dir"); [split; reflexivity|].
  destruct (is_either o "-i" "--input-file"); [split; reflexivity|].
  destruct (is_either o "-o" "--output-file"); [split; reflexivity|].
  destruct (is_either o "-s" "--simulation-steps"); [split; reflexivity|].
  destruct (py_contains o "--linear-data-range"); [split; reflexivity|].
  destruct (is_either o "-d" "--data-type"); [split; reflexivity|].
  destruct (is_either o "-m" "--ml"); [split; reflexivity|].
  destruct (is_either o "-b" "--benchcore"); [split; reflexivity|].
  destruct (is_either o "-h" "--help").
  { rewrite usage_eq. unfold bind. rewrite print_all_state.
    split; reflexivity. }
  destruct (is_either o "-v" "--stop-on-valid-of").
  { destruct (py_int a); split; reflexivity. }
  destruct (is_either o "-H" "--header"); [split; reflexivity|].
  destruct (is_either o "-P" "--prefix"); split; reflexivity.
Qed.

Lemma parse_options_quiet (opts : list (string * string)) :
  forall s st,
    calls (state_of (parse_options py_int opts s st)) = calls st
    /\ outfile (state_of (parse_options py_int opts s st)) = outfile st.
Proof.
  induction opts as [|[o a] r IH]; intros s st; simpl; [split; reflexivity|].
  unfold bind. destruct (apply_option_quiet s o a st) as [Hc Hf].
  destruct (apply_option py_int s o a st) as [s1 st1| |]; simpl in Hc, Hf;
    [|split; assumption | split; assumption].
  destruct (IH s1 st1) as [Hc' Hf']. split; congruence.
Qed.

End Options.

(** X11. The short option [-d] does not set the data type: it is taken
    by the test [o in ("--linear-data-range")], a substring test that
    [-d] passes, and its value becomes the range option.  Whatever the
    options, the data type changes only through [--data-type]. *)
Theorem short_d_sets_the_range :
  forall (py_int : string -> option Z),
    (forall s a st,
        apply_option py_int s "-d" a st
        = Done (set_linear_data_range s ("-linear-data-range " ++ a)) st)
    /\ (forall opts s s' st st',
          parse_options py_int opts s st = Done s' st' ->
          (forall a, ~ In ("--data-type", a) opts) ->
          s_data_type s' = s_data_type s).
Proof.
  intros py_int. split.
  - intros s a st. reflexivity.
  - intros opts s s' st st'. apply parse_options_data_type.
Qed.

Lemma short_d_witness :
  s_data_type
    (set_linear_data_range initial_settings ("-linear-data-range " ++ "float16"))
  = s_data_type initial_settings.
Proof.
  destruct (short_d_sets_the_range demo_int) as [_ Hkeep].
  apply (Hkeep [("-d", "float16")] initial_settings _ start_state start_state).
  - reflexivity.
  - intros a [H|[]]. discriminate H.
Defined.

(** X12. No option that line 46 registers with [getopt] turns prefix
    omission off: [-P] and [--prefix] are not among them, and after any
    list of registered options [omit_prefix] is still true. *)
Theorem registered_options_keep_prefix_omission :
  forall (py_int : string -> option Z) (opts : list (string * string))
         (s' : Settings) (st st' : State),
    Forall (fun oa => In (fst oa) registered_options) opts ->
    parse_options py_int opts initial_settings st = Done s' st' ->
    s_omit_prefix s' = true
    /\ ~ In "-P" registered_options
    /\ ~ In "--prefix" registered_options.
Proof.
  intros py_int opts s' st st' Hreg H. split; [|split].
  - exact (parse_options_omit_prefix py_int opts _ _ _ _ Hreg H).
  - vm_compute. intuition discriminate.
  - vm_compute. intuition discriminate.
Qed.

Lemma registered_options_witness :
  s_omit_prefix
    (set_header (set_isml (set_working_dir initial_settings "run") true) true)
  = true
  /\ ~ In "-P" registered_options
  /\ ~ In "--prefix" registered_options.
Proof.
  apply (registered_options_keep_prefix_omission demo_int
           [("-w", "run"); ("--ml", ""); ("-H", "")] _ start_state start_state).
  - repeat constructor; vm_compute; tauto.
  - reflexivity.
Defined.

(* ================================================================== *)
(** ** The signal maps and the prefix                                   *)
(* ================================================================== *)

Section Maps.

Lemma dict_get_set_same (d : Dict) (k v : string) :
  dict_get (dict_set d k v) k = Some v.
Proof.
  induction d as [|[k' v'] r IH]; simpl.
  - rewrite String.eqb_refl. reflexivity.
  - destruct (String.eqb k' k) eqn:E; simpl; rewrite E; [reflexivity | exact IH].
Qed.

Lemma dict_get_set_other (d : Dict) (k v k0 : string) :
  k0 <> k -> dict_get (dict_set d k v) k0 = dict_get d k0.
Proof.
  intros Hne. induction d as [|[k' v'] r IH]; simpl.
  - destruct (String.eqb_spec k k0); [congruence | reflexivity].
  - destruct (String.eqb_spec k' k) as [->|Hk]; simpl.
    + destruct (String.eqb_spec k k0); [congruence | reflexivity].
    + destruct (String.eqb k' k0); [reflexivity | exact IH].
Qed.

Lemma dict_set_keys (d : Dict) (k v : string) :
  (In k (dict_keys d) /\ dict_keys (dict_set d k v) = dict_keys d)
  \/ (~ In k (dict_keys d)
      /\ dict_keys (dict_set d k v) = (dict_keys d ++ [k])%list).
Proof.
  induction d as [|[k' v'] r IH]; simpl.
  - right. split; [tauto | reflexivity].
  - destruct (String.eqb_spec k' k) as [->|Hk]; simpl.
    + left. split; [left; reflexivity | reflexivity].
    + destruct IH as [[Hin Heq]|[Hnot Heq]].
      * left. split; [right; assumption | congruence].
      * right. split; [intros [H|H]; [congruence | tauto] | congruence].
Qed.

Lemma dict_set_nodup (d : Dict) (k v : string) :
  NoDup (dict_keys d) -> NoDup (dict_keys (dict_set d k v)).
Proof.
  intros Hnd. destruct (dict_set_keys d k v) as [[_ ->]|[Hnot ->]];
    [assumption|].
  apply NoDup_app; [assumption | repeat constructor; intros [] |].
  intros x Hx [<-|[]]. exact (Hnot Hx).
Qed.

Lemma add_line_nodup (d : Dict) (o : string) :
  NoDup (dict_keys d) -> NoDup (dict_keys (add_line d o)).
Proof.
  intros Hnd. unfold add_line.
  destruct (py_split_ws o) as [|k [|v [|x t]]]; try assumption.
  apply dict_set_nodup. assumption.
Qed.

Lemma load_lines_nodup (lines : list string) :
  forall d, NoDup (dict_keys d) ->
            NoDup (dict_keys (fold_left add_line lines d)).
Proof.
  induction lines as [|o r IH]; intros d Hnd; simpl; [assumption|].
  apply IH, add_line_nodup, Hnd.
Qed.

(** The value of a key after the lines of a listing: that of the last
    line of two tokens naming it, else the value it had. *)
Lemma load_lines_lookup (lines : list string) (k : string) :
  forall d,
    dict_get (fold_left add_line lines d) k
    = match lookup_lines lines k with
      | Some v => Some v
      | None => dict_get d k
      end.
Proof.
  induction lines as [|o r IH]; intros d; simpl; [reflexivity|].
  rewrite IH. destruct (lookup_lines r k); [reflexivity|].
  unfold add_line.
  destruct (py_split_ws o) as [|k' [|v [|x t]]]; try reflexivity.
  destruct (String.eqb_spec k' k) as [->|Hne].
  - apply dict_get_set_same.
  - apply dict_get_set_other. congruence.
Qed.

End Maps.

(** X13. A map loaded from a listing is a proper map: its keys are
    distinct, and looking up the key of any of its entries gives that
    entry's value. *)
Theorem loaded_map_is_a_map :
  forall (env : Env) (command : string) (st st' : State) (d : Dict),
    load_map env command st = Done d st' ->
    NoDup (dict_keys d)
    /\ forall k v, In (k, v) d -> dict_get d k = Some v.
Proof.
  intros env command st st' d H.
  assert (Hnd : NoDup (dict_keys d)).
  { unfold load_map, bind, popen, ret in H.
    destruct (returncode (env (calls st) command) =? 0)%Z;
      injection H as <- _; [|constructor].
    apply load_lines_nodup. constructor. }
  split; [exact Hnd|]. intros k v Hin. apply dict_get_in; assumption.
Qed.

Lemma loaded_map_witness :
  NoDup (dict_keys [("0", "i0"); ("1", "i1")])
  /\ forall k v,
       In (k, v) [("0", "i0"); ("1", "i1")] ->
       dict_get [("0", "i0"); ("1", "i1")] k = Some v.
Proof.
  apply (loaded_map_is_a_map design_env
           (list_inputs_command (apply_defaults initial_settings))
           start_state
           (add_calls start_state
              [list_inputs_command (apply_defaults initial_settings)])).
  vm_compute. reflexivity.
Defined.

(** X14. When the listing command succeeds, the value the loaded map
    gives for a key is that of the last line of exactly two tokens whose
    first token is the key; lines with another number of tokens count for
    nothing, and a key no such line names is absent. *)
Theorem loaded_map_lookup :
  forall (env : Env) (command : string) (st : State),
    returncode (env (calls st) command) = 0%Z ->
    exists d,
      load_map env command st = Done d (add_calls st [command])
      /\ forall k,
           dict_get d k
           = lookup_lines (py_readlines (p_stdout (env (calls st) command))) k.
Proof.
  intros env command st Hz.
  exists (fold_left add_line
            (py_readlines (p_stdout (env (calls st) command))) []).
  split.
  - unfold load_map, bind, popen, ret. rewrite Hz. reflexivity.
  - intros k. rewrite load_lines_lookup.
    destruct (lookup_lines _ k); reflexivity.
Qed.

Lemma loaded_map_lookup_witness :
  exists d,
    load_map design_env (list_outputs_command (apply_defaults initial_settings))
      start_state
    = Done d (add_calls start_state
                [list_outputs_command (apply_defaults initial_settings)])
    /\ forall k,
         dict_get d k
         = lookup_lines
             (py_readlines
                (p_stdout
                   (design_env (calls start_state)
                      (list_outputs_command (apply_defaults initial_settings)))))
             k.
Proof.
  apply (loaded_map_lookup design_env
           (list_outputs_command (apply_defaults initial_settings)) start_state).
  vm_compute. reflexivity.
Defined.

Lemma row_loop_no_inputs (env : Env) (fm : Float32) (cfg : RunConfig)
    (outputs : Dict) (prefix : string) (lines : list string) :
  forall st,
    row_loop env fm cfg [] outputs prefix lines st
    = Done tt (add_console st (map (fun _ => column_error) lines)).
Proof.
  induction lines as [|raw r IH]; intros st; simpl.
  - unfold ret, add_console. simpl. rewrite app_nil_r. destruct st; reflexivity.
  - unfold bind. rewrite process_line_rejected.
    + rewrite IH. unfold add_console. simpl. rewrite <- app_assoc. reflexivity.
    + unfold accepted. pose proof (split_length_pos "," (Py.strip raw)).
      apply Nat.eqb_neq. simpl. lia.
Qed.

Lemma load_map_run (env : Env) (command : string) (st : State) :
  load_map env command st
  = Done (if (returncode (env (calls st) command) =? 0)%Z
          then fold_left add_line
                 (py_readlines (p_stdout (env (calls st) command))) []
          else [])
         (add_calls st [command]).
Proof.
  unfold load_map, bind, popen, ret.
  destruct (returncode (env (calls st) command) =? 0)%Z; reflexivity.
Qed.

Lemma resolve_prefix_run (env : Env) (s : Settings) (st : State) :
  resolve_prefix env s st
  = Done (if (returncode (env (calls st) (prefix_command s)) =? 0)%Z
          then fold_left (fun _ o => Py.strip o)
                 (py_readlines (p_stdout (env (calls st) (prefix_command s))))
                 (s_prefix s)
          else s_prefix s)
         (add_calls st [prefix_command s]).
Proof.
  unfold resolve_prefix, bind, popen, ret.
  destruct (returncode (env (calls st) (prefix_command s)) =? 0)%Z; reflexivity.
Qed.

(** The introspection part that ends normally has read the options, has
    run its three commands and nothing else, and has written nothing. *)
Lemma prelude_done (env : Env) (py_int : string -> option Z)
    (parsed : option (list (string * string))) (st st2 : State)
    (s : Settings) (inputs outputs : Dict) :
  prelude env py_int parsed st = Done (s, inputs, outputs) st2 ->
  calls st2
  = (calls st ++ [list_inputs_command s; list_outputs_command s;
                  prefix_command s])%list
  /\ outfile st2 = outfile st
  /\ inputs
     = (if (returncode (env (calls st) (list_inputs_command s)) =? 0)%Z
        then fold_left add_line
               (py_readlines
                  (p_stdout (env (calls st) (list_inputs_command s)))) []
        else []).
Proof.
  intros Hpre.
  unfold prelude, parse_command_line in Hpre. unfold bind at 1 in Hpre.
  destruct parsed as [opts|].
  2:{ rewrite usage_eq in Hpre.
      destruct (print_all usage_text st) as [[] s1| |]; discriminate Hpre. }
  pose proof (parse_options_quiet py_int opts initial_settings st) as [Hc Hf].
  destruct (parse_options py_int opts initial_settings st) as [s0 st1| |];
    try discriminate Hpre.
  simpl in Hc, Hf. cbv beta iota zeta in Hpre.
  unfold bind at 1, last_step in Hpre.
  destruct (py_int (s_simulation_steps (apply_defaults s0)));
    [|discriminate Hpre].
  unfold ret at 1 in Hpre.
  unfold bind at 1 in Hpre. rewrite load_map_run in Hpre.
  unfold bind at 1 in Hpre. rewrite load_map_run in Hpre.
  unfold bind at 1 in Hpre. rewrite resolve_prefix_run in Hpre.
  unfold ret in Hpre. injection Hpre as <- <- _ <-.
  cbn [calls outfile add_calls]. rewrite Hc, Hf, <- !app_assoc.
  repeat split.
Qed.

(** X15. When the command that lists the inputs fails and the script gets
    through its introspection part (lines 45-126), the input map is empty,
    the listing of the inputs, the listing of the outputs and the prefix
    command are the only commands of the whole run, and the batch rejects
    every line of the table: it writes the header only and prints the
    column diagnostic once for each line. *)
Theorem failed_input_listing_rejects_every_row :
  forall (env : Env) (py_int : string -> option Z) (fm : Float32)
         (parsed : option (list (string * string))) (lines : list string)
         (st st2 : State) (s : Settings) (inputs outputs : Dict),
    prelude env py_int parsed st = Done (s, inputs, outputs) st2 ->
    returncode (env (calls st) (list_inputs_command s)) <> 0%Z ->
    inputs = []
    /\ calls st2
       = (calls st ++ [list_inputs_command s; list_outputs_command s;
                       prefix_command s])%list
    /\ outfile st2 = outfile st
    /\ script env py_int fm parsed lines st
       = Done tt
           (mkState (calls st2)
                    (console st2 ++ map (fun _ => column_error) lines)%list
                    (outfile st2
                       ++ header_text (to_config s (stopOnValidOf st2)) outputs)
                    (stopOnValidOf st2)).
Proof.
  intros env py_int fm parsed lines st st2 s inputs outputs Hpre Hnz.
  destruct (prelude_done env py_int parsed st st2 s inputs outputs Hpre)
    as (Hcalls & Hfile & Hin).
  apply Z.eqb_neq in Hnz. rewrite Hnz in Hin. subst inputs.
  split; [reflexivity|]. split; [exact Hcalls|]. split; [exact Hfile|].
  unfold script. unfold bind at 1. rewrite Hpre.
  unfold bind at 1, get_stop. unfold batch, bind, write.
  rewrite row_loop_no_inputs. reflexivity.
Qed.

Lemma failed_input_listing_witness :
  script (fun h command =>
            if py_contains "-list-inputs" command
            then mkCompleted 1 "" "no design"
            else design_env h command)
    demo_int ExactDecimal.model (Some [("-H", "")]) ["1,2"; "3,4"] start_state
  = Done tt
      (mkState
         [ "bondmachine -bondmachine-file working_dir/bondmachine.json -list-inputs ";
           "bondmachine -bondmachine-file working_dir/bondmachine.json -list-outputs ";
           "bmnumbers -get-prefix float32 " ]
         [column_error; column_error]
         Py.nl
         (-1)%Z).
Proof.
  destruct (failed_input_listing_rejects_every_row
              (fun h command =>
                 if py_contains "-list-inputs" command
                 then mkCompleted 1 "" "no design"
                 else design_env h command)
              demo_int ExactDecimal.model (Some [("-H", "")]) ["1,2"; "3,4"]
              start_state
              (mkState
                 [ "bondmachine -bondmachine-file working_dir/bondmachine.json -list-inputs ";
                   "bondmachine -bondmachine-file working_dir/bondmachine.json -list-outputs ";
                   "bmnumbers -get-prefix float32 " ]
                 [] "" (-1)%Z)
              (set_prefix
                 (apply_defaults (set_header initial_settings true)) "0f")
              [] [("0", "o0"); ("1", "o1"); ("2", "o2")])
    as (_ & _ & _ & Hrun).
  - vm_compute. reflexivity.
  - vm_compute. discriminate.
  - rewrite Hrun. vm_compute. reflexivity.
Defined.

Lemma intersperse_empty (s : string) : Py.intersperse "" s = s.
Proof. induction s as [|c r IH]; simpl; [reflexivity | congruence]. Qed.

(** X16. The prefix is the stripped text of the last line that the prefix
    command prints; it stays at its default when the command fails or
    prints nothing.  When that last line is blank the prefix is empty, and
    an empty prefix removes nothing from a readout. *)
Theorem prefix_resolution :
  forall (env : Env) (s : Settings) (st : State),
    (returncode (env (calls st) (prefix_command s)) <> 0%Z ->
     resolve_prefix env s st
     = Done (s_prefix s) (add_calls st [prefix_command s]))
    /\ (returncode (env (calls st) (prefix_command s)) = 0%Z ->
        p_stdout (env (calls st) (prefix_command s)) = "" ->
        resolve_prefix env s st
        = Done (s_prefix s) (add_calls st [prefix_command s]))
    /\ (returncode (env (calls st) (prefix_command s)) = 0%Z ->
        forall lines last,
          py_readlines (p_stdout (env (calls st) (prefix_command s)))
          = (lines ++ [last])%list ->
          resolve_prefix env s st
          = Done (Py.strip last) (add_calls st [prefix_command s]))
    /\ (forall cfg readout, strip_prefix cfg "" readout = readout).
Proof.
  intros env s st. unfold resolve_prefix, bind, popen, ret.
  split; [|split; [|split]].
  - intros Hnz. apply Z.eqb_neq in Hnz. rewrite Hnz. reflexivity.
  - intros Hz Hout. rewrite Hz, Hout. reflexivity.
  - intros Hz lines last Hlines. rewrite Hz, Hlines.
    rewrite fold_left_app. reflexivity.
  - intros cfg readout. unfold strip_prefix.
    destruct (omit_prefix cfg); [|reflexivity].
    apply intersperse_empty.
Qed.

Lemma prefix_resolution_witness :
  resolve_prefix design_env (apply_defaults initial_settings) start_state
  = Done (Py.strip ("0f" ++ Py.nl))
         (add_calls start_state
            [prefix_command (apply_defaults initial_settings)]).
Proof.
  destruct (prefix_resolution design_env (apply_defaults initial_settings)
              start_state) as (_ & _ & Hlast & _).
  apply (Hlast eq_refl [] ("0f" ++ Py.nl)).
  vm_compute. reflexivity.
Defined.

(** X17. A step count that [int] does not accept ends the script with a
    [ValueError] at line 86, after the options are read and before any
    command is run or anything is written. *)
Theorem bad_step_count_stops_before_any_command :
  forall (env : Env) (py_int : string -> option Z) (fm : Float32)
         (opts : list (string * string)) (lines : list string)
         (st st1 : State) (s : Settings),
    parse_options py_int opts initial_settings st = Done s st1 ->
    py_int (s_simulation_steps (apply_defaults s)) = None ->
    script env py_int fm (Some opts) lines st = Raise ValueError st1
    /\ calls st1 = calls st
    /\ outfile st1 = outfile st.
Proof.
  intros env py_int fm opts lines st st1 s Hparse Hint. split.
  - unfold script, prelude, parse_command_line. unfold bind at 1 2.
    rewrite Hparse. cbv beta iota zeta. unfold bind at 1, last_step.
    rewrite Hint. reflexivity.
  - pose proof (parse_options_quiet py_int opts initial_settings st) as Hq.
    rewrite Hparse in Hq. exact Hq.
Qed.

Lemma bad_step_count_witness :
  script design_env demo_int ExactDecimal.model
    (Some [("-m", ""); ("-s", "many")]) ["1,2"] start_state
  = Raise ValueError start_state
  /\ calls start_state = calls start_state
  /\ outfile start_state = outfile start_state.
Proof.
  apply (bad_step_count_stops_before_any_command design_env demo_int
           ExactDecimal.model [("-m", ""); ("-s", "many")] ["1,2"]
           start_state start_state
           (set_simulation_steps (set_isml initial_settings true) "many")).
  - reflexivity.
  - vm_compute. reflexivity.
Defined.

(* ================================================================== *)
(** ** A NaN among the probabilities                                    *)
(* ================================================================== *)

Section NaN.

Variable fm : Float32.

(** The scan stops at the first NaN. *)
Lemma argmax_scan_nan (pre : list (f32 fm)) (v : f32 fm)
    (post : list (f32 fm)) :
  Forall (fun a => f32_le fm a a = true) pre ->
  (forall a, f32_le fm v a = false) ->
  forall mp best i,
    argmax_scan fm mp best i (pre ++ v :: post) = i + length pre.
Proof.
  intros Hpre Hnan. induction Hpre as [|a r Ha _ IH]; intros mp best i.
  - cbn [app argmax_scan length]. unfold f32_isnan. rewrite !Hnan. simpl. lia.
  - cbn [app argmax_scan length]. unfold f32_isnan. rewrite Ha.
    destruct (f32_le fm a mp); cbn [negb]; rewrite IH; lia.
Qed.

Lemma argmax_nan (pre : list (f32 fm)) (v : f32 fm) (post : list (f32 fm)) :
  Forall (fun a => f32_le fm a a = true) pre ->
  (forall a, f32_le fm v a = false) ->
  argmax fm (pre ++ v :: post) = Some (length pre).
Proof.
  intros Hpre Hnan. destruct Hpre as [|a r Ha Hr].
  - cbn [app argmax]. unfold f32_isnan. rewrite Hnan. reflexivity.
  - cbn [app argmax length]. unfold f32_isnan. rewrite Ha. cbn [negb].
    rewrite (argmax_scan_nan r v post Hr Hnan). reflexivity.
Qed.

End NaN.

(** X18. In ML mode, when one of the probabilities is a NaN (a value that
    compares with nothing) and the values before it are numbers, the class
    index of the record is the position of that first NaN, whatever the
    other values are. *)
Theorem first_nan_is_the_class_index :
  forall (fm : Float32) (cfg : RunConfig) (prefix readout : string)
         (pre : list (f32 fm)) (v : f32 fm) (post : list (f32 fm)),
    isml cfg = true ->
    astype fm (Py.split " " (probability_line cfg prefix readout))
    = Some (pre ++ v :: post)%list ->
    Forall (fun a => f32_le fm a a = true) pre ->
    (forall a, f32_le fm v a = false) ->
    decode fm cfg prefix readout
    = inr (Py.replace " " "," (probability_line cfg prefix readout)
           ++ "," ++ Py.str (Z.of_nat (length pre))
           ++ latency_field cfg prefix readout ++ Py.nl).
Proof.
  intros fm cfg prefix readout pre v post Hml Hvals Hpre Hnan.
  rewrite decode_fields. unfold format_fields, classify.
  rewrite Hml, Hvals, (argmax_nan fm pre v post Hpre Hnan).
  rewrite !append_assoc. reflexivity.
Qed.

Lemma first_nan_witness :
  decode DecimalOrNaN.model (with_modes true false false default_config)
         "0f" "0f0.5 nan 0f0.9 nan"
  = inr (Py.replace " " ","
           (probability_line (with_modes true false false default_config)
                             "0f" "0f0.5 nan 0f0.9 nan")
         ++ "," ++ Py.str (Z.of_nat (length [Some (5%Z, 1)]))
         ++ latency_field (with_modes true false false default_config)
                          "0f" "0f0.5 nan 0f0.9 nan" ++ Py.nl).
Proof.
  apply (first_nan_is_the_class_index DecimalOrNaN.model
           (with_modes true false false default_config)
           "0f" "0f0.5 nan 0f0.9 nan"
           [Some (5%Z, 1)] None [Some (9%Z, 1); None]).
  - reflexivity.
  - reflexivity.
  - repeat constructor.
  - intros a. reflexivity.
Defined.

Example nan_first : 
  decode DecimalOrNaN.model (with_modes true false false default_config)
         "0f" "nan 0f0.5"
  = inr ("nan,0.5,0" ++ Py.nl).
Proof. reflexivity. Qed.

Example nan_second :
  decode DecimalOrNaN.model (with_modes true false false default_config)
         "0f" "0f0.5 nan 0f0.9 nan"
  = inr ("0.5,nan,0.9,nan,1" ++ Py.nl).
Proof. reflexivity. Qed.
